(** * A shallow embedding of the channel and repository validator (action.py)

    The Python source validates the JSON files of a package channel: it
    checks the keys and the values of packages, dependencies and releases,
    keeps three registries of the names it has met, and walks the documents
    a repository includes.  This file translates the validating functions
    into Rocq functions and settles the statements of the specification
    against them.

    Conventions of the embedding.
    - A Python [str] is a Rocq [string]; its characters are read as the code
      points U+0000 to U+00FF, and the character predicates below are those
      of Python on that range.  Code points above U+00FF are not modelled.
    - A parsed JSON document is a value of [json].  A JSON real is
      represented by the rational value of its binary64; the non-finite
      reals that [json.loads] also accepts are not modelled.
    - A check returns [Ok tt] when it passes and [Raise e] when the
      exception [e] leaves it; a [unittest] assertion that does not hold
      raises [AssertionError f], written [Fail f], with one constructor of
      [failure] for each assertion of the source.
    - The class attributes [package_names], [dependency_names] and
      [previous_package_names] are one [registry] value passed from check to
      check. *)

From Stdlib Require Import String Ascii List ZArith NArith QArith Qcanon Lia Bool.
From stdpp Require Import base option countable gmap strings list sorting.

Local Open Scope string_scope.
Local Open Scope list_scope.

(** ** Characters and strings *)

Module Text.

Definition code (c : ascii) : N := N_of_ascii c.

Definition in_range (lo hi : N) (c : ascii) : bool :=
  ((lo <=? code c) && (code c <=? hi))%N.

(** [str.lower] on one character: A-Z, and in the Latin-1 block the
    letters U+00C0-U+00D6 and U+00D8-U+00DE, move up by 32. *)
Definition lower_char (c : ascii) : ascii :=
  if in_range 65 90 c || in_range 192 214 c || in_range 216 222 c
  then ascii_of_N (code c + 32) else c.

Fixpoint lower (s : string) : string :=
  match s with
  | EmptyString => EmptyString
  | String c s' => String (lower_char c) (lower s')
  end.

(** [str.isdigit] on one character: the decimal digits and the
    superscripts U+00B2, U+00B3 and U+00B9. *)
Definition isdigit (c : ascii) : bool :=
  in_range 48 57 c || (code c =? 178)%N || (code c =? 179)%N || (code c =? 185)%N.

(** [\d] of [re] on a [str] pattern: the decimal digits only. *)
Definition is_decimal (c : ascii) : bool := in_range 48 57 c.

(** [\s] of [re], and [str.isspace]: the white space of Python. *)
Definition isspace (c : ascii) : bool :=
  in_range 9 13 c || in_range 28 32 c || (code c =? 133)%N || (code c =? 160)%N.

(** The line boundaries of [str.splitlines], but for the pair CR LF that
    [splitlines] below treats on its own. *)
Definition is_linebreak (c : ascii) : bool :=
  in_range 10 13 c || in_range 28 30 c || (code c =? 133)%N.

Definition LF : ascii := ascii_of_N 10.
Definition CR : ascii := ascii_of_N 13.
Definition TAB : ascii := ascii_of_N 9.

(** [s.startswith(p)] *)
Definition startswith (p s : string) : bool := String.prefix p s.

(** [p in s] for two strings: [p] occurs in [s]. *)
Fixpoint contains (p s : string) : bool :=
  String.prefix p s ||
  match s with
  | EmptyString => false
  | String _ s' => contains p s'
  end.

(** [s.lstrip("/")], [s.rstrip("/")] and [s.strip("/")]. *)
Fixpoint lstrip_slash (s : string) : string :=
  match s with
  | String "/" s' => lstrip_slash s'
  | _ => s
  end.

Fixpoint rstrip_slash (s : string) : string :=
  match s with
  | EmptyString => EmptyString
  | String c s' =>
      match rstrip_slash s' with
      | EmptyString => if Ascii.eqb c "/" then EmptyString else String c EmptyString
      | t => String c t
      end
  end.

Definition strip_slash (s : string) : string := rstrip_slash (lstrip_slash s).

Fixpoint has_slash (s : string) : bool :=
  match s with
  | EmptyString => false
  | String c s' => Ascii.eqb c "/" || has_slash s'
  end.

(** [s.rsplit("/", 1)[-1]]: what follows the last slash of [s], or [s]
    when it has none. *)
Fixpoint last_segment (s : string) : string :=
  match s with
  | EmptyString => EmptyString
  | String _ s' => if has_slash s then last_segment s' else s
  end.

(** [s.splitlines()]: the lines of [s] without their boundaries; CR LF
    is one boundary, and no empty last line follows a final boundary. *)
Fixpoint splitlines_go (cur : string) (s : string) : list string :=
  match s with
  | EmptyString => if String.eqb cur "" then [] else [String.rev cur]
  | String c s' =>
      if is_linebreak c then
        String.rev cur ::
          match s' with
          | String c' s'' =>
              if Ascii.eqb c CR && Ascii.eqb c' LF
              then splitlines_go "" s'' else splitlines_go "" s'
          | EmptyString => []
          end
      else splitlines_go (String c cur) s'
  end.

Definition splitlines (s : string) : list string := splitlines_go "" s.

End Text.

(** ** Regular expressions

    The patterns of the source are written in [regex] and matched with
    derivatives.  [re.search] with a pattern anchored by [^] looks for a
    prefix of the subject, and the anchor [$] of Python holds at the end of
    the subject and also just before a line feed that ends it; [search_from_start]
    and [search_anchored] below say so. *)

Module Re.

Inductive regex : Type :=
| Void
| Eps
| Cls (p : ascii -> bool)
| Cat (r1 r2 : regex)
| Alt (r1 r2 : regex)
| Star (r : regex)
| And (r1 r2 : regex)
| Neg (r : regex).

Fixpoint nullable (r : regex) : bool :=
  match r with
  | Void => false
  | Eps => true
  | Cls _ => false
  | Cat r1 r2 => nullable r1 && nullable r2
  | Alt r1 r2 => nullable r1 || nullable r2
  | Star _ => true
  | And r1 r2 => nullable r1 && nullable r2
  | Neg r1 => negb (nullable r1)
  end.

Fixpoint deriv (c : ascii) (r : regex) : regex :=
  match r with
  | Void => Void
  | Eps => Void
  | Cls p => if p c then Eps else Void
  | Cat r1 r2 =>
      if nullable r1
      then Alt (Cat (deriv c r1) r2) (deriv c r2)
      else Cat (deriv c r1) r2
  | Alt r1 r2 => Alt (deriv c r1) (deriv c r2)
  | Star r1 => Cat (deriv c r1) (Star r1)
  | And r1 r2 => And (deriv c r1) (deriv c r2)
  | Neg r1 => Neg (deriv c r1)
  end.

(** [fullmatch r s]: the whole of [s] is a word of [r]. *)
Fixpoint fullmatch (r : regex) (s : string) : bool :=
  match s with
  | EmptyString => nullable r
  | String c s' => fullmatch (deriv c r) s'
  end.

(** Pattern combinators. *)
Definition chr (c : ascii) : regex := Cls (Ascii.eqb c).
Definition any : regex := Cls (fun _ => true).
Definition none_of (cs : string) : regex :=
  Cls (fun c => negb (existsb (Ascii.eqb c) (list_ascii_of_string cs))).
Definition one_of (cs : string) : regex :=
  Cls (fun c => existsb (Ascii.eqb c) (list_ascii_of_string cs)).
Definition range (lo hi : ascii) : regex :=
  Cls (Text.in_range (Text.code lo) (Text.code hi)).
Definition digit : regex := Cls Text.is_decimal.
Definition nonspace : regex := Cls (fun c => negb (Text.isspace c)).

Fixpoint lit (s : string) : regex :=
  match s with
  | EmptyString => Eps
  | String c s' => Cat (chr c) (lit s')
  end.

(** A literal under the flag [re.I]. *)
Fixpoint lit_nocase (s : string) : regex :=
  match s with
  | EmptyString => Eps
  | String c s' =>
      Cat (Cls (fun x => Ascii.eqb (Text.lower_char x) (Text.lower_char c)))
          (lit_nocase s')
  end.

Definition opt (r : regex) : regex := Alt r Eps.
Definition plus (r : regex) : regex := Cat r (Star r).
Fixpoint times (n : nat) (r : regex) : regex :=
  match n with
  | O => Eps
  | S n' => Cat r (times n' r)
  end.
Fixpoint seq (rs : list regex) : regex :=
  match rs with
  | [] => Eps
  | r :: rs' => Cat r (seq rs')
  end.
Fixpoint alts (rs : list regex) : regex :=
  match rs with
  | [] => Void
  | r :: rs' => Alt r (alts rs')
  end.

Definition anything : regex := Star any.

(** [re.search("^r", s)]: some prefix of [s] is a word of [r]. *)
Definition search_from_start (r : regex) (s : string) : bool :=
  fullmatch (Cat r anything) s.

(** [re.search("^r$", s)]: [s] is a word of [r], or a word of [r]
    followed by one line feed. *)
Definition search_anchored (r : regex) (s : string) : bool :=
  fullmatch (Cat r (opt (chr Text.LF))) s.

(** [re.search("r", s)] for a pattern [r] without anchors. *)
Definition search_anywhere (r : regex) (s : string) : bool :=
  fullmatch (Cat anything (Cat r anything)) s.

End Re.

(** ** JSON values and the Python operations applied to them *)

(** What [json.loads] returns.  An object is the list of the items of the
    [dict], in the order of their insertion; the items of a [dict] have
    distinct keys, and a look-up in a list that has not returns the first
    value of the key. *)
#[local] Unset Elimination Schemes.
Inductive json : Type :=
| JNull
| JBool (b : bool)
| JInt (z : Z)
| JFloat (q : Qc)
| JStr (s : string)
| JList (l : list json)
| JObj (kvs : list (string * json)).
#[local] Set Elimination Schemes.

(** The messages of [_include_tests], each passed to [_fail]. *)
Inductive resolve_error : Type :=
| DownloadingFailed (path : string)
| OpeningFailed (path : string)
| IsEmpty (path : string)
| CouldNotParse (path : string)
| NoSchemaVersion (path : string)
| UnrecognizedSchemaVersion (schema : json) (path : string).

(** One constructor for each assertion of the modelled checks. *)
Inductive failure : Type :=
(* _test_error *)
| TestError (msg : resolve_error)
(* _test_dependency_names, _test_repository_package_names *)
| IncludeFilenameDoesNotMatch
| DependencyNamesMustBeUnique (name : json)
| DependencyAndPackageNamesMustBeUnique (name : json) (previously : string)
| DependenciesMustBeSorted
| PackageNamesMustBeUnique (name : json) (previously : string)
| NameOccursAsPreviousName (name : json) (previously : string) (owner : json)
| PackageInsertedInWrongFile
| PackagesMustBeSorted
(* _test_indentation *)
| IndentMustBeTabs (line : nat)
(* enforce_key_types_map *)
| UnknownKey (k : string)
| NotAnInstance (k : string)
(* _test_package *)
| BadDetailsUrl
| MultipleLabelsInOneString
| SameLabelTwice
| PreviousNamesMustBeUnique (name : json)
| PreviousNameOccursAsName (name : json) (previously : string)
| NotAnHttpUrl (k : string)
| NameNotAValidFolderName
| NameStartsWithDot
| NameOfDefaultPackage
| RequiredWithoutDetails (k : string)
(* _test_release *)
| MainRepoDependencyRelease
| MainRepoNeedsTagsOrBranch
| MainRepoForbidsKey (k : string)
| ReleaseNeedsKey (k : string)
| RedundantKey (k : string)
| SublimeTextRequired
| PlatformsRequired
| OnlyOneOfTagsAndBranch
(* check_release_key_values *)
| BadReleaseUrl
| BadBaseUrl
| BadSublimeText
| BadPlatform (plat : json)
| SamePlatformTwice
| AllArchitecturesRedundant
| AllSystemsRedundant
| BadDate
| EmptyTags
| TagsLiteralTrue
| EmptyBranch
| BadSha256.

(** The exceptions that the modelled code can raise.  A [unittest]
    assertion that does not hold raises [AssertionError], which the test
    runner reports as a failure; it reports any other exception as an
    error. *)
Inductive exn : Type :=
| AssertionError (f : failure)
| AttributeError
| TypeError
| KeyError
| IndexError
| ValueError
| OverflowError
| UnicodeDecodeError.

Inductive outcome (A : Type) : Type :=
| Ok (a : A)
| Raise (e : exn).
Arguments Ok {A} a.
Arguments Raise {A} e.

(** [self.fail(msg)] *)
Abbreviation Fail f := (Raise (AssertionError f)).

#[global] Instance outcome_ret : MRet outcome := fun A a => Ok a.
#[global] Instance outcome_bind : MBind outcome := fun A B k m =>
  match m with
  | Ok a => k a
  | Raise e => Raise e
  end.

(** A check passes when it ends without an exception. *)
Definition passes {A} (o : outcome A) : bool :=
  match o with Ok _ => true | _ => false end.

Definition assertTrue (b : bool) (f : failure) : outcome unit :=
  if b then Ok tt else Fail f.
Definition assertFalse (b : bool) (f : failure) : outcome unit :=
  if b then Fail f else Ok tt.

Fixpoint for_each {A} (xs : list A) (body : A -> outcome unit) : outcome unit :=
  match xs with
  | [] => Ok tt
  | x :: xs' => body x ;; for_each xs' body
  end.

Module Py.

Fixpoint assoc (k : string) (kvs : list (string * json)) : option json :=
  match kvs with
  | [] => None
  | (k', v) :: kvs' => if String.eqb k k' then Some v else assoc k kvs'
  end.

Definition has_key (k : string) (kvs : list (string * json)) : bool :=
  match assoc k kvs with Some _ => true | None => false end.

(** [bool(v)] *)
Definition truthy (v : json) : bool :=
  match v with
  | JNull => false
  | JBool b => b
  | JInt z => negb (z =? 0)%Z
  | JFloat q => negb (Qeq_bool q 0)
  | JStr s => negb (String.eqb s "")
  | JList l => match l with [] => false | _ => true end
  | JObj kvs => match kvs with [] => false | _ => true end
  end.

(** [v == s] for a string [s] *)
Definition eq_str (v : json) (s : string) : bool :=
  match v with JStr t => String.eqb t s | _ => false end.

(** [data.get(k)] *)
Definition get (k : string) (data : json) : outcome json :=
  match data with
  | JObj kvs => Ok (default JNull (assoc k kvs))
  | _ => Raise AttributeError
  end.

(** [data[k]] for a string [k] *)
Definition getitem (k : string) (data : json) : outcome json :=
  match data with
  | JObj kvs =>
      match assoc k kvs with Some v => Ok v | None => Raise KeyError end
  | _ => Raise TypeError
  end.

(** [k in data] for a string [k]: a key of a dict, an element of a list,
    a part of a string. *)
Definition contains (k : string) (data : json) : outcome bool :=
  match data with
  | JObj kvs => Ok (has_key k kvs)
  | JList l => Ok (existsb (fun v => eq_str v k) l)
  | JStr s => Ok (Text.contains k s)
  | _ => Raise TypeError
  end.

(** [data.items()] *)
Definition items (data : json) : outcome (list (string * json)) :=
  match data with
  | JObj kvs => Ok kvs
  | _ => Raise AttributeError
  end.

Fixpoint chars (s : string) : list json :=
  match s with
  | EmptyString => []
  | String c s' => JStr (String c EmptyString) :: chars s'
  end.

(** What [for x in v] goes through. *)
Definition iter (v : json) : outcome (list json) :=
  match v with
  | JList l => Ok l
  | JObj kvs => Ok (map (fun kv => JStr (fst kv)) kvs)
  | JStr s => Ok (chars s)
  | _ => Raise TypeError
  end.

(** Keys of a [dict]: [None], numbers (with [True == 1] and
    [False == 0]) and strings are hashable, lists and dicts are not. *)
Inductive key : Type :=
| KNone
| KNum (q : Qc)
| KStr (s : string).

Definition hash (v : json) : outcome key :=
  match v with
  | JNull => Ok KNone
  | JBool b => Ok (KNum (if b then Q2Qc 1 else Q2Qc 0))
  | JInt z => Ok (KNum (Q2Qc (inject_Z z)))
  | JFloat q => Ok (KNum q)
  | JStr s => Ok (KStr s)
  | JList _ | JObj _ => Raise TypeError
  end.

#[global] Instance key_eq_dec : EqDecision key.
Proof. solve_decision. Defined.

Definition key_to_sum (k : key) : unit + (Qc + string) :=
  match k with
  | KNone => inl tt
  | KNum q => inr (inl q)
  | KStr s => inr (inr s)
  end.
Definition key_of_sum (x : unit + (Qc + string)) : key :=
  match x with
  | inl _ => KNone
  | inr (inl q) => KNum q
  | inr (inr s) => KStr s
  end.

#[global] Instance key_countable : Countable key.
Proof.
  refine (inj_countable' key_to_sum key_of_sum _).
  intros []; reflexivity.
Defined.

(** [a == b] for two hashable values. *)
Definition eq_hashable (a b : json) : bool :=
  match hash a, hash b with
  | Ok ka, Ok kb => bool_decide (ka = kb)
  | _, _ => false
  end.

End Py.

(** ** The patterns of the source *)

Module Patterns.
Import Re.

Definition letters : list string :=
  map (fun n => String (ascii_of_nat n) EmptyString) (List.seq 97 26).

(** The alternatives of the group of
    [(?:^|/)(0-9|[a-z]|dependencies)\.json$], in the order of the
    pattern. *)
Definition shard_names : list string := "0-9" :: letters ++ ["dependencies"].

(** The match of [(0-9|[a-z]|dependencies)\.json$] at the start of
    [rest]: the first alternative of the group, in the order of the
    pattern, with which the match ends where [$] holds. *)
Definition shard_here (rest : string) : option string :=
  List.find (fun g => search_anchored (Cat (lit g) (lit ".json")) rest) shard_names.

(** [re.search] of the pattern from the position at which [s] starts, and
    then from the positions after it: at a position, [^] is tried first,
    which holds at the start of the subject only, and then the slash. *)
Fixpoint shard_from (at_start : bool) (s : string) : option string :=
  match (if at_start then shard_here s else None) with
  | Some g => Some g
  | None =>
      match s with
      | EmptyString => None
      | String c s' =>
          match (if Ascii.eqb c "/" then shard_here s' else None) with
          | Some g => Some g
          | None => shard_from false s'
          end
      end
  end.

(** [re.search(r"(?:^|/)(0-9|[a-z]|dependencies)\.json$", include)], and
    [m.group(1)] when there is a match. *)
Definition include_shard (include : string) : option string :=
  shard_from true include.

Definition segment : regex := plus (none_of "/#?").

(** [release_base_regex] *)
Definition release_base_regex : regex :=
  alts [ seq [lit "https://bitbucket.org/"; segment; chr "/"; segment];
         seq [lit "https://github.com/"; segment; chr "/"; segment];
         seq [lit "https://gitlab.com/"; segment; chr "/"; segment] ].

(** [[^#?]*[^/#?]] *)
Definition subpath : regex := Cat (Star (none_of "#?")) (none_of "/#?").

(** [[^/#?]+(?<!\.git)]: the look-behind refuses a repository segment
    that ends in [.git].  The segment follows a slash, which is not part
    of [.git], so the four characters the look-behind reads all belong to
    the segment when they spell [.git]. *)
Definition segment_not_git : regex :=
  And segment (Neg (Cat anything (lit ".git"))).

(** [package_details_regex] *)
Definition package_details_regex : regex :=
  alts [ seq [lit "https://bitbucket.org/"; segment; chr "/"; segment;
              opt (alts [Cat (lit "/src/") subpath; lit "#tags"; lit "/"])];
         seq [lit "https://github.com/"; segment; chr "/"; segment_not_git;
              opt (alts [Cat (lit "/tree/") subpath; lit "/"])];
         seq [lit "https://gitlab.com/"; segment; chr "/"; segment_not_git;
              opt (alts [Cat (lit "/-/tree/") subpath; lit "/"])] ].

(** [^https?://], [^https://] and [^http://] *)
Definition http_or_https : regex := seq [lit "http"; opt (chr "s"); lit "://"].
Definition https_only : regex := lit "https://".
Definition http_only : regex := lit "http://".

(** [^(\*|<=?\d{4}|>=?\d{4}|\d{4} - \d{4})$] *)
Definition sublime_text_regex : regex :=
  alts [ chr "*";
         seq [chr "<"; opt (chr "="); times 4 digit];
         seq [chr ">"; opt (chr "="); times 4 digit];
         seq [times 4 digit; lit " - "; times 4 digit] ].

(** [^(\*|(osx|linux|windows)(-(x(32|64)|arm64))?)$] *)
Definition platform_regex : regex :=
  alts [ chr "*";
         seq [alts [lit "osx"; lit "linux"; lit "windows"];
              opt (seq [chr "-";
                        alts [Cat (chr "x") (alts [lit "32"; lit "64"]);
                              lit "arm64"]])] ].

(** [^\d\d\d\d-\d\d-\d\d \d\d:\d\d:\d\d$] *)
Definition date_regex : regex :=
  seq [times 4 digit; chr "-"; times 2 digit; chr "-"; times 2 digit;
       chr " "; times 2 digit; chr ":"; times 2 digit; chr ":"; times 2 digit].

(** [(?i)^[0-9a-f]{64}$] *)
Definition sha256_regex : regex :=
  times 64 (Cls (fun c => Text.in_range 48 57 (Text.lower_char c)
                          || Text.in_range 97 102 (Text.lower_char c))).

(** The class of characters that no folder name may hold: the nine
    characters slash, question mark, less, greater, backslash, colon,
    star, bar and double quote (code 34), and the codes 0 to 25 (hexadecimal 19). *)
Definition invalid_name_char : regex :=
  Cls (fun c => existsb (Ascii.eqb c) (list_ascii_of_string "/?<>\:*|")
                || (Text.code c =? 34)%N
                || Text.in_range 0 25 c).

(** [^\t*\S] *)
Definition indentation_regex : regex := Cat (Star (chr Text.TAB)) nonspace.

(** [re.match(r"https?://", path, re.I)] *)
Definition is_remote (path : string) : bool :=
  search_from_start (seq [lit_nocase "http"; opt (lit_nocase "s"); lit "://"]) path.

End Patterns.

(** ** The name of a package *)

(** [get_package_name]: [data.get("name")] when it is truthy, and the last
    part of [data.get("details")] otherwise; a value without [strip], such
    as the [None] of an absent key, raises [AttributeError]. *)
Definition get_package_name (data : json) : outcome json :=
  name ← Py.get "name" data;
  if Py.truthy name then Ok name
  else
    details ← Py.get "details" data;
    match details with
    | JStr d => Ok (JStr (Text.last_segment (Text.strip_slash d)))
    | _ => Raise AttributeError
    end.

(** ** The registries of names *)

(** [CaseInsensitiveDict]: a [dict] whose string keys are lowered by [_k]
    before every look-up and every update. *)
Module CaseInsensitiveDict.

Definition _k (k : Py.key) : Py.key :=
  match k with
  | Py.KStr s => Py.KStr (Text.lower s)
  | _ => k
  end.

Section ops.
Context {V : Type}.

(** [key in d] *)
Definition contains (d : gmap Py.key V) (key : json) : outcome bool :=
  k ← Py.hash key; Ok (bool_decide (is_Some (d !! _k k))).

(** [d[key]] *)
Definition getitem (d : gmap Py.key V) (key : json) : outcome V :=
  k ← Py.hash key;
  match d !! _k k with Some v => Ok v | None => Raise KeyError end.

(** [d[key] = v] *)
Definition setitem (d : gmap Py.key V) (key : json) (v : V)
  : outcome (gmap Py.key V) :=
  k ← Py.hash key; Ok (<[_k k := v]> d).
End ops.

End CaseInsensitiveDict.

(** The class attributes that [setUpClass] creates.  A previous name is
    kept with its own spelling, the include it came from and the name of
    the package that gave it up. *)
Record registry : Type := {
  package_names : gmap Py.key string;
  dependency_names : gmap Py.key string;
  previous_package_names : gmap Py.key (json * string * json);
}.

Definition setUpClass : registry :=
  {| package_names := ∅; dependency_names := ∅; previous_package_names := ∅ |}.

Definition set_package_names (reg : registry) d : registry :=
  {| package_names := d;
     dependency_names := dependency_names reg;
     previous_package_names := previous_package_names reg |}.
Definition set_dependency_names (reg : registry) d : registry :=
  {| package_names := package_names reg;
     dependency_names := d;
     previous_package_names := previous_package_names reg |}.
Definition set_previous_package_names (reg : registry) d : registry :=
  {| package_names := package_names reg;
     dependency_names := dependency_names reg;
     previous_package_names := d |}.

(** A check that reads and updates the registries: the registries it
    leaves are returned whatever its outcome, as an exception does not
    undo the updates made before it. *)
Definition check (A : Type) : Type := registry → outcome A * registry.

#[global] Instance check_ret : MRet check := fun A a reg => (Ok a, reg).
#[global] Instance check_bind : MBind check := fun A B k m reg =>
  match m reg with
  | (Ok a, reg') => k a reg'
  | (Raise e, reg') => (Raise e, reg')
  end.

Definition lift {A} (o : outcome A) : check A := fun reg => (o, reg).
Definition fail {A} (f : failure) : check A := fun reg => (Fail f, reg).
Definition gets {A} (f : registry → A) : check A := fun reg => (Ok (f reg), reg).
Definition modify (f : registry → registry) : check unit :=
  fun reg => (Ok tt, f reg).

(** ** The checks on the names of one include *)

Module CID := CaseInsensitiveDict.

(** [sorted(names, key=str.lower)] is a stable sort: of two names with the
    same lowered spelling the one that came first stays first.  Inserting
    each name before the first one that is not smaller gives that order. *)
Fixpoint insert_by_lower (x : string) (l : list string) : list string :=
  match l with
  | [] => [x]
  | y :: l' =>
      if String.leb (Text.lower x) (Text.lower y)
      then x :: y :: l'
      else y :: insert_by_lower x l'
  end.

Definition sorted_by_lower (names : list string) : list string :=
  foldr insert_by_lower [] names.

(** [str.lower] is the key of the sort: it raises [TypeError] on a value
    that is not a string. *)
Fixpoint strings_of (names : list json) : outcome (list string) :=
  match names with
  | [] => Ok []
  | JStr s :: rest => strs ← strings_of rest; Ok (s :: strs)
  | _ :: _ => Raise TypeError
  end.

(** [self.assertEqual(names, sorted(names, key=str.lower), msg)] *)
Definition assert_sorted (names : list json) (f : failure) : outcome unit :=
  strs ← strings_of names;
  assertTrue (bool_decide (strs = sorted_by_lower strs)) f.

(** The loop of [_test_dependency_names]. *)
Fixpoint dependency_names_loop (include : string) (pdatas : list json)
    (repo_dependency_names : list json) : check (list json) :=
  match pdatas with
  | [] => mret repo_dependency_names
  | pdata :: rest =>
      name ← lift (get_package_name pdata);
      seen ← (d ← gets dependency_names; lift (CID.contains d name));
      names ←
        (if seen : bool then
           (* "Dependency names must be unique: " + name *)
           match name with
           | JStr _ => fail (DependencyNamesMustBeUnique name)
           | _ => lift (Raise TypeError)
           end
         else
           d ← gets dependency_names;
           d' ← lift (CID.setitem d name include);
           modify (λ reg, set_dependency_names reg d');;
           mret (repo_dependency_names ++ [name]));
      clash ← (p ← gets package_names; lift (CID.contains p name));
      if clash : bool then
        previously ← (p ← gets package_names; lift (CID.getitem p name));
        fail (DependencyAndPackageNamesMustBeUnique name previously)
      else dependency_names_loop include rest names
  end.

Definition _test_dependency_names (include : string) (data : json) : check unit :=
  match Patterns.include_shard include with
  | None => fail IncludeFilenameDoesNotMatch
  | Some _ =>
      dependencies ← lift (Py.getitem "dependencies" data);
      pdatas ← lift (Py.iter dependencies);
      repo_dependency_names ← dependency_names_loop include pdatas [];
      lift (assert_sorted repo_dependency_names DependenciesMustBeSorted)
  end.

(** The first loop of [_test_repository_package_names]. *)
Fixpoint package_names_loop (include : string) (pdatas : list json)
    (repo_package_names : list json) : check (list json) :=
  match pdatas with
  | [] => mret repo_package_names
  | pdata :: rest =>
      pname ← lift (get_package_name pdata);
      is_name ← (p ← gets package_names; lift (CID.contains p pname));
      if is_name : bool then
        previously ← (p ← gets package_names; lift (CID.getitem p pname));
        fail (PackageNamesMustBeUnique pname previously)
      else
        is_previous ← (q ← gets previous_package_names; lift (CID.contains q pname));
        same_case ←
          (if is_previous : bool then
             entry ← (q ← gets previous_package_names; lift (CID.getitem q pname));
             mret (Py.eq_hashable pname entry.1.1)
           else mret false);
        if same_case : bool then
          entry ← (q ← gets previous_package_names; lift (CID.getitem q pname));
          fail (NameOccursAsPreviousName pname entry.1.2 entry.2)
        else
          is_dependency ← (d ← gets dependency_names; lift (CID.contains d pname));
          if is_dependency : bool then
            previously ← (d ← gets dependency_names; lift (CID.getitem d pname));
            fail (DependencyAndPackageNamesMustBeUnique pname previously)
          else
            p ← gets package_names;
            p' ← lift (CID.setitem p pname include);
            modify (λ reg, set_package_names reg p');;
            package_names_loop include rest (repo_package_names ++ [pname])
  end.

(** [package_name[0]] *)
Definition first_item (v : json) : outcome json :=
  match v with
  | JStr EmptyString => Raise IndexError
  | JStr (String c _) => Ok (JStr (String c EmptyString))
  | JList [] => Raise IndexError
  | JList (x :: _) => Ok x
  | JObj _ => Raise KeyError
  | _ => Raise TypeError
  end.

(** [v.isdigit()]: a string that is not empty and holds digits only. *)
Definition str_isdigit (v : json) : outcome bool :=
  match v with
  | JStr s =>
      Ok (negb (String.eqb s "") && forallb Text.isdigit (list_ascii_of_string s))
  | _ => Raise AttributeError
  end.

(** [v.lower()] *)
Definition str_lower (v : json) : outcome string :=
  match v with
  | JStr s => Ok (Text.lower s)
  | _ => Raise AttributeError
  end.

(** The body of the second loop of [_test_repository_package_names]. *)
Definition in_correct_file (letter : string) (package_name : json) : outcome unit :=
  first ← first_item package_name;
  if String.eqb letter "0-9" then
    digit ← str_isdigit first;
    assertTrue digit PackageInsertedInWrongFile
  else
    low ← str_lower first;
    assertTrue (String.eqb low letter) PackageInsertedInWrongFile.

Definition _test_repository_package_names (include : string) (data : json)
  : check unit :=
  match Patterns.include_shard include with
  | None => fail IncludeFilenameDoesNotMatch
  | Some letter =>
      packages ← lift (Py.getitem "packages" data);
      pdatas ← lift (Py.iter packages);
      repo_package_names ← package_names_loop include pdatas [];
      lift (for_each repo_package_names (in_correct_file letter));;
      lift (assert_sorted repo_package_names PackagesMustBeSorted)
  end.

(** ** The check on the indentation of a file *)

Fixpoint indentation_loop (i : nat) (lines : list string) : outcome unit :=
  match lines with
  | [] => Ok tt
  | line :: rest =>
      assertTrue (Re.search_from_start Patterns.indentation_regex line)
                 (IndentMustBeTabs (i + 1));;
      indentation_loop (S i) rest
  end.

Definition _test_indentation (filename contents : string) : outcome unit :=
  indentation_loop 0 (Text.splitlines contents).

(** ** Keys and their types *)

Inductive pytype : Type := Tstr | Tlist | Tbool | TNoneType.

(** A value of a key-types map: one class, or a tuple of classes. *)
Inductive type_spec : Type :=
| One (t : pytype)
| Tuple (ts : list pytype).

Definition is_list_type (t : pytype) : bool :=
  match t with Tlist => true | _ => false end.

Definition isinstance1 (v : json) (t : pytype) : bool :=
  match t, v with
  | Tstr, JStr _ => true
  | Tlist, JList _ => true
  | Tbool, JBool _ => true
  | TNoneType, JNull => true
  | _, _ => false
  end.

Definition isinstance (v : json) (spec : type_spec) : bool :=
  match spec with
  | One t => isinstance1 v t
  | Tuple ts => existsb (isinstance1 v) ts
  end.

Fixpoint types_of (k : string) (m : list (string * type_spec)) : option type_spec :=
  match m with
  | [] => None
  | (k', spec) :: m' => if String.eqb k k' then Some spec else types_of k m'
  end.

Definition enforce_key_types_map (k : string) (v : json)
    (key_types_map : list (string * type_spec)) : outcome unit :=
  match types_of k key_types_map with
  | None => Fail (UnknownKey k)
  | Some spec =>
      assertTrue (isinstance v spec) (NotAnInstance k);;
      match v, spec with
      | JList l, Tuple ts =>
          if (length ts =? 2)%nat then
            let other_types := filter (λ t, negb (is_list_type t)) ts in
            for_each l (λ sub_value,
              assertTrue (isinstance sub_value (Tuple other_types)) (NotAnInstance k))
          else Ok tt
      | _, _ => Ok tt
      end
  end.

(** [self.assertRegex(v, pattern, msg)]: [re.search] raises [TypeError] on
    a value that is not a string. *)
Definition assertRegex (found : string → bool) (v : json) (f : failure)
  : outcome unit :=
  match v with
  | JStr s => assertTrue (found s) f
  | _ => Raise TypeError
  end.

Definition assertNotRegex (found : string → bool) (v : json) (f : failure)
  : outcome unit :=
  match v with
  | JStr s => assertFalse (found s) f
  | _ => Raise TypeError
  end.

(** [self.assertIn(k, data, msg)] *)
Definition assertIn (k : string) (data : json) (f : failure) : outcome unit :=
  present ← Py.contains k data; assertTrue present f.

Definition assertNotIn (k : string) (data : json) (f : failure) : outcome unit :=
  present ← Py.contains k data; assertFalse present f.

Fixpoint hash_all (vs : list json) : outcome (list Py.key) :=
  match vs with
  | [] => Ok []
  | v :: vs' => k ← Py.hash v; ks ← hash_all vs'; Ok (k :: ks)
  end.

(** [self.assertCountEqual(v, list(set(v)), msg)]: [set] raises
    [TypeError] on a value that cannot be hashed, and the two lists hold
    the same values as often when no value of [v] comes twice. *)
Definition assert_no_duplicates (v : list json) (f : failure) : outcome unit :=
  ks ← hash_all v; assertTrue (bool_decide (NoDup ks)) f.

(** ** The check of a package *)

Definition default_packages : list string :=
  [ "ActionScript"; "AppleScript"; "ASP"; "Batch File"; "Binary"; "C#"; "C++";
    "Clojure"; "Color Scheme - Default"; "CSS"; "D"; "Default"; "Diff";
    "Erlang"; "Git Formats"; "Go"; "Graphviz"; "Groovy"; "Haskell"; "HTML";
    "Java"; "JavaScript"; "Language - English"; "LaTeX"; "Lisp"; "Lua";
    "Makefile"; "Markdown"; "Matlab"; "Objective-C"; "OCaml"; "Pascal";
    "Perl"; "PHP"; "Python"; "R"; "Rails"; "Regular Expressions";
    "RestructuredText"; "Ruby"; "Rust"; "Scala"; "ShellScript"; "SQL"; "TCL";
    "Text"; "Textile"; "Theme - Default"; "Vintage"; "XML"; "YAML" ].

Definition package_key_types_map : list (string * type_spec) :=
  [ ("name", One Tstr); ("details", One Tstr); ("description", One Tstr);
    ("releases", One Tlist); ("homepage", One Tstr);
    ("author", Tuple [Tstr; Tlist]); ("readme", One Tstr);
    ("issues", One Tstr); ("donate", Tuple [Tstr; TNoneType]);
    ("buy", One Tstr); ("previous_names", One Tlist); ("labels", One Tlist) ].

Definition is_none (v : json) : bool :=
  match v with JNull => true | _ => false end.

Definition in_strings (k : string) (ks : list string) : bool :=
  existsb (String.eqb k) ks.

(** The loop over [previous_names] in [_test_package]. *)
Fixpoint previous_names_loop (include : string) (name : json)
    (prev_names : list json) : check unit :=
  match prev_names with
  | [] => mret tt
  | prev_name :: rest =>
      is_previous ← (q ← gets previous_package_names; lift (CID.contains q prev_name));
      if is_previous : bool then fail (PreviousNamesMustBeUnique prev_name)
      else
        is_name ← (p ← gets package_names; lift (CID.contains p prev_name));
        if is_name : bool then
          previously ← (p ← gets package_names; lift (CID.getitem p prev_name));
          fail (PreviousNameOccursAsName prev_name previously)
        else
          q ← gets previous_package_names;
          q' ← lift (CID.setitem q prev_name (prev_name, include, name));
          modify (λ reg, set_previous_package_names reg q');;
          previous_names_loop include name rest
  end.

(** The body of the loop over [data.items()] in [_test_package]. *)
Definition package_item (include : string) (name : json) (k : string) (v : json)
  : check unit :=
  lift (enforce_key_types_map k v package_key_types_map);;
  if String.eqb k "details" then
    lift (assertRegex (Re.search_anchored Patterns.package_details_regex) v BadDetailsUrl)
  else if String.eqb k "donate" && is_none v then mret tt
  else if String.eqb k "labels" then
    lift (labels ← Py.iter v;
          for_each labels (λ label, assertNotIn "," label MultipleLabelsInOneString);;
          assert_no_duplicates labels SameLabelTwice)
  else if String.eqb k "previous_names" then
    prev_names ← lift (Py.iter v);
    previous_names_loop include name prev_names
  else if in_strings k ["homepage"; "readme"; "issues"; "donate"; "buy"] then
    lift (assertRegex (Re.search_from_start Patterns.http_or_https) v (NotAnHttpUrl k))
  else mret tt.

Fixpoint package_items_loop (include : string) (name : json)
    (items : list (string * json)) : check unit :=
  match items with
  | [] => mret tt
  | (k, v) :: rest =>
      package_item include name k v;;
      package_items_loop include name rest
  end.

Definition _test_package (include : string) (data : json) : check unit :=
  name ← lift (get_package_name data);
  items ← lift (Py.items data);
  package_items_loop include name items;;
  lift (
    assertNotRegex (Re.search_anywhere Patterns.invalid_name_char) name
                   NameNotAValidFolderName;;
    (* name.startswith("."), name in self.default_packages *)
    match name with
    | JStr s =>
        assertFalse (Text.startswith "." s) NameStartsWithDot;;
        assertFalse (in_strings s default_packages) NameOfDefaultPackage
    | _ => Raise AttributeError
    end;;
    has_details ← Py.contains "details" data;
    if has_details : bool then Ok tt
    else
      for_each ["name"; "homepage"; "author"; "releases"]
        (λ key, assertIn key data (RequiredWithoutDetails key))).

(** ** The check of a release *)

Definition pck_release_key_types_map : list (string * type_spec) :=
  [ ("base", One Tstr); ("tags", Tuple [Tbool; Tstr]); ("branch", One Tstr);
    ("sublime_text", One Tstr); ("platforms", Tuple [Tlist; Tstr]);
    ("dependencies", Tuple [Tlist; Tstr]); ("version", One Tstr);
    ("date", One Tstr); ("url", One Tstr) ].

Definition dep_release_key_types_map : list (string * type_spec) :=
  [ ("base", One Tstr); ("tags", Tuple [Tbool; Tstr]); ("branch", One Tstr);
    ("sublime_text", One Tstr); ("platforms", Tuple [Tlist; Tstr]);
    ("version", One Tstr); ("sha256", One Tstr); ("url", One Tstr) ].

(** [p in v] for a list [v] and a string [p] *)
Definition list_has (p : string) (v : list json) : bool :=
  existsb (λ x, Py.eq_str x p) v.

(** The branch of [check_release_key_values] for the key [platforms]. *)
Definition check_platforms (v : json) : outcome unit :=
  plats ← (match v with JStr _ => Ok [v] | _ => Py.iter v end);
  for_each plats (λ plat,
    assertRegex (Re.search_anchored Patterns.platform_regex) plat (BadPlatform plat));;
  assert_no_duplicates plats SamePlatformTwice;;
  (if (list_has "osx-x32" plats && list_has "osx-x64" plats && list_has "osx-arm64" plats)
      || (list_has "windows-x32" plats && list_has "windows-x64" plats
          && list_has "windows-arm64" plats)
      || (list_has "linux-x32" plats && list_has "linux-x64" plats
          && list_has "linux-arm64" plats)
   then Fail AllArchitecturesRedundant else Ok tt);;
  (* {"osx", "windows", "linux"} == set(v) *)
  assertFalse
    (list_has "osx" plats && list_has "windows" plats && list_has "linux" plats
     && forallb (λ x, Py.eq_str x "osx" || Py.eq_str x "windows" || Py.eq_str x "linux")
                plats)
    AllSystemsRedundant.

(** The body of the loop of [check_release_key_values]. *)
Definition release_item (data : json) (dependency : bool) (k : string) (v : json)
  : outcome unit :=
  let release_key_types_map :=
    if dependency then dep_release_key_types_map else pck_release_key_types_map in
  enforce_key_types_map k v release_key_types_map;;
  if String.eqb k "url" then
    if dependency then
      has_sha256 ← Py.contains "sha256" data;
      if has_sha256 : bool
      then assertRegex (Re.search_from_start Patterns.http_only) v BadReleaseUrl
      else assertRegex (Re.search_from_start Patterns.https_only) v BadReleaseUrl
    else assertRegex (Re.search_from_start Patterns.http_or_https) v BadReleaseUrl
  else if String.eqb k "base" then
    assertRegex (Re.search_anchored Patterns.release_base_regex) v BadBaseUrl
  else if String.eqb k "sublime_text" then
    assertRegex (Re.search_anchored Patterns.sublime_text_regex) v BadSublimeText
  else if String.eqb k "platforms" then check_platforms v
  else if String.eqb k "date" then
    assertRegex (Re.search_anchored Patterns.date_regex) v BadDate
  else if String.eqb k "tags" then
    assertTrue (Py.truthy v) EmptyTags;;
    assertFalse (Py.eq_str v "true") TagsLiteralTrue
  else if String.eqb k "branch" then
    assertFalse (Py.eq_str v "") EmptyBranch
  else if String.eqb k "sha256" then
    assertRegex (Re.search_anchored Patterns.sha256_regex) v BadSha256
  else Ok tt.

Definition check_release_key_values (data : json) (dependency : bool)
  : outcome unit :=
  items ← Py.items data;
  for_each items (λ kv, release_item data dependency kv.1 kv.2).

(** [data["url"].startswith("http://")] *)
Definition url_startswith_http (data : json) : outcome bool :=
  url ← Py.getitem "url" data;
  match url with
  | JStr s => Ok (Text.startswith "http://" s)
  | _ => Raise AttributeError
  end.

Definition _test_release (package_name : string) (data : json)
    (dependency main_repo : bool) : outcome unit :=
  (if main_repo then
     if dependency then
       has_base ← Py.contains "base" data;
       has_tags ← Py.contains "tags" data;
       has_branch ← Py.contains "branch" data;
       condition ←
         (if has_base && (has_tags || has_branch) then Ok true
          else
            has_sha256 ← Py.contains "sha256" data;
            if has_sha256 : bool then
              has_url ← Py.contains "url" data;
              if has_url : bool then url_startswith_http data else Ok true
            else Ok false);
       assertTrue condition MainRepoDependencyRelease
     else
       has_tags ← Py.contains "tags" data;
       has_branch ← Py.contains "branch" data;
       assertTrue (has_tags || has_branch) MainRepoNeedsTagsOrBranch;;
       for_each ["url"; "version"; "date"]
         (λ key, assertNotIn key data (MainRepoForbidsKey key))
   else
     has_tags ← Py.contains "tags" data;
     has_branch ← Py.contains "branch" data;
     if negb has_tags && negb has_branch then
       if dependency then
         for_each ["url"; "version"]
           (λ key, assertIn key data (ReleaseNeedsKey key))
       else
         for_each ["url"; "version"; "date"]
           (λ key, assertIn key data (ReleaseNeedsKey key))
     else
       for_each ["url"; "version"; "date"]
         (λ key, assertNotIn key data (RedundantKey key)));;
  assertIn "sublime_text" data SublimeTextRequired;;
  (if dependency then assertIn "platforms" data PlatformsRequired else Ok tt);;
  has_tags ← Py.contains "tags" data;
  has_branch ← Py.contains "branch" data;
  assertFalse (has_tags && has_branch) OnlyOneOfTagsAndBranch;;
  check_release_key_values data dependency.

(** ** [float] and the schema versions *)

Module PyFloat.
Import Re.

Inductive value : Type :=
| Finite (x : Q)
| Inf (negative : bool)
| NaN.

(** The white space that [float] strips from a string. *)
Definition space : regex :=
  Cls (λ c, Text.in_range 9 13 c || (Text.code c =? 32)%N
            || (Text.code c =? 133)%N || (Text.code c =? 160)%N).

(** The grammar of the argument of [float], from the language reference:
    [digitpart ::= digit (["_"] digit)*],
    [number ::= [digitpart] "." digitpart | digitpart ["."]],
    [exponent ::= ("e" | "E") ["+" | "-"] digitpart]. *)
Definition sign : regex := one_of "+-".
Definition digitpart : regex := Cat digit (Star (Cat (opt (chr "_")) digit)).
Definition number : regex :=
  Alt (seq [opt digitpart; chr "."; digitpart]) (Cat digitpart (opt (chr "."))).
Definition exponent : regex := seq [one_of "eE"; opt sign; digitpart].
Definition floatnumber : regex := Cat number (opt exponent).
Definition infinity : regex := Alt (lit_nocase "infinity") (lit_nocase "inf").
Definition nan : regex := lit_nocase "nan".
Definition padded (r : regex) : regex := seq [Star space; opt sign; r; Star space].

Definition is_minus (c : ascii) : bool := Ascii.eqb c "-".
Definition is_point (c : ascii) : bool := Ascii.eqb c ".".
Definition is_e (c : ascii) : bool := Ascii.eqb c "e" || Ascii.eqb c "E".

(** The decimal digits of [s] read as a number, other characters skipped. *)
Fixpoint digits_value (acc : Z) (s : string) : Z :=
  match s with
  | EmptyString => acc
  | String c s' =>
      if Text.is_decimal c
      then digits_value (10 * acc + Z.of_N (Text.code c - 48)) s'
      else digits_value acc s'
  end.

Fixpoint count_digits (s : string) : Z :=
  match s with
  | EmptyString => 0
  | String c s' => (if Text.is_decimal c then 1 else 0) + count_digits s'
  end.

Fixpoint has_char (p : ascii → bool) (s : string) : bool :=
  match s with
  | EmptyString => false
  | String c s' => p c || has_char p s'
  end.

(** What precedes and what follows the first character of [s] that
    satisfies [p]. *)
Fixpoint before (p : ascii → bool) (s : string) : string :=
  match s with
  | EmptyString => EmptyString
  | String c s' => if p c then EmptyString else String c (before p s')
  end.
Fixpoint after (p : ascii → bool) (s : string) : string :=
  match s with
  | EmptyString => EmptyString
  | String c s' => if p c then s' else after p s'
  end.

Definition pow10 (e : Z) : Q :=
  if (0 <=? e)%Z then inject_Z (10 ^ e) else 1 # Z.to_pos (10 ^ (- e)).

(** The value of a string of the grammar [floatnumber], with or without
    its sign and the white space around it. *)
Definition decimal_value (s : string) : Q :=
  let mantissa := before is_e s in
  let exp := after is_e s in
  let fraction := after is_point mantissa in
  let n := digits_value 0 mantissa in
  let e := ((if has_char is_minus exp then - digits_value 0 exp
             else digits_value 0 exp) - count_digits fraction)%Z in
  let x := (inject_Z n * pow10 e)%Q in
  if has_char is_minus mantissa then (- x)%Q else x.

(** [float(s)] for a string. *)
Definition of_string (s : string) : outcome value :=
  if fullmatch (padded floatnumber) s then Ok (Finite (decimal_value s))
  else if fullmatch (padded infinity) s then Ok (Inf (has_char is_minus s))
  else if fullmatch (padded nan) s then Ok NaN
  else Raise ValueError.

(** [float(v)]: the exact value of the number that [float] then rounds
    to binary64; an integer whose rounding is not finite raises
    [OverflowError]. *)
Definition float (v : json) : outcome value :=
  match v with
  | JBool b => Ok (Finite (if b then 1 else 0))
  | JInt z =>
      if (2 ^ 1024 - 2 ^ 970 <=? Z.abs z)%Z then Raise OverflowError
      else Ok (Finite (inject_Z z))
  | JFloat q => Ok (Finite q)
  | JStr s => of_string s
  | JNull | JList _ | JObj _ => Raise TypeError
  end.

Definition between (lo hi x : Q) : bool := Qle_bool lo x && Qle_bool x hi.
Definition strictly_between (lo hi x : Q) : bool :=
  negb (Qle_bool x lo) && negb (Qle_bool hi x).

(** [float(v) in (1.0, 1.1, 1.2, 2.0)].  Rounding to nearest, ties to
    even, sends a number to a given binary64 exactly when the number
    lies between the middles of that binary64 and its two neighbours;
    the middles themselves are sent to it when its last bit is 0, which
    is so for 1.0, 1.1 and 2.0 and not for 1.2.  The binary64 1.1 is
    4953959590107546 / 2^52 and the binary64 1.2 is
    5404319552844595 / 2^52. *)
Definition is_old_version (x : value) : bool :=
  match x with
  | Finite x =>
      between (18014398509481983 # 18014398509481984)
              (9007199254740993 # 9007199254740992) x
      || between (9907919180215091 # 9007199254740992)
                 (9907919180215093 # 9007199254740992) x
      || strictly_between (10808639105689189 # 9007199254740992)
                          (10808639105689191 # 9007199254740992) x
      || between (18014398509481983 # 9007199254740992)
                 (9007199254740993 # 4503599627370496) x
  | Inf _ | NaN => false
  end.

End PyFloat.

(** ** The generator of the checks of a repository *)

(** known bad repositories that we'll just have to skip for now *)
Definition BAD_REPOS : list string :=
  [ "https://packages.monokai.pro/packages.json";
    "https://raw.githubusercontent.com/blake-regalia/linked-data.syntaxes/master/channels/sublime/package-control.json" ].

(** A pair [(method, args)] that the generator yields.  [_fail(msg)]
    stands for the method [_test_error], which fails whenever it is run. *)
Inductive check_call : Type :=
| Call_test_error (msg : resolve_error)
| Call_test_repository_keys (path : string) (data : json)
| Call_test_package (path : string) (package : json)
| Call_test_release (package_name : json) (path : string) (release : json)
    (dependency main_repo : bool).

Definition _test_error (msg : resolve_error) : outcome unit := Fail (TestError msg).

(** What is written to [stream]. *)
Inductive diagnostic : Type :=
| Visiting (path : string)
| SkippingBadRepo
| SkippingSchema (schema : json)
| Done
| Failed
| Newline.

(** The state the generator shares with its caller: the diagnostic stream
    and the counter [skipped_repositories], a [defaultdict(int)]. *)
Record session : Type := {
  stream : list diagnostic;
  skipped_repositories : gmap Py.key nat;
}.

Definition write (d : diagnostic) (ses : session) : session :=
  {| stream := stream ses ++ [d];
     skipped_repositories := skipped_repositories ses |}.

(** [skipped_repositories[k] += 1] *)
Definition count_skipped (k : Py.key) (ses : session) : session :=
  {| stream := stream ses;
     skipped_repositories :=
       <[k := S (default 0 (skipped_repositories ses !! k))]>
         (skipped_repositories ses) |}.

(** The content source and the library functions the generator calls.
    [fetch] is the download or the reading of the file up to the decoding
    of its bytes, [json_loads] is [json.loads] with [None] for a raised
    exception, [urljoin] is [urllib.parse.urljoin]. *)
Inductive fetched : Type :=
| Unavailable
| NotUtf8
| Text (source : string).

Record world : Type := {
  fetch : string → fetched;
  json_loads : string → option json;
  urljoin : string → json → outcome string;
}.

(** How a run of the generator ends: it is exhausted, or an exception
    leaves it, or the model has no fuel left to follow the includes. *)
Inductive ending : Type :=
| Exhausted
| Aborted (e : exn)
| OutOfFuel.

Record run : Type := {
  yielded : list check_call;
  ended : ending;
  session_after : session;
}.

Definition stop (calls : list check_call) (e : ending) (ses : session) : run :=
  {| yielded := calls; ended := e; session_after := ses |}.

(** [r] and then, when [r] is exhausted, [k]. *)
Definition and_then (r : run) (k : session → run) : run :=
  match ended r with
  | Exhausted =>
      let r' := k (session_after r) in
      {| yielded := yielded r ++ yielded r';
         ended := ended r';
         session_after := session_after r' |}
  | _ => r
  end.

(** The part of a generator that yields calls and has no other effect:
    the calls yielded, and the value returned or the exception raised. *)
Definition gen (A : Type) : Type := list check_call * (exn + A).

#[global] Instance gen_ret : MRet gen := fun A a => ([], inr a).
#[global] Instance gen_bind : MBind gen := fun A B k m =>
  match m with
  | (calls, inr a) => let '(calls', r) := k a in (calls ++ calls', r)
  | (calls, inl e) => (calls, inl e)
  end.

Definition yield (c : check_call) : gen unit := ([c], inr tt).

Definition raised {A} (o : outcome A) : exn + A :=
  match o with
  | Ok a => inr a
  | Raise e => inl e
  end.

Definition eval {A} (o : outcome A) : gen A := ([], raised o).

Fixpoint gen_for {A} (xs : list A) (body : A → gen unit) : gen unit :=
  match xs with
  | [] => mret tt
  | x :: xs' => body x ;; gen_for xs' body
  end.

(** [schema != "3.0.0" and float(schema) not in (1.0, 1.1, 1.2, 2.0)] *)
Definition unrecognized (schema : json) : outcome bool :=
  if Py.eq_str schema "3.0.0" then Ok false
  else x ← PyFloat.float schema; Ok (negb (PyFloat.is_old_version x)).

(** The [try] statement of [_include_tests]: the run of a generator that
    returns in it, or the parsed document with which it goes on. *)
Definition open_document (w : world) (path : string) (ses0 : session)
  : run + (json * session) :=
  let ses := write (Visiting path) ses0 in
  let finally_failed := write Newline (write Failed ses) in
  let failed msg := inl (stop [Call_test_error msg] Exhausted finally_failed) in
  let aborted e := inl (stop [] (Aborted e) finally_failed) in
  match fetch w path with
  | Unavailable =>
      if Patterns.is_remote path then failed (DownloadingFailed path)
      else failed (OpeningFailed path)
  | NotUtf8 =>
      if Patterns.is_remote path then aborted UnicodeDecodeError
      else failed (OpeningFailed path)
  | Text source =>
      if String.eqb source "" then failed (IsEmpty path)
      else
        match json_loads w source with
        | None => failed (CouldNotParse path)
        | Some data =>
            match raised (Py.contains "schema_version" data) with
            | inl e => aborted e
            | inr false => failed (NoSchemaVersion path)
            | inr true =>
                match raised (Py.getitem "schema_version" data) with
                | inl e => aborted e
                | inr schema =>
                    match raised (unrecognized schema) with
                    | inl e => aborted e
                    | inr true => failed (UnrecognizedSchemaVersion schema path)
                    | inr false =>
                        (* success = True *)
                        if in_strings path BAD_REPOS then
                          inl (stop [] Exhausted (write Newline (write SkippingBadRepo ses)))
                        else if negb (Py.eq_str schema "3.0.0") then
                          match raised (Py.hash schema) with
                          | inl e =>
                              inl (stop [] (Aborted e)
                                     (write Newline (write (SkippingSchema schema) ses)))
                          | inr k =>
                              inl (stop [] Exhausted
                                     (write Newline
                                        (count_skipped k
                                           (write (SkippingSchema schema) ses))))
                          end
                        else inr (data, write Newline (write Done ses))
                    end
                end
            end
        end
  end.

(** What [_include_tests] yields for the document itself, and the value
    of the key [includes] it then goes through. *)
Definition document_calls (path : string) (data : json) : gen (list json) :=
  yield (Call_test_repository_keys path data);;
  has_packages ← eval (Py.contains "packages" data);
  (if has_packages : bool then
     packages ← eval (v ← Py.getitem "packages" data; Py.iter v);
     gen_for packages (λ package,
       yield (Call_test_package path package);;
       package_name ← eval (get_package_name package);
       has_releases ← eval (Py.contains "releases" package);
       if has_releases : bool then
         releases ← eval (v ← Py.getitem "releases" package; Py.iter v);
         gen_for releases (λ release,
           yield (Call_test_release package_name path release false false))
       else mret tt)
   else mret tt);;
  has_includes ← eval (Py.contains "includes" data);
  if has_includes : bool then
    eval (v ← Py.getitem "includes" data; Py.iter v)
  else mret [].

(** The loop over the includes, with the generator to delegate to. *)
Fixpoint includes_loop (w : world) (delegate : string → session → run)
    (path : string) (includes : list json) (ses : session) : run :=
  match includes with
  | [] => stop [] Exhausted ses
  | include :: rest =>
      match raised (urljoin w path include) with
      | inl e => stop [] (Aborted e) ses
      | inr i_url =>
          and_then (delegate i_url ses) (includes_loop w delegate path rest)
      end
  end.

Fixpoint _include_tests (w : world) (fuel : nat) (path : string) (ses : session)
  : run :=
  match fuel with
  | O => stop [] OutOfFuel ses
  | S fuel' =>
      match open_document w path ses with
      | inl r => r
      | inr (data, ses') =>
          match document_calls path data with
          | (calls, inl e) => stop calls (Aborted e) ses'
          | (calls, inr includes) =>
              and_then (stop calls Exhausted ses')
                       (includes_loop w (_include_tests w fuel') path includes)
          end
      end
  end.

(** ** The checks of the keys of a document, of a dependency and of a channel

    [_test_repository_keys], [_test_dependency], [test_channel_keys] and
    [test_channel_repositories] have assertions of their own, those of
    [key_failure].  Each ends in a [verdict]: it passes, or one of its
    assertions does not hold, or an exception leaves the code that it
    shares with the checks above. *)

Inductive key_failure : Type :=
(* _test_repository_keys, test_channel_keys *)
| UnexpectedNumberOfKeys
| SchemaVersionNotFound
| SchemaVersionNotEqual (found : json)
| UnexpectedKey (k : json)
(* _test_repository_keys *)
| MustContainSomething
| NotAList (k : string)
| IncludesNotAList
| IncludeNotAString (include : json)
(* test_channel_keys *)
| RepositoriesNotFound
| RepositoriesNotAList
| RepositoryNotAString (repo : json)
(* test_channel_repositories *)
| RepositoryNotRelativeNorHttps (repo : json)
| RepositoriesMustBeSorted
(* _test_dependency *)
| IssuesNotAnHttpUrl
| DependencyNameNotAValidFolderName
| DependencyNameStartsWithDot
| LoadOrderNotTwoDigits
| RequiredForDependencies (key : string).

Inductive verdict (A : Type) : Type :=
| Accepted (a : A)
| Refused (f : key_failure)
| Thrown (e : exn).
Arguments Accepted {A} a.
Arguments Refused {A} f.
Arguments Thrown {A} e.

#[global] Instance verdict_ret : MRet verdict := fun A a => Accepted a.
#[global] Instance verdict_bind : MBind verdict := fun A B k m =>
  match m with
  | Accepted a => k a
  | Refused f => Refused f
  | Thrown e => Thrown e
  end.

(** The result of an operation of the checks above, in a verdict. *)
Definition of_outcome {A} (o : outcome A) : verdict A :=
  match o with
  | Ok a => Accepted a
  | Raise e => Thrown e
  end.

(** An assertion with the message [f]: [condition] is what the assertion
    evaluates, which may raise before anything is asserted. *)
Definition require (condition : outcome bool) (f : key_failure) : verdict unit :=
  match condition with
  | Ok true => Accepted tt
  | Ok false => Refused f
  | Raise e => Thrown e
  end.

Fixpoint each {A} (xs : list A) (body : A → verdict unit) : verdict unit :=
  match xs with
  | [] => Accepted tt
  | x :: xs' => body x ;; each xs' body
  end.

(** [len(data)] *)
Definition len (data : json) : outcome nat :=
  match data with
  | JObj kvs => Ok (length kvs)
  | JList l => Ok (length l)
  | JStr s => Ok (String.length s)
  | _ => Raise TypeError
  end.

(** [data.get(k, otherwise)] *)
Definition get_or (k : string) (otherwise : json) (data : json) : outcome json :=
  match data with
  | JObj kvs => Ok (default otherwise (Py.assoc k kvs))
  | _ => Raise AttributeError
  end.

(** [k in keys] for a tuple [keys] of strings *)
Definition in_tuple (k : json) (keys : list string) : bool :=
  existsb (Py.eq_str k) keys.

(** [[k for k in keys if k in data]] *)
Fixpoint keys_present (keys : list string) (data : json) : outcome (list string) :=
  match keys with
  | [] => Ok []
  | k :: rest =>
      present ← Py.contains k data;
      others ← keys_present rest data;
      Ok (if present : bool then k :: others else others)
  end.

(** [re.search(pattern, v) is not None], which raises [TypeError] on a
    value that is not a string. *)
Definition regex_found (found : string → bool) (v : json) : outcome bool :=
  match v with
  | JStr s => Ok (found s)
  | _ => Raise TypeError
  end.

(** [v.startswith(p)] *)
Definition str_startswith (p : string) (v : json) : outcome bool :=
  match v with
  | JStr s => Ok (Text.startswith p s)
  | _ => Raise AttributeError
  end.

(** The tuple [keys] of [_test_repository_keys]. *)
Definition repository_keys : list string :=
  ["$schema"; "schema_version"; "packages"; "dependencies"; "includes"].

Definition _test_repository_keys (filename : string) (data : json) : verdict unit :=
  n ← of_outcome (len data);
  require (Ok ((2 <=? n) && (n <=? length repository_keys))%nat) UnexpectedNumberOfKeys;;
  require (Py.contains "schema_version" data) SchemaVersionNotFound;;
  schema ← of_outcome (Py.getitem "schema_version" data);
  require (Ok (Py.eq_str schema "3.0.0")) (SchemaVersionNotEqual schema);;
  listkeys ← of_outcome (keys_present ["packages"; "dependencies"; "includes"] data);
  require (Ok (0 <? length listkeys)%nat) MustContainSomething;;
  each listkeys (λ k,
    v ← of_outcome (Py.getitem k data);
    require (Ok (isinstance1 v Tlist)) (NotAList k));;
  ks ← of_outcome (Py.iter data);
  each ks (λ k, require (Ok (in_tuple k repository_keys)) (UnexpectedKey k));;
  includes ← of_outcome (get_or "includes" (JList []) data);
  require (Ok (isinstance1 includes Tlist)) IncludesNotAList;;
  items ← of_outcome (Py.iter includes);
  each items (λ include,
    require (Ok (isinstance1 include Tstr)) (IncludeNotAString include)).

(** ** The check of a dependency *)

Definition dependency_key_types_map : list (string * type_spec) :=
  [ ("name", One Tstr); ("description", One Tstr); ("releases", One Tlist);
    ("issues", One Tstr); ("load_order", One Tstr); ("author", One Tstr) ].

(** [^\d\d$] *)
Definition load_order_regex : Re.regex := Re.times 2 Re.digit.

(** The body of the loop over [data.items()] in [_test_dependency]. *)
Definition dependency_item (k : string) (v : json) : verdict unit :=
  of_outcome (enforce_key_types_map k v dependency_key_types_map);;
  if String.eqb k "issues" then
    require (regex_found (Re.search_from_start Patterns.http_or_https) v)
            IssuesNotAnHttpUrl
  else if String.eqb k "name" then
    require (invalid ← regex_found (Re.search_anywhere Patterns.invalid_name_char) v;
             Ok (negb invalid))
            DependencyNameNotAValidFolderName;;
    require (dot ← str_startswith "." v; Ok (negb dot)) DependencyNameStartsWithDot
  else if String.eqb k "load_order" then
    require (regex_found (Re.search_anchored load_order_regex) v) LoadOrderNotTwoDigits
  else mret tt.

Definition _test_dependency (include : string) (data : json) : verdict unit :=
  items ← of_outcome (Py.items data);
  each items (λ kv, dependency_item kv.1 kv.2);;
  each ["author"; "releases"; "issues"; "description"; "load_order"]
    (λ key, require (Py.contains key data) (RequiredForDependencies key)).

(** ** The checks of a channel *)

(** [sorted(keys)] for strings, which are compared by their code points:
    each string is put before the first one that is not smaller. *)
Fixpoint insert_sorted (x : string) (l : list string) : list string :=
  match l with
  | [] => [x]
  | y :: l' => if String.leb x y then x :: y :: l' else y :: insert_sorted x l'
  end.

Definition sorted (keys : list string) : list string :=
  foldr insert_sorted [] keys.

(** [sorted(self.j.keys())] *)
Definition sorted_keys (j : json) : outcome (list string) :=
  match j with
  | JObj kvs => Ok (sorted (map fst kvs))
  | _ => Raise AttributeError
  end.

(** The tuple [allowed_keys] of [test_channel_keys]. *)
Definition allowed_keys : list string := ["$schema"; "repositories"; "schema_version"].

(** [test_channel_keys], with the document [self.j] of the channel. *)
Definition test_channel_keys (j : json) : verdict unit :=
  keys ← of_outcome (sorted_keys j);
  require (Ok ((2 <=? length keys) && (length keys <=? length allowed_keys))%nat)
          UnexpectedNumberOfKeys;;
  each keys (λ k, require (Ok (in_strings k allowed_keys)) (UnexpectedKey (JStr k)));;
  require (Ok (in_strings "schema_version" keys)) SchemaVersionNotFound;;
  schema ← of_outcome (Py.getitem "schema_version" j);
  require (Ok (Py.eq_str schema "3.0.0")) (SchemaVersionNotEqual schema);;
  require (Ok (in_strings "repositories" keys)) RepositoriesNotFound;;
  repos ← of_outcome (Py.getitem "repositories" j);
  require (Ok (isinstance1 repos Tlist)) RepositoriesNotAList;;
  items ← of_outcome (Py.iter repos);
  each items (λ repo, require (Ok (isinstance1 repo Tstr)) (RepositoryNotAString repo)).

(** [^(\.|https://)] *)
Definition relative_or_https : Re.regex := Re.Alt (Re.chr ".") (Re.lit "https://").

(** [test_channel_repositories], with the document [self.j] of the
    channel.  The last assertion compares [repos] itself with the sorted
    list: a value that is no list is not equal to it. *)
Definition test_channel_repositories (j : json) : verdict unit :=
  repos ← of_outcome (Py.getitem "repositories" j);
  items ← of_outcome (Py.iter repos);
  each items (λ repo,
    require (regex_found (Re.search_from_start relative_or_https) repo)
            (RepositoryNotRelativeNorHttps repo));;
  names ← of_outcome (strings_of items);
  require (Ok (isinstance1 repos Tlist && bool_decide (names = sorted_by_lower names)))
          RepositoriesMustBeSorted.

(** * The vocabulary of the statements *)

(** ** The words of a regular expression *)

Module Words.
Import Re.

Inductive star (L : string → Prop) : string → Prop :=
| star_nil : star L ""
| star_app s1 s2 : L s1 → star L s2 → star L (s1 +:+ s2).

Fixpoint lang (r : regex) (s : string) : Prop :=
  match r with
  | Void => False
  | Eps => s = ""
  | Cls p => ∃ c, s = String c "" ∧ p c = true
  | Cat r1 r2 => ∃ s1 s2, s = s1 +:+ s2 ∧ lang r1 s1 ∧ lang r2 s2
  | Alt r1 r2 => lang r1 s ∨ lang r2 s
  | Star r1 => star (lang r1) s
  | And r1 r2 => lang r1 s ∧ lang r2 s
  | Neg r1 => ¬ lang r1 s
  end.

End Words.

(** ** Lines, names, registries and platforms *)

(** [n] tab characters. *)
Fixpoint tabs (n : nat) : string :=
  match n with
  | O => ""
  | S n' => String Text.TAB (tabs n')
  end.

(** A line that is tabs and then a character that is no white space. *)
Definition tabs_then_text (line : string) : Prop :=
  ∃ n c rest, line = tabs n +:+ String c rest ∧ Text.isspace c = false.

(** The white space a line starts with. *)
Fixpoint leading_whitespace (line : string) : string :=
  match line with
  | EmptyString => EmptyString
  | String c rest =>
      if Text.isspace c then String c (leading_whitespace rest) else EmptyString
  end.

(** The property of the specification: the white space a line starts with
    is made of tabs only. *)
Definition indented_with_tabs (line : string) : Prop :=
  Forall (λ c, c = Text.TAB) (list_ascii_of_string (leading_whitespace line)).

(** [a] comes before [b], or with it, when both are lowered. *)
Definition lower_le (a b : string) : Prop :=
  String.le (Text.lower a) (Text.lower b).

(** The case-insensitive key of a name. *)
Definition key_of (name : json) : outcome Py.key :=
  k ← Py.hash name; Ok (CID._k k).

(** The entries of the list that [data] gives to [key]. *)
Definition entries (key : string) (data : json) : outcome (list json) :=
  v ← Py.getitem key data; Py.iter v.

(** The names that [get_package_name] gives for the entries. *)
Definition names_of (pdatas names : list json) : Prop :=
  Forall2 (λ pdata name, get_package_name pdata = Ok name) pdatas names.

(** [name], of key [k], is accepted as a package name with the registries
    [reg]: it is no name of a package or of a dependency, and no previous
    name spelled as it is. *)
Definition fresh_package (reg : registry) (name : json) (k : Py.key) : Prop :=
  key_of name = Ok k
  ∧ package_names reg !! k = None
  ∧ dependency_names reg !! k = None
  ∧ ∀ entry, previous_package_names reg !! k = Some entry →
             Py.eq_hashable name entry.1.1 = false.

(** [name], of key [k], is accepted as a dependency name with the
    registries [reg]: it is no name of a dependency or of a package. *)
Definition fresh_dependency (reg : registry) (name : json) (k : Py.key) : Prop :=
  key_of name = Ok k
  ∧ dependency_names reg !! k = None
  ∧ package_names reg !! k = None.

(** [prev_name], of key [k], is accepted as a previous name with the
    registries [reg]: it is no previous name and no name of a package. *)
Definition fresh_previous (reg : registry) (prev_name : json) (k : Py.key) : Prop :=
  key_of prev_name = Ok k
  ∧ previous_package_names reg !! k = None
  ∧ package_names reg !! k = None.

(** [reg'] is [reg] with more previous names. *)
Definition more_previous (reg reg' : registry) : Prop :=
  package_names reg' = package_names reg
  ∧ dependency_names reg' = dependency_names reg
  ∧ previous_package_names reg ⊆ previous_package_names reg'.

(** The letter, or the digit, at which a name that is in the correct file
    starts. *)
Definition starts_in_shard (letter name : string) : Prop :=
  ∃ c rest, name = String c rest ∧
    if String.eqb letter "0-9" then Text.isdigit c = true
    else String (Text.lower_char c) "" = letter.

(** The strings of the pattern of a platform. *)
Definition platform_words : list string :=
  [ "*";
    "osx"; "osx-x32"; "osx-x64"; "osx-arm64";
    "linux"; "linux-x32"; "linux-x64"; "linux-arm64";
    "windows"; "windows-x32"; "windows-x64"; "windows-arm64" ].

(** What the pattern matches: one of its strings, alone or followed by a
    line feed. *)
Definition platform_shape (plat : string) : Prop :=
  ∃ word, In word platform_words
          ∧ (plat = word ∨ plat = word +:+ String Text.LF "").

(** The strings that the value of [platforms] stands for. *)
Definition platforms_of (v : json) (plats : list string) : Prop :=
  match v with
  | JStr plat => plats = [plat]
  | JList l => l = map JStr plats
  | _ => False
  end.

(** Worlds with one document, for the examples below. *)
Definition quoted (s : string) : string :=
  String (ascii_of_N 34) s +:+ String (ascii_of_N 34) "".

Definition one_document (source : string) (data : json) : world :=
  {| fetch := λ _, Text source;
     json_loads := λ _, Some data;
     urljoin := λ _ include,
       match include with JStr s => Ok s | _ => Raise TypeError end |}.

Definition new_session : session :=
  {| stream := []; skipped_repositories := ∅ |}.

(** ** Packages, releases, documents and reports *)

(** A character that the name of a package may hold: none of the nine
    characters that [_test_package] refuses, and no code up to 25. *)
Definition valid_name_char (c : ascii) : Prop :=
  ¬ In c (list_ascii_of_string "/?<>\:*|")
  ∧ Text.code c ≠ 34%N
  ∧ (25 < Text.code c)%N.

(** An address that starts with [http://] or [https://]. *)
Definition web_address (v : json) : Prop :=
  ∃ s, v = JStr s
    ∧ (Text.startswith "http://" s = true ∨ Text.startswith "https://" s = true).

(** What [_test_package] accepts as the value of a key. *)
Definition accepted_package_value (k : string) (v : json) : Prop :=
  (∃ spec, types_of k package_key_types_map = Some spec ∧ isinstance v spec = true)
  ∧ (k = "details" →
     ∃ s, v = JStr s ∧ Re.search_anchored Patterns.package_details_regex s = true)
  ∧ (In k ["homepage"; "readme"; "issues"; "buy"] → web_address v)
  ∧ (k = "donate" → v = JNull ∨ web_address v)
  ∧ (k = "author" → (∃ s, v = JStr s) ∨ ∃ authors, v = JList (map JStr authors))
  ∧ (k = "labels" →
     ∃ labels, v = JList (map JStr labels)
       ∧ NoDup labels
       ∧ Forall (λ label, Text.contains "," label = false) labels).

(** A string of [n] decimal digits. *)
Definition digits (n : nat) (s : string) : Prop :=
  String.length s = n
  ∧ Forall (λ c, Text.is_decimal c = true) (list_ascii_of_string s).

(** What the pattern of [sublime_text] matches: a star, a relation and a
    version of four digits, or two such versions around " - "; alone or
    followed by a line feed. *)
Definition sublime_text_shape (s : string) : Prop :=
  ∃ selector,
    (s = selector ∨ s = selector +:+ String Text.LF "")
    ∧ (selector = "*"
       ∨ (∃ relation version,
            In relation ["<"; "<="; ">"; ">="]
            ∧ digits 4 version
            ∧ selector = relation +:+ version)
       ∨ (∃ low high,
            digits 4 low ∧ digits 4 high
            ∧ selector = low +:+ " - " +:+ high)).

(** What [_test_repository_keys] accepts: an object of two to five items
    that gives "3.0.0" to [schema_version], has one at least of the keys
    [packages], [dependencies] and [includes], each with a list, has no key
    outside the five of [repository_keys], and whose includes are
    strings. *)
Definition accepted_document (kvs : list (string * json)) : Prop :=
  (2 ≤ length kvs ≤ 5)%nat
  ∧ Py.assoc "schema_version" kvs = Some (JStr "3.0.0")
  ∧ (∃ k, In k ["packages"; "dependencies"; "includes"] ∧ Py.has_key k kvs = true)
  ∧ (∀ k v, In k ["packages"; "dependencies"; "includes"] →
       Py.assoc k kvs = Some v → ∃ l, v = JList l)
  ∧ Forall (λ kv, In kv.1 repository_keys) kvs
  ∧ (∀ l, Py.assoc "includes" kvs = Some (JList l) →
       Forall (λ include, ∃ s, include = JStr s) l).


(** What the pattern of [load_order] matches: two decimal digits, alone
    or followed by a line feed. *)
Definition load_order_shape (s : string) : Prop :=
  ∃ order, digits 2 order ∧ (s = order ∨ s = order +:+ String Text.LF "").

(** What [_test_dependency] accepts as the value of a key. *)
Definition accepted_dependency_value (k : string) (v : json) : Prop :=
  (∃ spec, types_of k dependency_key_types_map = Some spec ∧ isinstance v spec = true)
  ∧ (k = "issues" → web_address v)
  ∧ (k = "name" →
     ∃ s, v = JStr s
       ∧ Forall valid_name_char (list_ascii_of_string s)
       ∧ Text.startswith "." s = false)
  ∧ (k = "load_order" → ∃ s, v = JStr s ∧ load_order_shape s).

(** What [test_channel_keys] accepts: an object of two or three items
    with no key outside [allowed_keys], that gives "3.0.0" to
    [schema_version] and a list of strings to [repositories]. *)
Definition accepted_channel (kvs : list (string * json)) : Prop :=
  (2 ≤ length kvs ≤ 3)%nat
  ∧ Forall (λ kv, In kv.1 allowed_keys) kvs
  ∧ Py.assoc "schema_version" kvs = Some (JStr "3.0.0")
  ∧ ∃ repos, Py.assoc "repositories" kvs = Some (JList (map JStr repos)).

(** A repository of a channel that is relative, or served over HTTPS. *)
Definition relative_or_secure (repo : string) : Prop :=
  Text.startswith "." repo = true ∨ Text.startswith "https://" repo = true.

(** A call that [_include_tests] may yield: a failure to report, the check
    of the keys of a document whose schema version is "3.0.0", the check of
    a package, or the check of the release of a package outside the main
    repository. *)
Definition remote_call (c : check_call) : Prop :=
  match c with
  | Call_test_error _ => True
  | Call_test_repository_keys _ data =>
      Py.getitem "schema_version" data = Ok (JStr "3.0.0")
  | Call_test_package _ _ => True
  | Call_test_release _ _ _ dependency main_repo =>
      dependency = false ∧ main_repo = false
  end.

(** What [_include_tests] writes for one document it visits: the path, one
    word on what it found, and the end of the line. *)
Definition report_line (line : list diagnostic) : Prop :=
  ∃ path found,
    line = [Visiting path; found; Newline]
    ∧ match found with
      | Done | Failed | SkippingBadRepo | SkippingSchema _ => True
      | Visiting _ | Newline => False
      end.

(** From the session [ses] to the session [ses']: whole lines were added
    to the stream, one for each document visited, and no count of skipped
    repositories went down. *)
Definition reported (ses ses' : session) : Prop :=
  (∃ lines,
     stream ses' = stream ses ++ concat lines ∧ Forall report_line lines)
  ∧ ∀ k, (default 0 (skipped_repositories ses !! k)
          ≤ default 0 (skipped_repositories ses' !! k))%nat.

(** A world in which no document can be obtained, for the examples
    below. *)
Definition no_document : world :=
  {| fetch := λ _, Unavailable;
     json_loads := λ _, None;
     urljoin := λ _ include,
       match include with JStr s => Ok s | _ => Raise TypeError end |}.

(** * Properties *)

(** ** The words of a regular expression *)

Module ReFacts.
Import Re Words.

Lemma app_nil_l (s : string) : "" +:+ s = s.
Proof. reflexivity. Qed.

Lemma app_cons (c : ascii) (s t : string) : String c s +:+ t = String c (s +:+ t).
Proof. reflexivity. Qed.

Lemma app_nil_r (s : string) : s +:+ "" = s.
Proof. induction s as [|c s IH]; [done|]. by rewrite app_cons, IH. Qed.

Lemma app_assoc (s t u : string) : (s +:+ t) +:+ u = s +:+ (t +:+ u).
Proof. induction s as [|c s IH]; [done|]. by rewrite !app_cons, IH. Qed.

Lemma app_eq_nil (s t : string) : s +:+ t = "" → s = "" ∧ t = "".
Proof. destruct s; [done|]. rewrite app_cons. discriminate. Qed.

(** A word of [Star r] that starts with [c] starts with a word of [r]
    that starts with [c]. *)
Lemma star_cons_inv (L : string → Prop) c s :
  star L (String c s) →
  ∃ s1 s2, s = s1 +:+ s2 ∧ L (String c s1) ∧ star L s2.
Proof.
  intros H. remember (String c s) as w eqn:Hw. revert c s Hw.
  induction H as [|s1 s2 H1 H2 IH]; intros c s Hw; [discriminate|].
  destruct s1 as [|c1 s1].
  - rewrite app_nil_l in Hw. by apply IH.
  - rewrite app_cons in Hw. injection Hw as -> <-. eauto.
Qed.

Lemma nullable_lang (r : regex) : nullable r = true ↔ lang r "".
Proof.
  induction r as [| |p|r1 IH1 r2 IH2|r1 IH1 r2 IH2|r1 IH1|r1 IH1 r2 IH2|r1 IH1];
    simpl.
  - split; [discriminate|done].
  - done.
  - split; [discriminate|]. by intros (c & ? & _).
  - rewrite andb_true_iff, IH1, IH2. split.
    + intros [??]. by exists "", "".
    + intros (s1 & s2 & Hs & ? & ?). symmetry in Hs.
      apply app_eq_nil in Hs as [-> ->]. done.
  - by rewrite orb_true_iff, IH1, IH2.
  - split; [intros _; constructor|done].
  - by rewrite andb_true_iff, IH1, IH2.
  - rewrite negb_true_iff, <- IH1. by destruct (nullable r1).
Qed.

Lemma deriv_lang (r : regex) c s : lang (deriv c r) s ↔ lang r (String c s).
Proof.
  revert s.
  induction r as [| |p|r1 IH1 r2 IH2|r1 IH1 r2 IH2|r1 IH1|r1 IH1 r2 IH2|r1 IH1];
    intros s; simpl.
  - done.
  - split; [done|discriminate].
  - destruct (p c) eqn:Hp; simpl.
    + split; [intros ->; eauto|]. by intros (c' & [= -> ->] & _).
    + split; [done|]. intros (c' & [= -> ->] & ?). congruence.
  - assert (Hcat : lang (Cat (deriv c r1) r2) s ↔
              ∃ s1 s2, s = s1 +:+ s2 ∧ lang r1 (String c s1) ∧ lang r2 s2).
    { simpl. split; intros (s1 & s2 & ? & ? & ?); exists s1, s2;
        (split; [done|split; [by apply IH1|done]]). }
    destruct (nullable r1) eqn:Hn.
    + change (lang (Cat (deriv c r1) r2) s ∨ lang (deriv c r2) s ↔
              ∃ s1 s2, String c s = s1 +:+ s2 ∧ lang r1 s1 ∧ lang r2 s2).
      rewrite Hcat, IH2. split.
      * intros [(s1 & s2 & -> & ? & ?)|?].
        -- by exists (String c s1), s2.
        -- exists "", (String c s). by rewrite <- nullable_lang.
      * intros ([|c1 s1] & s2 & Hs & H1 & H2).
        -- rewrite app_nil_l in Hs. subst s2. by right.
        -- rewrite app_cons in Hs. injection Hs as <- ->. left. eauto.
    + rewrite Hcat. split.
      * intros (s1 & s2 & -> & ? & ?). by exists (String c s1), s2.
      * intros ([|c1 s1] & s2 & Hs & H1 & H2).
        -- apply nullable_lang in H1. congruence.
        -- rewrite app_cons in Hs. injection Hs as <- ->. eauto.
  - by rewrite IH1, IH2.
  - split.
    + intros (s1 & s2 & -> & H1 & H2). apply IH1 in H1.
      rewrite <- app_cons. by constructor.
    + intros H. apply star_cons_inv in H as (s1 & s2 & -> & H1 & H2).
      exists s1, s2. by rewrite IH1.
  - by rewrite IH1, IH2.
  - by rewrite IH1.
Qed.

Theorem fullmatch_lang (r : regex) (s : string) :
  fullmatch r s = true ↔ lang r s.
Proof.
  revert r. induction s as [|c s IH]; intros r; simpl.
  - apply nullable_lang.
  - by rewrite IH, deriv_lang.
Qed.

End ReFacts.

(** ** The name of a package *)

Module NameFacts.
Import Text.

(** Stripping the slashes at both ends, as the source does, and stripping
    those at the end only leave the same last segment. *)
Lemma last_segment_strip (d : string) :
  last_segment (strip_slash d) = last_segment (rstrip_slash d).
Proof.
  unfold strip_slash. induction d as [|c d IH]; [done|].
  destruct (Ascii.eqb c "/") eqn:Hc.
  - apply Ascii.eqb_eq in Hc as ->. simpl lstrip_slash. rewrite IH.
    simpl rstrip_slash. destruct (rstrip_slash d) as [|c' t]; [done|].
    reflexivity.
  - replace (lstrip_slash (String c d)) with (String c d); [done|].
    simpl. destruct c as [[] [] [] [] [] [] [] []]; try done.
Qed.

End NameFacts.

(** C10.  For a package object, [get_package_name] returns the value of
    [name] whenever that value is truthy, in particular when it is a string
    that is not empty; when the value of [name] is absent or falsy and
    [details] is a string, it returns what follows the last slash of
    [details] once the slashes at its end are stripped; when [name] is absent
    or the empty string and [details] is absent, it raises [AttributeError],
    an exception that is no assertion failure.  In the generator of the
    checks of a repository nothing handles it: a document whose first
    package is such an object makes the generator yield the checks of the
    keys and of that package, and the exception then leaves it. *)
Theorem C10_get_package_name (kvs : list (string * json)) :
  (∀ v, Py.assoc "name" kvs = Some v → Py.truthy v = true →
        get_package_name (JObj kvs) = Ok v)
  ∧ (∀ n, Py.assoc "name" kvs = Some (JStr n) → n ≠ "" →
          get_package_name (JObj kvs) = Ok (JStr n))
  ∧ (∀ d, Py.truthy (default JNull (Py.assoc "name" kvs)) = false →
          Py.assoc "details" kvs = Some (JStr d) →
          get_package_name (JObj kvs)
          = Ok (JStr (Text.last_segment (Text.rstrip_slash d))))
  ∧ (Py.assoc "name" kvs = None ∨ Py.assoc "name" kvs = Some (JStr "") →
     Py.assoc "details" kvs = None →
     get_package_name (JObj kvs) = Raise AttributeError
     ∧ ∀ path document rest,
         Py.assoc "packages" document = Some (JList (JObj kvs :: rest)) →
         document_calls path (JObj document)
         = ([Call_test_repository_keys path (JObj document);
             Call_test_package path (JObj kvs)],
            inl AttributeError)).
Proof.
  unfold get_package_name. simpl. split; [|split; [|split]].
  - intros v -> Hv. simpl. by rewrite Hv.
  - intros n -> Hn. simpl. destruct (String.eqb n "") eqn:E; [|done].
    by apply String.eqb_eq in E.
  - intros d -> ->. simpl. by rewrite NameFacts.last_segment_strip.
  - intros Hname Hdetails. split.
    + destruct Hname as [-> | ->]; by rewrite Hdetails.
    + intros path document rest Hpackages.
      unfold document_calls, get_package_name. simpl. unfold Py.has_key.
      rewrite Hpackages. simpl.
      destruct Hname as [-> | ->]; by rewrite Hdetails.
Qed.

Lemma C10_get_package_name_witness :
  get_package_name (JObj [("name", JStr "Alignment")]) = Ok (JStr "Alignment")
  ∧ get_package_name (JObj [("name", JStr ""); ("details", JStr "https://github.com/wbond/sublime_alignment/")])
    = Ok (JStr "sublime_alignment")
  ∧ get_package_name (JObj [("description", JStr "nameless")]) = Raise AttributeError.
Proof.
  split; [|split].
  - apply (proj1 (proj2 (C10_get_package_name [("name", JStr "Alignment")])) "Alignment");
      [reflexivity|discriminate].
  - apply (proj1 (proj2 (proj2 (C10_get_package_name
             [("name", JStr ""); ("details", JStr "https://github.com/wbond/sublime_alignment/")])))
             "https://github.com/wbond/sublime_alignment/"); reflexivity.
  - apply (proj2 (proj2 (proj2 (C10_get_package_name [("description", JStr "nameless")]))));
      [left|]; reflexivity.
Defined.

(** ** What the patterns of the source match *)

Module PatternFacts.
Import Re Words ReFacts Patterns.

Lemma lang_chr c s : lang (chr c) s ↔ s = String c "".
Proof.
  simpl. split.
  - intros (c' & -> & Hc). by apply Ascii.eqb_eq in Hc as ->.
  - intros ->. exists c. by rewrite Ascii.eqb_refl.
Qed.

Lemma lang_lit w s : lang (lit w) s ↔ s = w.
Proof.
  revert s. induction w as [|c w IH]; intros s; [done|].
  change (lang (lit (String c w)) s)
    with (∃ s1 s2, s = s1 +:+ s2 ∧ lang (chr c) s1 ∧ lang (lit w) s2).
  split.
  - intros (s1 & s2 & -> & H1 & H2). apply lang_chr in H1 as ->.
    by apply IH in H2 as ->.
  - intros ->. exists (String c ""), w. by rewrite lang_chr, IH.
Qed.

Lemma lang_anything s : lang anything s.
Proof.
  induction s as [|c s IH]; [constructor|].
  change (String c s) with (String c "" +:+ s). by constructor; [exists c|].
Qed.

Lemma lang_opt r s : lang (opt r) s ↔ lang r s ∨ s = "".
Proof. done. Qed.

Lemma lang_cat r1 r2 s :
  lang (Cat r1 r2) s ↔ ∃ s1 s2, s = s1 +:+ s2 ∧ lang r1 s1 ∧ lang r2 s2.
Proof. done. Qed.

Lemma prefix_app p s : String.prefix p s = true ↔ ∃ t, s = p +:+ t.
Proof.
  revert s. induction p as [|c p IH]; intros s.
  - split; [|by destruct s]. intros _. by exists s.
  - destruct s as [|c' s]; simpl.
    + split; [done|]. by intros (t & ?).
    + destruct (ascii_dec c c') as [<-|Hne].
      * rewrite IH. split; intros (t & Ht); exists t.
        -- by rewrite app_cons, Ht.
        -- rewrite app_cons in Ht. congruence.
      * split; [done|]. intros (t & Ht). rewrite app_cons in Ht. congruence.
Qed.

Lemma search_from_start_lang r s :
  search_from_start r s = true ↔ ∃ s1 s2, s = s1 +:+ s2 ∧ lang r s1.
Proof.
  unfold search_from_start. rewrite fullmatch_lang, lang_cat. split.
  - intros (s1 & s2 & ? & ? & _). eauto.
  - intros (s1 & s2 & ? & ?). exists s1, s2. eauto using lang_anything.
Qed.

(** [^p] for a literal [p] is [startswith]. *)
Lemma search_lit p s : search_from_start (lit p) s = Text.startswith p s.
Proof.
  apply eq_true_iff_eq. unfold Text.startswith.
  rewrite search_from_start_lang, prefix_app. split.
  - intros (s1 & s2 & -> & H1). apply lang_lit in H1 as ->. eauto.
  - intros (t & ->). exists p, t. by rewrite lang_lit.
Qed.

(** [^https?://] *)
Lemma search_http_or_https s :
  search_from_start http_or_https s
  = Text.startswith "http://" s || Text.startswith "https://" s.
Proof.
  apply eq_true_iff_eq. unfold Text.startswith.
  rewrite search_from_start_lang, orb_true_iff, !prefix_app. split.
  - intros (s1 & s2 & -> & H1). unfold http_or_https, seq in H1.
    apply lang_cat in H1 as (a & b & -> & Ha & Hb).
    apply lang_cat in Hb as (c & d & -> & Hc & Hd).
    apply lang_cat in Hd as (e & f & -> & He & Hf).
    apply lang_lit in Ha as ->. apply lang_lit in He as ->.
    simpl in Hf. subst f.
    apply lang_opt in Hc as [Hc| ->].
    + apply lang_chr in Hc as ->. right. by exists s2.
    + left. by exists s2.
  - intros [(t & ->)|(t & ->)].
    + exists "http://", t. split; [done|].
      apply fullmatch_lang. reflexivity.
    + exists "https://", t. split; [done|].
      apply fullmatch_lang. reflexivity.
Qed.

Lemma star_tabs s : star (lang (chr Text.TAB)) s ↔ ∃ n, s = tabs n.
Proof.
  split.
  - induction 1 as [|s1 s2 H1 _ [n ->]]; [by exists 0|].
    apply lang_chr in H1 as ->. by exists (S n).
  - intros [n ->]. induction n as [|n IH]; [constructor|].
    change (tabs (S n)) with (String Text.TAB "" +:+ tabs n).
    constructor; [by apply lang_chr|done].
Qed.

(** [^\t*\S]: tabs, and then a character that is no white space. *)
Lemma search_indentation line :
  search_from_start indentation_regex line = true
  ↔ ∃ n c rest, line = tabs n +:+ String c rest ∧ Text.isspace c = false.
Proof.
  rewrite search_from_start_lang. split.
  - intros (s1 & s2 & -> & H1). unfold indentation_regex in H1.
    apply lang_cat in H1 as (a & b & -> & Ha & (c & -> & Hc)).
    apply star_tabs in Ha as [n ->]. exists n, c, s2.
    split; [by rewrite app_assoc|]. by apply negb_true_iff.
  - intros (n & c & rest & -> & Hc).
    exists (tabs n +:+ String c ""), rest. split; [by rewrite app_assoc|].
    apply lang_cat. exists (tabs n), (String c ""). split; [done|]. split.
    + apply star_tabs. eauto.
    + exists c. split; [done|]. by apply negb_true_iff.
Qed.

End PatternFacts.

(** ** The indentation of a file *)

Module IndentationFacts.
Import PatternFacts.

Lemma indentation_loop_ok i lines :
  indentation_loop i lines = Ok tt ↔ Forall tabs_then_text lines.
Proof.
  revert i. induction lines as [|line lines IH]; intros i; simpl.
  - split; [constructor|done].
  - rewrite Forall_cons, <- (IH (S i)).
    unfold tabs_then_text. rewrite <- search_indentation.
    destruct (Re.search_from_start Patterns.indentation_regex line); simpl.
    + tauto.
    + split; [discriminate|]. by intros [? _].
Qed.

Lemma leading_whitespace_tabs n c rest :
  Text.isspace c = false →
  leading_whitespace (tabs n +:+ String c rest) = tabs n.
Proof.
  intros Hc. induction n as [|n IH].
  - change (tabs 0 +:+ String c rest) with (String c rest). simpl.
    by rewrite Hc.
  - change (tabs (S n) +:+ String c rest)
      with (String Text.TAB (tabs n +:+ String c rest)).
    simpl. by rewrite IH.
Qed.

Lemma tabs_then_text_indented line :
  tabs_then_text line → indented_with_tabs line.
Proof.
  intros (n & c & rest & -> & Hc). unfold indented_with_tabs.
  rewrite leading_whitespace_tabs by done.
  induction n as [|n IH]; simpl; by constructor.
Qed.

End IndentationFacts.

(** C9, as stated, does not hold: the file made of an opening brace, an
    empty line and a closing brace has no white space at the start of any
    line, and the check fails on its second line. *)
Lemma C9_counterexample :
  let contents := String "{" (String Text.LF (String Text.LF "}")) in
  Forall indented_with_tabs (Text.splitlines contents)
  ∧ _test_indentation "repository.json" contents = Fail (IndentMustBeTabs 2).
Proof.
  split; [|reflexivity].
  vm_compute. repeat constructor.
Qed.

(** C9, amended.  The indentation check passes exactly when every line of
    the file is made of tab characters, none or more, followed by a
    character that is no white space and by the rest of the line.  So the
    white space at the start of every line of a file that passes is made of
    tabs only, and a file with an empty line does not pass. *)
Theorem C9_indentation_tabs_then_text (filename contents : string) :
  (_test_indentation filename contents = Ok tt
   ↔ Forall tabs_then_text (Text.splitlines contents))
  ∧ (_test_indentation filename contents = Ok tt →
     Forall indented_with_tabs (Text.splitlines contents))
  ∧ (In "" (Text.splitlines contents) →
     _test_indentation filename contents ≠ Ok tt).
Proof.
  unfold _test_indentation. rewrite IndentationFacts.indentation_loop_ok.
  split; [done|]. split.
  - intros Hall. eapply Forall_impl; [exact Hall|].
    apply IndentationFacts.tabs_then_text_indented.
  - intros Hin Hall. rewrite Forall_forall in Hall.
    apply list_elem_of_In, Hall in Hin. destruct Hin as (n & c & rest & Hn & _).
    destruct n; discriminate.
Qed.

Lemma C9_indentation_tabs_then_text_witness :
  let contents := String "{" (String Text.LF (String Text.TAB (String "x" (String Text.LF "}")))) in
  _test_indentation "repository.json" contents = Ok tt
  ∧ Forall indented_with_tabs (Text.splitlines contents).
Proof.
  intros contents. split; [reflexivity|].
  apply (proj1 (proj2 (C9_indentation_tabs_then_text "repository.json" contents))).
  reflexivity.
Defined.

(** ** Outcomes *)

Module OutcomeFacts.

Lemma bind_ok {A B} (m : outcome A) (k : A → outcome B) b :
  m ≫= k = Ok b → ∃ a, m = Ok a ∧ k a = Ok b.
Proof. destruct m as [a|e]; [|discriminate]. intros H. by exists a. Qed.

Lemma assertTrue_ok b f : assertTrue b f = Ok tt ↔ b = true.
Proof. by destruct b. Qed.

Lemma assertFalse_ok b f : assertFalse b f = Ok tt ↔ b = false.
Proof. by destruct b. Qed.

Lemma outcome_unit (o : outcome unit) u : o = Ok u ↔ o = Ok tt.
Proof. by destruct u. Qed.

Lemma for_each_ok {A} (xs : list A) (body : A → outcome unit) :
  for_each xs body = Ok tt ↔ Forall (λ x, body x = Ok tt) xs.
Proof.
  induction xs as [|x xs IH]; simpl.
  - split; [constructor|done].
  - rewrite Forall_cons, <- IH. destruct (body x) as [[]|e]; simpl.
    + tauto.
    + split; [discriminate|]. by intros [? _].
Qed.

Lemma assertRegex_ok found v f :
  assertRegex found v f = Ok tt ↔ ∃ s, v = JStr s ∧ found s = true.
Proof.
  destruct v; simpl; try (split; [discriminate|by intros (? & ? & _)]).
  rewrite assertTrue_ok. split; [eauto|]. by intros (? & [= <-] & ?).
Qed.

Lemma assertIn_ok k data f :
  assertIn k data f = Ok tt ↔ Py.contains k data = Ok true.
Proof.
  unfold assertIn. destruct (Py.contains k data) as [[]|e]; simpl;
    split; congruence.
Qed.

Lemma assertNotIn_ok k data f :
  assertNotIn k data f = Ok tt ↔ Py.contains k data = Ok false.
Proof.
  unfold assertNotIn. destruct (Py.contains k data) as [[]|e]; simpl;
    split; congruence.
Qed.

End OutcomeFacts.

(** Splits a hypothesis [m ≫= k = Ok b] into [m = Ok a] and [k a = Ok b]. *)
Tactic Notation "bind_inv" hyp(H) :=
  let a := fresh "a" in
  let Ha := fresh "H" a in
  apply OutcomeFacts.bind_ok in H as (a & Ha & H);
  try match type of a with unit => destruct a end.

Tactic Notation "bind_inv" hyp(H) "as" ident(a) ident(Ha) :=
  apply OutcomeFacts.bind_ok in H as (a & Ha & H).

(** ** The check of a release *)

Module ReleaseFacts.
Import OutcomeFacts.

(** A release passes only when the values of its keys pass. *)
Lemma test_release_key_values name data dependency main_repo :
  _test_release name data dependency main_repo = Ok tt →
  check_release_key_values data dependency = Ok tt.
Proof.
  unfold _test_release. intros H. do 6 bind_inv H. exact H.
Qed.

Lemma key_values_items data dependency :
  check_release_key_values data dependency = Ok tt →
  ∃ kvs, data = JObj kvs
         ∧ Forall (λ kv, release_item data dependency kv.1 kv.2 = Ok tt) kvs.
Proof.
  unfold check_release_key_values. intros H. bind_inv H.
  destruct data; try discriminate. injection Ha as <-.
  apply for_each_ok in H. eauto.
Qed.

(** A release passes only when it is an object. *)
Lemma test_release_object name data dependency main_repo :
  _test_release name data dependency main_repo = Ok tt →
  ∃ kvs, data = JObj kvs
         ∧ Forall (λ kv, release_item data dependency kv.1 kv.2 = Ok tt) kvs.
Proof. intros H. by eapply key_values_items, test_release_key_values. Qed.

(** The branch of [release_item] for the key [url]. *)
Lemma release_item_url data dependency v :
  release_item data dependency "url" v = Ok tt →
  ∃ u, v = JStr u ∧
    if dependency then
      ∃ has_sha256, Py.contains "sha256" data = Ok has_sha256 ∧
        if has_sha256 then Text.startswith "http://" u = true
        else Text.startswith "https://" u = true
    else Text.startswith "http://" u = true ∨ Text.startswith "https://" u = true.
Proof.
  unfold release_item. intros H. bind_inv H. clear Ha.
  change (String.eqb "url" "url") with true in H. cbv iota in H.
  destruct dependency.
  - bind_inv H as has_sha256 Hsha.
    destruct has_sha256; apply assertRegex_ok in H as (u & -> & Hu);
      exists u; (split; [done|]); eexists; (split; [done|]);
      unfold Patterns.http_only, Patterns.https_only in Hu;
      by rewrite PatternFacts.search_lit in Hu.
  - apply assertRegex_ok in H as (u & -> & Hu). exists u. split; [done|].
    rewrite PatternFacts.search_http_or_https in Hu.
    by apply orb_true_iff in Hu.
Qed.

End ReleaseFacts.

(** C4, as stated, does not hold: a package release that is not checked
    for the main repository passes with a url that starts with [http://]. *)
Lemma C4_counterexample :
  _test_release "Example (https://example.com/packages.json)"
    (JObj [("sublime_text", JStr "*");
           ("url", JStr "http://example.com/Example.sublime-package");
           ("version", JStr "1.0.0");
           ("date", JStr "2020-01-01 00:00:00")])
    false false = Ok tt.
Proof. vm_compute. reflexivity. Qed.

(** C4, amended.  A release that passes is an object, and every value it
    gives to the key [url] is a string that starts with [https://] for a
    dependency release without [sha256], with [http://] for a dependency
    release with [sha256], and with [http://] or [https://] for a package
    release: any other value of [url] makes the check raise. *)
Theorem C4_release_url_prefix (name : string) (data : json)
    (dependency main_repo : bool) :
  _test_release name data dependency main_repo = Ok tt →
  ∃ kvs, data = JObj kvs ∧
    ∀ v, In ("url", v) kvs →
      ∃ u, v = JStr u ∧
        if dependency then
          if Py.has_key "sha256" kvs then Text.startswith "http://" u = true
          else Text.startswith "https://" u = true
        else Text.startswith "http://" u = true
             ∨ Text.startswith "https://" u = true.
Proof.
  intros H. apply ReleaseFacts.test_release_object in H as (kvs & -> & Hall).
  exists kvs. split; [done|]. intros v Hin.
  rewrite Forall_forall in Hall. apply list_elem_of_In, Hall in Hin.
  cbn [fst snd] in Hin.
  apply ReleaseFacts.release_item_url in Hin as (u & -> & Hu).
  exists u. split; [done|]. destruct dependency; [|done].
  destruct Hu as (b & [= <-] & Hu). done.
Qed.

Lemma C4_release_url_prefix_witness :
  ∃ kvs,
    JObj [("sublime_text", JStr "*"); ("platforms", JStr "*");
          ("url", JStr "http://example.com/ssl.zip"); ("version", JStr "1.0.0");
          ("sha256", JStr "0f7106a834d79de59228359fdd969ad812e861675644cc3878bf0eee8ce3110c")]
    = JObj kvs ∧
    ∀ v, In ("url", v) kvs →
      ∃ u, v = JStr u ∧
        if Py.has_key "sha256" kvs then Text.startswith "http://" u = true
        else Text.startswith "https://" u = true.
Proof.
  apply (C4_release_url_prefix "ssl (dependencies.json)" _ true true).
  vm_compute. reflexivity.
Defined.

(** C2.  A package release checked for the main repository passes only if
    it is an object with exactly one of the keys [tags] and [branch] and
    with none of the keys [url], [version] and [date]; and whatever the
    kind of release and the mode, a release with both [tags] and [branch]
    does not pass: an exception leaves the check, which the test runner
    reports. *)
Theorem C2_release_shape :
  (∀ name data,
     _test_release name data false true = Ok tt →
     ∃ kvs, data = JObj kvs
       ∧ xorb (Py.has_key "tags" kvs) (Py.has_key "branch" kvs) = true
       ∧ Py.has_key "url" kvs = false
       ∧ Py.has_key "version" kvs = false
       ∧ Py.has_key "date" kvs = false)
  ∧ (∀ name data dependency main_repo,
       Py.contains "tags" data = Ok true →
       Py.contains "branch" data = Ok true →
       ∃ e, _test_release name data dependency main_repo = Raise e).
Proof.
  split.
  - intros name data H.
    destruct (ReleaseFacts.test_release_object _ _ _ _ H) as (kvs & -> & _).
    exists kvs. split; [done|].
    unfold _test_release in H.
    bind_inv H as u1 Hshape. do 2 bind_inv H.
    bind_inv H as has_tags Htags. bind_inv H as has_branch Hbranch.
    bind_inv H as u2 Honly. clear H.
    simpl in Htags, Hbranch. injection Htags as <-. injection Hbranch as <-.
    apply OutcomeFacts.outcome_unit, OutcomeFacts.assertFalse_ok in Honly.
    bind_inv Hshape as has_tags Htags. bind_inv Hshape as has_branch Hbranch.
    simpl in Htags, Hbranch. injection Htags as <-. injection Hbranch as <-.
    bind_inv Hshape as u3 Hone.
    apply OutcomeFacts.outcome_unit, OutcomeFacts.assertTrue_ok in Hone.
    apply OutcomeFacts.outcome_unit, OutcomeFacts.for_each_ok in Hshape.
    rewrite !Forall_cons in Hshape. destruct Hshape as (Hu & Hv & Hd & _).
    apply OutcomeFacts.assertNotIn_ok in Hu, Hv, Hd.
    simpl in Hu, Hv, Hd. injection Hu as ->. injection Hv as ->. injection Hd as ->.
    destruct (Py.has_key "tags" kvs), (Py.has_key "branch" kvs); done.
  - intros name data dependency main_repo Htags Hbranch.
    destruct (_test_release name data dependency main_repo) as [[]|e] eqn:H;
      [exfalso|by exists e].
    unfold _test_release in H. do 3 bind_inv H.
    bind_inv H as has_tags Ht. bind_inv H as has_branch Hb.
    bind_inv H as u2 Honly.
    rewrite Htags in Ht. rewrite Hbranch in Hb.
    injection Ht as <-. injection Hb as <-. discriminate.
Qed.

Lemma C2_release_shape_witness :
  (∃ kvs, JObj [("sublime_text", JStr "*"); ("tags", JBool true)] = JObj kvs
     ∧ xorb (Py.has_key "tags" kvs) (Py.has_key "branch" kvs) = true
     ∧ Py.has_key "url" kvs = false
     ∧ Py.has_key "version" kvs = false
     ∧ Py.has_key "date" kvs = false)
  ∧ (∃ e, _test_release "Example (repository/e.json)"
            (JObj [("sublime_text", JStr "*"); ("tags", JBool true);
                   ("branch", JStr "master")])
            false false = Raise e).
Proof.
  split.
  - apply (proj1 C2_release_shape "Example (repository/e.json)"). reflexivity.
  - apply (proj2 C2_release_shape); reflexivity.
Defined.

(** ** The triage of the schema version *)

Module ResolveFacts.

(** The first steps of [open_document] on a document that was fetched,
    is not empty and parses to an object. *)
Lemma open_document_parsed w path ses source kvs :
  fetch w path = Text source →
  source ≠ "" →
  json_loads w source = Some (JObj kvs) →
  open_document w path ses =
    let ses1 := write (Visiting path) ses in
    let finally_failed := write Newline (write Failed ses1) in
    match Py.assoc "schema_version" kvs with
    | None => inl (stop [Call_test_error (NoSchemaVersion path)] Exhausted finally_failed)
    | Some schema =>
        match raised (unrecognized schema) with
        | inl e => inl (stop [] (Aborted e) finally_failed)
        | inr true =>
            inl (stop [Call_test_error (UnrecognizedSchemaVersion schema path)]
                      Exhausted finally_failed)
        | inr false =>
            if in_strings path BAD_REPOS then
              inl (stop [] Exhausted (write Newline (write SkippingBadRepo ses1)))
            else if negb (Py.eq_str schema "3.0.0") then
              match raised (Py.hash schema) with
              | inl e =>
                  inl (stop [] (Aborted e)
                         (write Newline (write (SkippingSchema schema) ses1)))
              | inr k =>
                  inl (stop [] Exhausted
                         (write Newline
                            (count_skipped k (write (SkippingSchema schema) ses1))))
              end
            else inr (JObj kvs, write Newline (write Done ses1))
        end
    end.
Proof.
  intros Hfetch Hsource Hjson. unfold open_document.
  rewrite Hfetch. destruct (String.eqb_spec source "") as [|_]; [done|].
  rewrite Hjson. simpl. unfold Py.has_key.
  destruct (Py.assoc "schema_version" kvs) as [schema|]; reflexivity.
Qed.

(** A document without [schema_version] makes the generator yield one
    call of [_test_error] and return. *)
Lemma missing_schema_version w fuel path ses source kvs :
  fetch w path = Text source →
  source ≠ "" →
  json_loads w source = Some (JObj kvs) →
  Py.assoc "schema_version" kvs = None →
  let r := _include_tests w (S fuel) path ses in
  yielded r = [Call_test_error (NoSchemaVersion path)] ∧ ended r = Exhausted.
Proof.
  intros Hfetch Hsource Hjson Hnone. cbn [_include_tests].
  rewrite (open_document_parsed _ _ _ _ _ Hfetch Hsource Hjson), Hnone. done.
Qed.

(** A document whose [schema_version] is not "3.0.0" and is a number
    other than the four old versions makes the generator yield one call
    of [_test_error] and return. *)
Lemma unrecognized_schema_version w fuel path ses source kvs schema x :
  fetch w path = Text source →
  source ≠ "" →
  json_loads w source = Some (JObj kvs) →
  Py.assoc "schema_version" kvs = Some schema →
  Py.eq_str schema "3.0.0" = false →
  PyFloat.float schema = Ok x →
  PyFloat.is_old_version x = false →
  let r := _include_tests w (S fuel) path ses in
  yielded r = [Call_test_error (UnrecognizedSchemaVersion schema path)]
  ∧ ended r = Exhausted.
Proof.
  intros Hfetch Hsource Hjson Hschema Hne Hfloat Hold. cbn [_include_tests].
  rewrite (open_document_parsed _ _ _ _ _ Hfetch Hsource Hjson), Hschema.
  unfold unrecognized. rewrite Hne, Hfloat. simpl. rewrite Hold. done.
Qed.

Lemma float_hashable schema x :
  PyFloat.float schema = Ok x → ∃ k, Py.hash schema = Ok k.
Proof. destruct schema; simpl; try discriminate; eauto. Qed.

Lemma float_not_current schema x :
  PyFloat.float schema = Ok x → Py.eq_str schema "3.0.0" = false.
Proof.
  destruct schema; try done. simpl.
  destruct (String.eqb_spec s "3.0.0") as [->|]; [|done].
  vm_compute. discriminate.
Qed.

(** The four old versions, as exact numbers, are rounded to the four
    old versions. *)
Lemma old_version_exact (x : Q) :
  (x == 1 ∨ x == 11 # 10 ∨ x == 12 # 10 ∨ x == 2)%Q →
  PyFloat.is_old_version (PyFloat.Finite x) = true.
Proof.
  unfold PyFloat.is_old_version, PyFloat.between, PyFloat.strictly_between.
  intros [H|[H|[H|H]]]; rewrite H; reflexivity.
Qed.

End ResolveFacts.

(** C3.  The generator does what the statement says for a document
    without [schema_version] ([ResolveFacts.missing_schema_version]) and for
    one whose version is a number that is not recognised
    ([ResolveFacts.unrecognized_schema_version]).  It does not for a
    version that [float] refuses, such as a string that is no number: the
    exception of [float] leaves the generator, which has yielded no call. *)
Theorem C3_schema_version_not_a_number_aborts
    (w : world) (fuel : nat) (path : string) (ses : session)
    (source : string) (kvs : list (string * json)) (schema : json) (e : exn) :
  fetch w path = Text source →
  source ≠ "" →
  json_loads w source = Some (JObj kvs) →
  Py.assoc "schema_version" kvs = Some schema →
  Py.eq_str schema "3.0.0" = false →
  PyFloat.float schema = Raise e →
  let r := _include_tests w (S fuel) path ses in
  yielded r = [] ∧ ended r = Aborted e.
Proof.
  intros Hfetch Hsource Hjson Hschema Hne Hfloat. cbn [_include_tests].
  rewrite (ResolveFacts.open_document_parsed _ _ _ _ _ Hfetch Hsource Hjson).
  rewrite Hschema. unfold unrecognized. rewrite Hne, Hfloat. done.
Qed.

Lemma C3_schema_version_not_a_number_aborts_witness :
  let source := "{" +:+ quoted "schema_version" +:+ ": " +:+ quoted "abc" +:+ "}" in
  let w := one_document source (JObj [("schema_version", JStr "abc")]) in
  let r := _include_tests w 1 "https://example.com/packages.json" new_session in
  yielded r = [] ∧ ended r = Aborted ValueError.
Proof.
  intros source w.
  apply (C3_schema_version_not_a_number_aborts w 0 _ new_session source
           [("schema_version", JStr "abc")] (JStr "abc") ValueError);
    try reflexivity.
  discriminate.
Defined.

(** C5, as stated, does not hold: a document of schema version "2.0" at
    the address of a known bad repository is skipped without being
    counted. *)
Lemma C5_counterexample :
  let source := "{" +:+ quoted "schema_version" +:+ ": " +:+ quoted "2.0" +:+ "}" in
  let w := one_document source (JObj [("schema_version", JStr "2.0")]) in
  let r := _include_tests w 1 "https://packages.monokai.pro/packages.json" new_session in
  (∃ x, PyFloat.float (JStr "2.0") = Ok (PyFloat.Finite x) ∧ (x == 2)%Q)
  ∧ yielded r = [] ∧ ended r = Exhausted
  ∧ skipped_repositories (session_after r) = skipped_repositories new_session.
Proof.
  split; [|by vm_compute].
  exists (20 # 10)%Q. split; [by vm_compute|reflexivity].
Qed.

(** C5, amended.  For a fetched document whose [schema_version] is
    present and which [float] converts to one of the floating-point
    numbers 1.0, 1.1, 1.2 and 2.0 (the condition of the code,
    [float(schema) in (1.0, 1.1, 1.2, 2.0)]: the exact numbers 1, 1.1,
    1.2 and 2 meet it by [ResolveFacts.old_version_exact], and so does
    every number that is rounded to one of the four), the generator
    yields no call and returns, having visited no other document; it adds
    one to the counter of the skipped repositories at the key
    [schema_version], unless the path is one of the known bad
    repositories, which are skipped without being counted. *)
Theorem C5_old_schema_version_skipped
    (w : world) (fuel : nat) (path : string) (ses : session)
    (source : string) (kvs : list (string * json)) (schema : json)
    (version : PyFloat.value) :
  fetch w path = Text source →
  source ≠ "" →
  json_loads w source = Some (JObj kvs) →
  Py.assoc "schema_version" kvs = Some schema →
  PyFloat.float schema = Ok version →
  PyFloat.is_old_version version = true →
  let r := _include_tests w (S fuel) path ses in
  yielded r = [] ∧ ended r = Exhausted ∧
  if in_strings path BAD_REPOS then
    skipped_repositories (session_after r) = skipped_repositories ses
    ∧ stream (session_after r) = stream ses ++ [Visiting path; SkippingBadRepo; Newline]
  else
    ∃ k, Py.hash schema = Ok k
      ∧ skipped_repositories (session_after r)
        = <[k := S (default 0 (skipped_repositories ses !! k))]>
            (skipped_repositories ses)
      ∧ stream (session_after r)
        = stream ses ++ [Visiting path; SkippingSchema schema; Newline].
Proof.
  intros Hfetch Hsource Hjson Hschema Hfloat Hold. cbn [_include_tests].
  rewrite (ResolveFacts.open_document_parsed _ _ _ _ _ Hfetch Hsource Hjson).
  rewrite Hschema. unfold unrecognized.
  rewrite (ResolveFacts.float_not_current _ _ Hfloat), Hfloat.
  cbn [mbind outcome_bind raised].
  rewrite Hold. cbn [negb].
  destruct (in_strings path BAD_REPOS).
  - cbn. by rewrite <- !app_assoc.
  - destruct (ResolveFacts.float_hashable _ _ Hfloat) as [k Hk].
    rewrite Hk. cbn. repeat split. exists k. by rewrite <- !app_assoc.
Qed.

(** The string "2.0", and the JSON number 1.1, which the parser reads as
    the floating-point number 4953959590107546 / 2^52. *)
Lemma C5_old_schema_version_skipped_witness :
  let path := "https://example.com/packages.json" in
  let as_string := JStr "2.0" in
  let as_number := JFloat (Q2Qc (4953959590107546 # 4503599627370496)) in
  let document (text : string) (schema : json) :=
    let source := "{" +:+ quoted "schema_version" +:+ ": " +:+ text +:+ "}" in
    _include_tests (one_document source (JObj [("schema_version", schema)]))
      1 path new_session in
  (yielded (document (quoted "2.0") as_string) = []
   ∧ ended (document (quoted "2.0") as_string) = Exhausted
   ∧ ∃ k, Py.hash as_string = Ok k
     ∧ skipped_repositories (session_after (document (quoted "2.0") as_string))
       = <[k := 1]> ∅
     ∧ stream (session_after (document (quoted "2.0") as_string))
       = [Visiting path; SkippingSchema as_string; Newline])
  ∧ (yielded (document "1.1" as_number) = []
     ∧ ended (document "1.1" as_number) = Exhausted
     ∧ ∃ k, Py.hash as_number = Ok k
       ∧ skipped_repositories (session_after (document "1.1" as_number))
         = <[k := 1]> ∅
       ∧ stream (session_after (document "1.1" as_number))
         = [Visiting path; SkippingSchema as_number; Newline]).
Proof.
  intros path as_string as_number document. split.
  - apply (C5_old_schema_version_skipped
             (one_document
                ("{" +:+ quoted "schema_version" +:+ ": " +:+ quoted "2.0" +:+ "}")
                (JObj [("schema_version", as_string)]))
             0 path new_session
             ("{" +:+ quoted "schema_version" +:+ ": " +:+ quoted "2.0" +:+ "}")
             [("schema_version", as_string)] as_string (PyFloat.Finite (20 # 10)));
      try reflexivity.
    discriminate.
  - apply (C5_old_schema_version_skipped
             (one_document
                ("{" +:+ quoted "schema_version" +:+ ": " +:+ "1.1" +:+ "}")
                (JObj [("schema_version", as_number)]))
             0 path new_session
             ("{" +:+ quoted "schema_version" +:+ ": " +:+ "1.1" +:+ "}")
             [("schema_version", as_number)] as_number
             (PyFloat.Finite (Q2Qc (4953959590107546 # 4503599627370496))));
      try reflexivity.
    discriminate.
Defined.

(** ** The order of the names *)

Module SortFacts.

Lemma lower_le_leb a b :
  lower_le a b ↔ String.leb (Text.lower a) (Text.lower b) = true.
Proof. unfold lower_le, String.le. apply Is_true_true. Qed.

Lemma lower_le_trans a b c : lower_le a b → lower_le b c → lower_le a c.
Proof. unfold lower_le. intros ??. by etrans. Qed.

Lemma lower_le_total a b : lower_le a b ∨ lower_le b a.
Proof. unfold lower_le. apply (total String.le). Qed.

Lemma insert_by_lower_perm x l : insert_by_lower x l ≡ₚ x :: l.
Proof.
  induction l as [|y l IH]; simpl; [done|].
  destruct (String.leb (Text.lower x) (Text.lower y)); [done|].
  rewrite IH. apply perm_swap.
Qed.

(** The sorted list holds the same names as often. *)
Lemma sorted_by_lower_perm l : sorted_by_lower l ≡ₚ l.
Proof.
  induction l as [|x l IH]; simpl; [done|].
  by rewrite insert_by_lower_perm, IH.
Qed.

Lemma insert_by_lower_sorted x l :
  StronglySorted lower_le l → StronglySorted lower_le (insert_by_lower x l).
Proof.
  induction 1 as [|y l Hl IH Hy]; simpl.
  - repeat constructor.
  - destruct (String.leb (Text.lower x) (Text.lower y)) eqn:Hxy.
    + apply lower_le_leb in Hxy. constructor; [by constructor|].
      constructor; [done|].
      eapply Forall_impl; [exact Hy|]. intros z. by apply lower_le_trans.
    + constructor; [done|]. rewrite insert_by_lower_perm.
      constructor; [|done].
      destruct (lower_le_total x y) as [Hle|Hle]; [|done].
      apply lower_le_leb in Hle. congruence.
Qed.

(** The sorted list is in alphabetical order, whatever the case. *)
Lemma sorted_by_lower_sorted l : StronglySorted lower_le (sorted_by_lower l).
Proof.
  induction l as [|x l IH]; simpl; [constructor|].
  by apply insert_by_lower_sorted.
Qed.

Lemma insert_by_lower_front x l :
  Forall (lower_le x) l → insert_by_lower x l = x :: l.
Proof.
  destruct 1 as [|y l Hy _]; simpl; [done|].
  apply lower_le_leb in Hy. by rewrite Hy.
Qed.

(** A list is its own sorted list exactly when it is in order. *)
Lemma sorted_by_lower_fixed l :
  l = sorted_by_lower l ↔ StronglySorted lower_le l.
Proof.
  split.
  - intros ->. apply sorted_by_lower_sorted.
  - induction 1 as [|x l Hl IH Hx]; simpl; [done|].
    rewrite <- IH. by rewrite insert_by_lower_front.
Qed.

(** Sorting keeps the order of two names that are equal when lowered:
    the first of them in [l] is the first of them in the sorted list. *)
Lemma insert_by_lower_filter (P : string → Prop) `{∀ s, Decision (P s)} x l :
  (∀ y, P y → lower_le x y) →
  filter P (insert_by_lower x l) = filter P (x :: l).
Proof.
  intros Hx. induction l as [|y l IH]; simpl; [done|].
  destruct (String.leb (Text.lower x) (Text.lower y)) eqn:Hxy; [done|].
  rewrite filter_cons, IH, !filter_cons.
  destruct (decide (P y)) as [Hy|_]; [|done].
  apply Hx, lower_le_leb in Hy. congruence.
Qed.

Lemma insert_by_lower_filter_ne (P : string → Prop) `{∀ s, Decision (P s)} x l :
  ¬ P x → filter P (insert_by_lower x l) = filter P l.
Proof.
  intros Hx. induction l as [|y l IH]; simpl.
  - by rewrite filter_cons_False.
  - destruct (String.leb (Text.lower x) (Text.lower y)).
    + by rewrite (filter_cons_False _ x).
    + by rewrite !filter_cons, IH.
Qed.

Lemma sorted_by_lower_stable (key : string) l :
  filter (λ s, Text.lower s = key) (sorted_by_lower l)
  = filter (λ s, Text.lower s = key) l.
Proof.
  induction l as [|x l IH]; simpl; [done|].
  destruct (decide (Text.lower x = key)) as [Hx|Hx].
  - rewrite insert_by_lower_filter, !filter_cons, IH; [done|].
    intros y <-. unfold lower_le. by rewrite Hx.
  - rewrite insert_by_lower_filter_ne, filter_cons_False, IH; done.
Qed.

End SortFacts.

(** ** The checks on names and the registries *)

Module RegistryFacts.

(** Unfolds the plumbing of [check], leaving the outcomes of the calls
    to be examined. *)
Ltac check_unfold H :=
  cbv beta iota delta
    [mbind check_bind mret check_ret lift fail gets modify] in H.

Lemma contains_key_of {V} (d : gmap Py.key V) name b :
  CID.contains d name = Ok b →
  ∃ k, key_of name = Ok k ∧ b = bool_decide (is_Some (d !! k)).
Proof.
  unfold CID.contains, key_of. destruct (Py.hash name) as [k|]; [|done].
  simpl. intros [= <-]. eauto.
Qed.

Lemma setitem_key_of {V} (d d' : gmap Py.key V) name k v :
  key_of name = Ok k → CID.setitem d name v = Ok d' → d' = <[k := v]> d.
Proof.
  unfold CID.setitem, key_of. destruct (Py.hash name) as [k'|]; [|done].
  simpl. by intros [= <-] [= <-].
Qed.

Lemma getitem_key_of {V} (d : gmap Py.key V) name k v :
  key_of name = Ok k → CID.getitem d name = Ok v → d !! k = Some v.
Proof.
  unfold CID.getitem, key_of. destruct (Py.hash name) as [k'|]; [|done].
  simpl. intros [= <-]. by destruct (d !! CID._k k'); intros [= <-].
Qed.

(** Examines the call at the head of a hypothesis [H] on the result of a
    check: names [x] the value the call returns and [E] the equation that
    says so, and drops the case in which the call raises.  On a test of a
    Boolean, the two cases are left. *)
Tactic Notation "check_head" hyp(H) "as" ident(x) ident(E) :=
  lazymatch type of H with
  | match ?o with Ok _ => _ | Raise _ => _ end = _ =>
      destruct o as [x|] eqn:E; [|discriminate H]
  | match ?o with Some _ => _ | None => _ end _ = _ =>
      destruct o as [x|] eqn:E; [|discriminate H]
  | (let (_, _) := ?p in _) = _ =>
      let o := fresh "o" in
      let r := fresh "reg" in
      destruct p as [o r] eqn:E; destruct o as [x|]; [|discriminate H]
  end;
  cbv beta iota in H.

Tactic Notation "check_if" hyp(H) :=
  lazymatch type of H with
  | (if ?b then _ else _) _ = _ => destruct b
  | (let (_, _) := (if ?b then _ else _) _ in _) = _ => destruct b
  end;
  cbv beta iota in H.

(** Closes a goal in which the check of [H] can only raise. *)
Ltac check_dead H :=
  solve [ repeat
    (lazymatch type of H with
     | match ?o with Ok _ => _ | Raise _ => _ end = _ => destruct o
     | (let (_, _) := ?p in _) = _ => destruct p as [[] ?]
     end;
     cbv beta iota in H; try discriminate H) ].

Lemma contains_false {V} (d : gmap Py.key V) name :
  CID.contains d name = Ok false → ∃ k, key_of name = Ok k ∧ d !! k = None.
Proof.
  intros H. apply contains_key_of in H as (k & Hk & Hb). exists k.
  split; [done|]. symmetry in Hb. apply bool_decide_eq_false in Hb.
  by apply eq_None_not_Some.
Qed.

Lemma contains_at {V} (d : gmap Py.key V) name k :
  key_of name = Ok k →
  CID.contains d name = Ok (bool_decide (is_Some (d !! k))).
Proof.
  unfold key_of, CID.contains. destruct (Py.hash name); [|done].
  simpl. by intros [= <-].
Qed.

Lemma getitem_at {V} (d : gmap Py.key V) name k v :
  key_of name = Ok k → d !! k = Some v → CID.getitem d name = Ok v.
Proof.
  unfold key_of, CID.getitem. destruct (Py.hash name); [|done].
  simpl. intros [= <-] ->. done.
Qed.

(** One turn of the loop of [_test_repository_package_names] that does
    not raise registers a name that is accepted. *)
Lemma package_names_step include pdata rest acc reg names reg' :
  package_names_loop include (pdata :: rest) acc reg = (Ok names, reg') →
  ∃ name k,
    get_package_name pdata = Ok name
    ∧ fresh_package reg name k
    ∧ package_names_loop include rest (acc ++ [name])
        (set_package_names reg (<[k := include]> (package_names reg)))
      = (Ok names, reg').
Proof.
  intros H. cbn [package_names_loop] in H. check_unfold H.
  check_head H as name Hname.
  check_head H as is_name Hpkg. check_if H; [check_dead H|].
  apply contains_false in Hpkg as (k & Hk & Hpkg).
  check_head H as is_previous Hprev.
  apply contains_key_of in Hprev as (k' & Hk' & Hprev).
  assert (k' = k) as -> by congruence. clear Hk'.
  (* the name is no previous name spelled as it is *)
  assert (Hcase : ∀ entry, previous_package_names reg !! k = Some entry →
                           Py.eq_hashable name entry.1.1 = false).
  { intros entry Hentry. rewrite Hentry in Hprev.
    rewrite bool_decide_eq_true_2 in Hprev by eauto. subst is_previous.
    cbv beta iota in H. rewrite (getitem_at _ _ _ _ Hk Hentry) in H.
    cbv beta iota in H.
    destruct (Py.eq_hashable name entry.1.1); [|done].
    cbv beta iota in H. by rewrite (getitem_at _ _ _ _ Hk Hentry) in H. }
  (* and so the test of the previous names leads to that of the dependencies *)
  assert (Hnext : (let (o, reg0) :=
                     (if is_previous
                      then λ reg0 : registry,
                        match CID.getitem (previous_package_names reg0) name with
                        | Ok entry => (Ok (Py.eq_hashable name entry.1.1), reg0)
                        | Raise e => (Raise e, reg0)
                        end
                      else λ reg0 : registry, (Ok false, reg0)) reg in (o, reg0))
                  = (Ok false, reg)).
  { destruct is_previous; [|done].
    symmetry in Hprev. apply bool_decide_eq_true in Hprev as [entry Hentry].
    rewrite (getitem_at _ _ _ _ Hk Hentry). by rewrite (Hcase entry Hentry). }
  match type of H with
  | (let (_, _) := ?p in _) = _ =>
      match type of Hnext with
      | (let (_, _) := ?q in _) = _ => change q with p in Hnext
      end;
      destruct p as [o reg0]
  end.
  injection Hnext as -> ->. cbv beta iota in H. clear Hprev is_previous.
  check_head H as is_dependency Hdep. check_if H; [check_dead H|].
  apply contains_false in Hdep as (k' & Hk' & Hdep).
  assert (k' = k) as -> by congruence. clear Hk'.
  check_head H as d Hd. apply (setitem_key_of _ _ _ _ _ Hk) in Hd as ->.
  exists name, k. done.
Qed.

Lemma package_names_loop_ok include pdatas acc reg names reg' :
  package_names_loop include pdatas acc reg = (Ok names, reg') →
  ∃ new keys,
    names = acc ++ new
    ∧ names_of pdatas new
    ∧ Forall2 (fresh_package reg) new keys
    ∧ NoDup keys
    ∧ dependency_names reg' = dependency_names reg
    ∧ previous_package_names reg' = previous_package_names reg
    ∧ ∀ k, package_names reg' !! k
           = if bool_decide (k ∈ keys) then Some include
             else package_names reg !! k.
Proof.
  revert acc reg. induction pdatas as [|pdata rest IH]; intros acc reg H.
  - injection H as <- <-. exists [], []. rewrite app_nil_r.
    repeat split; constructor.
  - apply package_names_step in H as (name & k & Hname & Hfresh & H).
    apply IH in H as (new & keys & -> & Hnew & Hkeys & Hnodup & Hdep & Hprev & Hpkg).
    simpl in Hdep, Hprev.
    assert (Hfresh' : Forall2 (λ n k', fresh_package reg n k' ∧ k' ≠ k) new keys).
    { eapply Forall2_impl; [exact Hkeys|].
      intros n k' (Hk' & Hp & Hd & Hq). simpl in Hp, Hd, Hq.
      destruct (decide (k' = k)) as [->|Hne].
      - by rewrite lookup_insert_eq in Hp.
      - rewrite lookup_insert_ne in Hp by done. done. }
    exists (name :: new), (k :: keys). repeat split.
    + by rewrite <- app_assoc.
    + by constructor.
    + constructor; [done|].
      eapply Forall2_impl; [exact Hfresh'|]. by intros ?? [? _].
    + constructor; [|done]. intros Hin.
      assert (Hne : Forall (λ k', k' ≠ k) keys).
      { eapply Forall2_Forall_r; [exact Hfresh'|].
        apply Forall_forall. by intros n _ k' [_ ?]. }
      rewrite Forall_forall in Hne. by apply Hne in Hin.
    + done.
    + done.
    + intros k'. rewrite Hpkg. simpl.
      destruct (decide (k' = k)) as [->|Hne].
      * rewrite lookup_insert_eq.
        rewrite (bool_decide_eq_true_2 (k ∈ k :: keys)) by left.
        by destruct (bool_decide (k ∈ keys)).
      * rewrite lookup_insert_ne by done.
        destruct (bool_decide_reflect (k' ∈ keys)) as [Hin|Hnin].
        -- rewrite bool_decide_eq_true_2; [done|by right].
        -- rewrite bool_decide_eq_false_2; [done|].
           rewrite elem_of_cons. by intros [|].
Qed.

(** One turn of the loop of [_test_dependency_names] that does not raise
    registers a name that is accepted. *)
Lemma dependency_names_step include pdata rest acc reg names reg' :
  dependency_names_loop include (pdata :: rest) acc reg = (Ok names, reg') →
  ∃ name k,
    get_package_name pdata = Ok name
    ∧ fresh_dependency reg name k
    ∧ dependency_names_loop include rest (acc ++ [name])
        (set_dependency_names reg (<[k := include]> (dependency_names reg)))
      = (Ok names, reg').
Proof.
  intros H. cbn [dependency_names_loop] in H. check_unfold H.
  check_head H as name Hname.
  check_head H as seen Hseen.
  destruct seen; [by destruct name|].
  apply contains_false in Hseen as (k & Hk & Hseen).
  cbv beta iota in H. check_head H as acc' Hset.
  check_head Hset as d Hd. injection Hset as <- <-.
  apply (setitem_key_of _ _ _ _ _ Hk) in Hd as ->.
  check_head H as clash Hclash. simpl in Hclash.
  check_if H; [check_dead H|].
  apply contains_false in Hclash as (k' & Hk' & Hclash).
  assert (k' = k) as -> by congruence.
  exists name, k. done.
Qed.

Lemma dependency_names_loop_ok include pdatas acc reg names reg' :
  dependency_names_loop include pdatas acc reg = (Ok names, reg') →
  ∃ new keys,
    names = acc ++ new
    ∧ names_of pdatas new
    ∧ Forall2 (fresh_dependency reg) new keys
    ∧ NoDup keys
    ∧ package_names reg' = package_names reg
    ∧ previous_package_names reg' = previous_package_names reg
    ∧ ∀ k, dependency_names reg' !! k
           = if bool_decide (k ∈ keys) then Some include
             else dependency_names reg !! k.
Proof.
  revert acc reg. induction pdatas as [|pdata rest IH]; intros acc reg H.
  - injection H as <- <-. exists [], []. rewrite app_nil_r.
    repeat split; constructor.
  - apply dependency_names_step in H as (name & k & Hname & Hfresh & H).
    apply IH in H as (new & keys & -> & Hnew & Hkeys & Hnodup & Hpkg & Hprev & Hdep).
    simpl in Hpkg, Hprev.
    assert (Hfresh' : Forall2 (λ n k', fresh_dependency reg n k' ∧ k' ≠ k) new keys).
    { eapply Forall2_impl; [exact Hkeys|].
      intros n k' (Hk' & Hd & Hp). simpl in Hp, Hd.
      destruct (decide (k' = k)) as [->|Hne].
      - by rewrite lookup_insert_eq in Hd.
      - rewrite lookup_insert_ne in Hd by done. done. }
    exists (name :: new), (k :: keys). repeat split.
    + by rewrite <- app_assoc.
    + by constructor.
    + constructor; [done|].
      eapply Forall2_impl; [exact Hfresh'|]. by intros ?? [? _].
    + constructor; [|done]. intros Hin.
      assert (Hne : Forall (λ k', k' ≠ k) keys).
      { eapply Forall2_Forall_r; [exact Hfresh'|].
        apply Forall_forall. by intros n _ k' [_ ?]. }
      rewrite Forall_forall in Hne. by apply Hne in Hin.
    + done.
    + done.
    + intros k'. rewrite Hdep. simpl.
      destruct (decide (k' = k)) as [->|Hne].
      * rewrite lookup_insert_eq.
        rewrite (bool_decide_eq_true_2 (k ∈ k :: keys)) by left.
        by destruct (bool_decide (k ∈ keys)).
      * rewrite lookup_insert_ne by done.
        destruct (bool_decide_reflect (k' ∈ keys)) as [Hin|Hnin].
        -- rewrite bool_decide_eq_true_2; [done|by right].
        -- rewrite bool_decide_eq_false_2; [done|].
           rewrite elem_of_cons. by intros [|].
Qed.

Lemma more_previous_refl reg : more_previous reg reg.
Proof. done. Qed.

Lemma more_previous_trans reg1 reg2 reg3 :
  more_previous reg1 reg2 → more_previous reg2 reg3 → more_previous reg1 reg3.
Proof.
  intros (? & ? & ?) (? & ? & ?). repeat split; [congruence..|by etrans].
Qed.

Lemma fresh_previous_before reg reg1 prev_name k :
  more_previous reg reg1 →
  fresh_previous reg1 prev_name k → fresh_previous reg prev_name k.
Proof.
  intros (Hp & _ & Hq) (Hk & Hprev & Hpkg). repeat split; [done| |congruence].
  destruct (previous_package_names reg !! k) as [entry|] eqn:E; [|done].
  eapply lookup_weaken in E; [|exact Hq]. congruence.
Qed.

(** One turn of the loop over [previous_names] that does not raise
    registers a previous name that is accepted. *)
Lemma previous_names_step include name prev_name rest reg reg' :
  previous_names_loop include name (prev_name :: rest) reg = (Ok tt, reg') →
  ∃ k,
    fresh_previous reg prev_name k
    ∧ previous_names_loop include name rest
        (set_previous_package_names reg
           (<[k := (prev_name, include, name)]> (previous_package_names reg)))
      = (Ok tt, reg').
Proof.
  intros H. cbn [previous_names_loop] in H. check_unfold H.
  check_head H as is_previous Hprev. check_if H; [discriminate H|].
  apply contains_false in Hprev as (k & Hk & Hprev).
  check_head H as is_name Hpkg. check_if H; [check_dead H|].
  apply contains_false in Hpkg as (k' & Hk' & Hpkg).
  assert (k' = k) as -> by congruence.
  check_head H as q Hq. apply (setitem_key_of _ _ _ _ _ Hk) in Hq as ->.
  exists k. done.
Qed.

Lemma previous_names_loop_ok include name prev_names reg reg' :
  previous_names_loop include name prev_names reg = (Ok tt, reg') →
  ∃ keys,
    Forall2 (fresh_previous reg) prev_names keys
    ∧ NoDup keys
    ∧ more_previous reg reg'
    ∧ Forall2 (λ prev_name k,
                 previous_package_names reg' !! k = Some (prev_name, include, name))
              prev_names keys.
Proof.
  revert reg. induction prev_names as [|prev_name rest IH]; intros reg H.
  - injection H as <-. exists []. repeat split; by try constructor.
  - apply previous_names_step in H as (k & Hfresh & H).
    apply IH in H as (keys & Hkeys & Hnodup & Hmore & Hreg).
    set (reg1 := set_previous_package_names reg _) in *.
    assert (Hstep : more_previous reg reg1).
    { repeat split. simpl. apply insert_subseteq. by destruct Hfresh as (_ & ? & _). }
    assert (Hne : Forall (λ k', k' ≠ k) keys).
    { eapply Forall2_Forall_r; [exact Hkeys|].
      apply Forall_forall. intros n _ k' (_ & Hprev & _) ->.
      simpl in Hprev. by rewrite lookup_insert_eq in Hprev. }
    exists (k :: keys). repeat split.
    + constructor; [done|]. eapply Forall2_impl; [exact Hkeys|].
      intros n k'. by apply fresh_previous_before.
    + constructor; [|done]. intros Hin.
      rewrite Forall_forall in Hne. by apply Hne in Hin.
    + by destruct Hmore as (? & _).
    + by destruct Hmore as (_ & ? & _).
    + destruct Hstep as (_ & _ & ?), Hmore as (_ & _ & ?). by etrans.
    + constructor; [|done]. destruct Hmore as (_ & _ & Hsub).
      eapply lookup_weaken; [|exact Hsub]. simpl. apply lookup_insert_eq.
Qed.

Lemma strings_of_ok names strs :
  strings_of names = Ok strs → names = map JStr strs.
Proof.
  revert strs. induction names as [|name names IH]; intros strs H.
  - by injection H as <-.
  - destruct name; try discriminate. simpl in H.
    destruct (strings_of names) as [strs'|]; [|discriminate].
    injection H as <-. by rewrite (IH strs').
Qed.

Lemma strings_of_strings strs : strings_of (map JStr strs) = Ok strs.
Proof. induction strs as [|s strs IH]; [done|]. simpl. by rewrite IH. Qed.

Lemma assert_sorted_ok names f :
  assert_sorted names f = Ok tt →
  ∃ strs, names = map JStr strs ∧ strs = sorted_by_lower strs.
Proof.
  unfold assert_sorted. intros H. bind_inv H as strs Hstrs.
  apply strings_of_ok in Hstrs. exists strs. split; [done|].
  apply OutcomeFacts.assertTrue_ok in H. by apply bool_decide_eq_true in H.
Qed.

Lemma in_correct_file_ok letter name :
  in_correct_file letter (JStr name) = Ok tt → starts_in_shard letter name.
Proof.
  unfold in_correct_file, starts_in_shard. destruct name as [|c rest]; [done|].
  cbn [first_item mbind outcome_bind]. intros H. exists c, rest. split; [done|].
  destruct (String.eqb letter "0-9"); cbn [str_isdigit str_lower mbind outcome_bind] in H;
    apply OutcomeFacts.assertTrue_ok in H.
  - simpl in H. by rewrite andb_true_r in H.
  - by apply String.eqb_eq in H.
Qed.

(** What holds when [_test_repository_package_names] passes. *)
Lemma test_repository_package_names_ok include data reg reg' :
  _test_repository_package_names include data reg = (Ok tt, reg') →
  ∃ letter pdatas names keys,
    Patterns.include_shard include = Some letter
    ∧ entries "packages" data = Ok pdatas
    ∧ names_of pdatas (map JStr names)
    ∧ Forall2 (fresh_package reg) (map JStr names) keys
    ∧ NoDup keys
    ∧ Forall (starts_in_shard letter) names
    ∧ names = sorted_by_lower names.
Proof.
  intros H. unfold _test_repository_package_names in H. check_unfold H.
  check_head H as letter Hletter.
  check_head H as packages Hpackages.
  check_head H as pdatas Hpdatas.
  check_head H as repo_package_names Hloop.
  check_head H as u Hshard. destruct u.
  destruct (assert_sorted repo_package_names PackagesMustBeSorted)
    as [[]|] eqn:Hsorted; [|discriminate H].
  apply assert_sorted_ok in Hsorted as (names & -> & Hsorted).
  apply package_names_loop_ok in Hloop
    as (new & keys & Hnew & Hnames & Hfresh & Hnodup & _).
  simpl in Hnew. subst new.
  exists letter, pdatas, names, keys. repeat split; try done.
  - unfold entries. by rewrite Hpackages.
  - apply OutcomeFacts.for_each_ok in Hshard.
    rewrite Forall_fmap in Hshard.
    eapply Forall_impl; [exact Hshard|]. intros name. apply in_correct_file_ok.
Qed.

(** What holds when [_test_dependency_names] passes. *)
Lemma test_dependency_names_ok include data reg reg' :
  _test_dependency_names include data reg = (Ok tt, reg') →
  ∃ pdatas names keys,
    entries "dependencies" data = Ok pdatas
    ∧ names_of pdatas (map JStr names)
    ∧ Forall2 (fresh_dependency reg) (map JStr names) keys
    ∧ NoDup keys
    ∧ names = sorted_by_lower names.
Proof.
  intros H. unfold _test_dependency_names in H. check_unfold H.
  check_head H as letter Hletter.
  check_head H as dependencies Hdependencies.
  check_head H as pdatas Hpdatas.
  check_head H as repo_dependency_names Hloop.
  destruct (assert_sorted repo_dependency_names DependenciesMustBeSorted)
    as [[]|] eqn:Hsorted; [|discriminate H].
  apply assert_sorted_ok in Hsorted as (names & -> & Hsorted).
  apply dependency_names_loop_ok in Hloop
    as (new & keys & Hnew & Hnames & Hfresh & Hnodup & _).
  simpl in Hnew. subst new.
  exists pdatas, names, keys. repeat split; try done.
  unfold entries. by rewrite Hdependencies.
Qed.

(** A check that is an outcome leaves the registries as they are. *)
Ltac same_registry H :=
  apply (f_equal snd) in H; cbn [snd] in H; subst.

(** The body of the loop of [_test_package] changes the registries at
    the key [previous_names] only, where it registers previous names that
    are accepted. *)
Lemma package_item_ok include name k v reg reg' :
  package_item include name k v reg = (Ok tt, reg') →
  more_previous reg reg'
  ∧ (k = "previous_names" →
     ∃ prev_names keys,
       v = JList prev_names
       ∧ Forall2 (fresh_previous reg) prev_names keys
       ∧ NoDup keys).
Proof.
  intros H. unfold package_item in H. check_unfold H.
  check_head H as u Henforce.
  destruct (String.eqb_spec k "details") as [->|_]; cbv beta iota in H.
  { same_registry H. done. }
  destruct (String.eqb_spec k "donate") as [->|_].
  { destruct (is_none v); cbn [andb] in H; cbv beta iota in H;
      same_registry H; done. }
  cbn [andb] in H.
  destruct (String.eqb_spec k "labels") as [->|_]; cbv beta iota in H.
  { same_registry H. done. }
  destruct (String.eqb_spec k "previous_names") as [->|Hk]; cbv beta iota in H.
  - check_head H as prev_names Hiter.
    apply previous_names_loop_ok in H as (keys & Hfresh & Hnodup & Hmore & _).
    split; [done|]. intros _. exists prev_names, keys. split; [|done].
    unfold enforce_key_types_map in Henforce. simpl in Henforce.
    destruct v; try discriminate. by injection Hiter as <-.
  - split; [|done].
    destruct (in_strings k ["homepage"; "readme"; "issues"; "donate"; "buy"]);
      cbv beta iota in H; same_registry H; done.
Qed.

Lemma package_items_loop_ok include name items reg reg' :
  package_items_loop include name items reg = (Ok tt, reg') →
  more_previous reg reg'
  ∧ ∀ v, In ("previous_names", v) items →
      ∃ prev_names keys,
        v = JList prev_names
        ∧ Forall2 (fresh_previous reg) prev_names keys
        ∧ NoDup keys.
Proof.
  revert reg. induction items as [|[k v] items IH]; intros reg H.
  - injection H as <-. done.
  - cbn [package_items_loop] in H. check_unfold H.
    check_head H as u Hitem. assert (u = tt) as -> by (by destruct u).
    apply package_item_ok in Hitem as [Hmore Hitem].
    apply IH in H as [Hmore' Hitems]. split.
    + by eapply more_previous_trans.
    + intros v' [[= -> ->]|Hin]; [by apply Hitem|].
      apply Hitems in Hin as (prev_names & keys & -> & Hfresh & Hnodup).
      exists prev_names, keys. repeat split; [|done].
      eapply Forall2_impl; [exact Hfresh|].
      intros n k'. by apply fresh_previous_before.
Qed.

(** What holds when [_test_package] passes. *)
Lemma test_package_ok include data reg reg' :
  _test_package include data reg = (Ok tt, reg') →
  more_previous reg reg'
  ∧ ∃ kvs, data = JObj kvs ∧
      ∀ v, In ("previous_names", v) kvs →
        ∃ prev_names keys,
          v = JList prev_names
          ∧ Forall2 (fresh_previous reg) prev_names keys
          ∧ NoDup keys.
Proof.
  intros H. unfold _test_package in H. check_unfold H.
  check_head H as name Hname.
  check_head H as items Hitems.
  check_head H as u Hloop. assert (u = tt) as -> by (by destruct u).
  apply package_items_loop_ok in Hloop as [Hmore Hloop].
  destruct data; try discriminate. injection Hitems as <-.
  same_registry H. split; [done|]. eauto.
Qed.

(** The failure that a name met before raises in the loop of
    [_test_repository_package_names], with the include, or the package,
    in which it was met. *)
Lemma package_name_clash include pdata rest acc reg name k :
  get_package_name pdata = Ok name →
  key_of name = Ok k →
  (∀ previously, package_names reg !! k = Some previously →
     package_names_loop include (pdata :: rest) acc reg
     = (Fail (PackageNamesMustBeUnique name previously), reg))
  ∧ (∀ entry, package_names reg !! k = None →
       previous_package_names reg !! k = Some entry →
       Py.eq_hashable name entry.1.1 = true →
       package_names_loop include (pdata :: rest) acc reg
       = (Fail (NameOccursAsPreviousName name entry.1.2 entry.2), reg))
  ∧ (∀ previously, package_names reg !! k = None →
       (∀ entry, previous_package_names reg !! k = Some entry →
                 Py.eq_hashable name entry.1.1 = false) →
       dependency_names reg !! k = Some previously →
       package_names_loop include (pdata :: rest) acc reg
       = (Fail (DependencyAndPackageNamesMustBeUnique name previously), reg)).
Proof.
  intros Hname Hk. cbn [package_names_loop].
  cbv beta iota delta [mbind check_bind mret check_ret lift fail gets modify].
  rewrite Hname. cbv beta iota.
  rewrite (contains_at _ _ _ Hk). cbv beta iota. split; [|split].
  - intros previously Hpkg. rewrite Hpkg.
    rewrite bool_decide_eq_true_2 by eauto. cbv beta iota.
    by rewrite (getitem_at _ _ _ _ Hk Hpkg).
  - intros entry Hpkg Hprev Hcase. rewrite Hpkg.
    rewrite bool_decide_eq_false_2 by (by intros [??]). cbv beta iota.
    rewrite (contains_at _ _ _ Hk), Hprev.
    rewrite bool_decide_eq_true_2 by eauto. cbv beta iota.
    rewrite (getitem_at _ _ _ _ Hk Hprev). cbv beta iota.
    rewrite Hcase. cbv beta iota.
    by rewrite (getitem_at _ _ _ _ Hk Hprev).
  - intros previously Hpkg Hprev Hdep. rewrite Hpkg.
    rewrite bool_decide_eq_false_2 by (by intros [??]). cbv beta iota.
    rewrite (contains_at _ _ _ Hk).
    destruct (previous_package_names reg !! k) as [entry|] eqn:Hentry.
    + rewrite bool_decide_eq_true_2 by eauto. cbv beta iota.
      rewrite (getitem_at _ _ _ _ Hk Hentry). cbv beta iota.
      rewrite (Hprev entry eq_refl). cbv beta iota.
      rewrite (contains_at _ _ _ Hk), Hdep.
      rewrite bool_decide_eq_true_2 by eauto. cbv beta iota.
      by rewrite (getitem_at _ _ _ _ Hk Hdep).
    + rewrite bool_decide_eq_false_2 by (by intros [??]). cbv beta iota.
      rewrite (contains_at _ _ _ Hk), Hdep.
      rewrite bool_decide_eq_true_2 by eauto. cbv beta iota.
      by rewrite (getitem_at _ _ _ _ Hk Hdep).
Qed.

(** The failure that a name met before raises in the loop of
    [_test_dependency_names].  A dependency that bears the name of a
    package is registered before the failure is raised. *)
Lemma dependency_name_clash include pdata rest acc reg name k :
  get_package_name pdata = Ok (JStr name) →
  key_of (JStr name) = Ok k →
  (is_Some (dependency_names reg !! k) →
     dependency_names_loop include (pdata :: rest) acc reg
     = (Fail (DependencyNamesMustBeUnique (JStr name)), reg))
  ∧ (∀ previously, dependency_names reg !! k = None →
       package_names reg !! k = Some previously →
       dependency_names_loop include (pdata :: rest) acc reg
       = (Fail (DependencyAndPackageNamesMustBeUnique (JStr name) previously),
          set_dependency_names reg (<[k := include]> (dependency_names reg)))).
Proof.
  intros Hname Hk. cbn [dependency_names_loop].
  cbv beta iota delta [mbind check_bind mret check_ret lift fail gets modify].
  rewrite Hname. cbv beta iota.
  rewrite (contains_at _ _ _ Hk). cbv beta iota. split.
  - intros Hdep. by rewrite bool_decide_eq_true_2.
  - intros previously Hdep Hpkg. rewrite Hdep.
    rewrite bool_decide_eq_false_2 by (by intros [??]). cbv beta iota.
    unfold key_of in Hk. simpl in Hk. injection Hk as <-.
    unfold CID.setitem, CID.contains, CID.getitem. simpl. rewrite Hpkg.
    rewrite bool_decide_eq_true_2 by eauto. simpl. by rewrite Hpkg.
Qed.

(** The failure that a name met before raises in the loop over
    [previous_names]. *)
Lemma previous_name_clash include name prev_name rest reg k :
  key_of prev_name = Ok k →
  (is_Some (previous_package_names reg !! k) →
     previous_names_loop include name (prev_name :: rest) reg
     = (Fail (PreviousNamesMustBeUnique prev_name), reg))
  ∧ (∀ previously, previous_package_names reg !! k = None →
       package_names reg !! k = Some previously →
       previous_names_loop include name (prev_name :: rest) reg
       = (Fail (PreviousNameOccursAsName prev_name previously), reg)).
Proof.
  intros Hk. cbn [previous_names_loop].
  cbv beta iota delta [mbind check_bind mret check_ret lift fail gets modify].
  rewrite (contains_at _ _ _ Hk). cbv beta iota. split.
  - intros Hprev. by rewrite bool_decide_eq_true_2.
  - intros previously Hprev Hpkg. rewrite Hprev.
    rewrite bool_decide_eq_false_2 by (by intros [??]). cbv beta iota.
    rewrite (contains_at _ _ _ Hk), Hpkg.
    rewrite bool_decide_eq_true_2 by eauto. cbv beta iota.
    by rewrite (getitem_at _ _ _ _ Hk Hpkg).
Qed.

(** ** The names that are accepted, and the first that is not *)

Lemma setitem_at {V} (d : gmap Py.key V) name k v :
  key_of name = Ok k → CID.setitem d name v = Ok (<[k := v]> d).
Proof.
  unfold key_of, CID.setitem. destruct (Py.hash name); [|done].
  simpl. by intros [= <-].
Qed.

(** One turn of the loop of [_test_repository_package_names] on a name
    that is accepted registers the name and goes on. *)
Lemma package_names_accept include pdata rest acc reg name k :
  get_package_name pdata = Ok name →
  fresh_package reg name k →
  package_names_loop include (pdata :: rest) acc reg
  = package_names_loop include rest (acc ++ [name])
      (set_package_names reg (<[k := include]> (package_names reg))).
Proof.
  intros Hname (Hk & Hpkg & Hdep & Hprev). cbn [package_names_loop].
  cbv beta iota delta [mbind check_bind mret check_ret lift fail gets modify].
  rewrite Hname. cbv beta iota.
  rewrite (contains_at _ _ _ Hk), Hpkg.
  rewrite bool_decide_eq_false_2 by (by intros [??]). cbv beta iota.
  rewrite (contains_at _ _ _ Hk).
  destruct (previous_package_names reg !! k) as [entry|] eqn:Hentry.
  - rewrite bool_decide_eq_true_2 by eauto. cbv beta iota.
    rewrite (getitem_at _ _ _ _ Hk Hentry). cbv beta iota.
    rewrite (Hprev entry eq_refl). cbv beta iota.
    rewrite (contains_at _ _ _ Hk), Hdep.
    rewrite bool_decide_eq_false_2 by (by intros [??]). cbv beta iota.
    by rewrite (setitem_at _ _ _ _ Hk).
  - rewrite bool_decide_eq_false_2 by (by intros [??]). cbv beta iota.
    rewrite (contains_at _ _ _ Hk), Hdep.
    rewrite bool_decide_eq_false_2 by (by intros [??]). cbv beta iota.
    by rewrite (setitem_at _ _ _ _ Hk).
Qed.

Lemma fresh_package_after include reg k names keys :
  Forall2 (fresh_package reg) names keys →
  k ∉ keys →
  Forall2 (fresh_package (set_package_names reg (<[k := include]> (package_names reg))))
          names keys.
Proof.
  induction 1 as [|name k' names keys (Hk & Hpkg & Hdep & Hprev) _ IH]; intros Hnot;
    [constructor|].
  apply not_elem_of_cons in Hnot as [Hne Hnot].
  constructor; [|by apply IH].
  split; [done|]. split; [|done]. simpl. by rewrite lookup_insert_ne.
Qed.

(** The loop of [_test_repository_package_names] goes through entries
    whose names are accepted and have distinct keys, and registers them
    with the include. *)
Lemma package_names_loop_accepts include pdatas rest acc reg new keys :
  names_of pdatas new →
  Forall2 (fresh_package reg) new keys →
  NoDup keys →
  ∃ reg1,
    package_names_loop include (pdatas ++ rest) acc reg
    = package_names_loop include rest (acc ++ new) reg1
    ∧ dependency_names reg1 = dependency_names reg
    ∧ previous_package_names reg1 = previous_package_names reg
    ∧ ∀ k, package_names reg1 !! k
           = if bool_decide (k ∈ keys) then Some include
             else package_names reg !! k.
Proof.
  intros Hnames. revert acc reg keys.
  induction Hnames as [|pdata name pdatas new Hname _ IH]; intros acc reg keys Hfresh Hnodup.
  - apply Forall2_nil_inv_l in Hfresh as ->. exists reg.
    by rewrite app_nil_r.
  - apply Forall2_cons_inv_l in Hfresh as (k & keys' & Hk & Hfresh & ->).
    apply NoDup_cons in Hnodup as [Hnot Hnodup].
    rewrite <- app_comm_cons, (package_names_accept _ _ _ _ _ _ _ Hname Hk).
    destruct (IH (acc ++ [name]) _ keys' (fresh_package_after include _ _ _ _ Hfresh Hnot) Hnodup)
      as (reg1 & Hloop & Hdep & Hprev & Hpkg).
    exists reg1. rewrite Hloop, <- app_assoc. repeat split; [done..|].
    intros k'. rewrite Hpkg. simpl.
    destruct (decide (k' = k)) as [->|Hne].
    + rewrite lookup_insert_eq.
      rewrite (bool_decide_eq_true_2 (k ∈ k :: keys')) by left.
      by destruct (bool_decide (k ∈ keys')).
    + rewrite lookup_insert_ne by done.
      destruct (bool_decide_reflect (k' ∈ keys')) as [Hin|Hnin].
      * rewrite bool_decide_eq_true_2; [done|by right].
      * rewrite bool_decide_eq_false_2; [done|].
        rewrite elem_of_cons. by intros [|].
Qed.

(** One turn of the loop of [_test_dependency_names] on a name that is
    accepted registers the name and goes on. *)
Lemma dependency_names_accept include pdata rest acc reg name k :
  get_package_name pdata = Ok name →
  fresh_dependency reg name k →
  dependency_names_loop include (pdata :: rest) acc reg
  = dependency_names_loop include rest (acc ++ [name])
      (set_dependency_names reg (<[k := include]> (dependency_names reg))).
Proof.
  intros Hname (Hk & Hdep & Hpkg). cbn [dependency_names_loop].
  cbv beta iota delta [mbind check_bind mret check_ret lift fail gets modify].
  rewrite Hname. cbv beta iota.
  rewrite (contains_at _ _ _ Hk), Hdep.
  rewrite bool_decide_eq_false_2 by (by intros [??]). cbv beta iota.
  rewrite (setitem_at _ _ _ _ Hk). cbv beta iota.
  rewrite (contains_at _ _ _ Hk). simpl. rewrite Hpkg.
  by rewrite bool_decide_eq_false_2 by (by intros [??]).
Qed.

Lemma fresh_dependency_after include reg k names keys :
  Forall2 (fresh_dependency reg) names keys →
  k ∉ keys →
  Forall2 (fresh_dependency
             (set_dependency_names reg (<[k := include]> (dependency_names reg))))
          names keys.
Proof.
  induction 1 as [|name k' names keys (Hk & Hdep & Hpkg) _ IH]; intros Hnot;
    [constructor|].
  apply not_elem_of_cons in Hnot as [Hne Hnot].
  constructor; [|by apply IH].
  split; [done|]. split; [|done]. simpl. by rewrite lookup_insert_ne.
Qed.

(** The loop of [_test_dependency_names] goes through entries whose names
    are accepted and have distinct keys, and registers them with the
    include. *)
Lemma dependency_names_loop_accepts include pdatas rest acc reg new keys :
  names_of pdatas new →
  Forall2 (fresh_dependency reg) new keys →
  NoDup keys →
  ∃ reg1,
    dependency_names_loop include (pdatas ++ rest) acc reg
    = dependency_names_loop include rest (acc ++ new) reg1
    ∧ package_names reg1 = package_names reg
    ∧ previous_package_names reg1 = previous_package_names reg
    ∧ ∀ k, dependency_names reg1 !! k
           = if bool_decide (k ∈ keys) then Some include
             else dependency_names reg !! k.
Proof.
  intros Hnames. revert acc reg keys.
  induction Hnames as [|pdata name pdatas new Hname _ IH]; intros acc reg keys Hfresh Hnodup.
  - apply Forall2_nil_inv_l in Hfresh as ->. exists reg.
    by rewrite app_nil_r.
  - apply Forall2_cons_inv_l in Hfresh as (k & keys' & Hk & Hfresh & ->).
    apply NoDup_cons in Hnodup as [Hnot Hnodup].
    rewrite <- app_comm_cons, (dependency_names_accept _ _ _ _ _ _ _ Hname Hk).
    destruct (IH (acc ++ [name]) _ keys' (fresh_dependency_after include _ _ _ _ Hfresh Hnot) Hnodup)
      as (reg1 & Hloop & Hpkg & Hprev & Hdep).
    exists reg1. rewrite Hloop, <- app_assoc. repeat split; [done..|].
    intros k'. rewrite Hdep. simpl.
    destruct (decide (k' = k)) as [->|Hne].
    + rewrite lookup_insert_eq.
      rewrite (bool_decide_eq_true_2 (k ∈ k :: keys')) by left.
      by destruct (bool_decide (k ∈ keys')).
    + rewrite lookup_insert_ne by done.
      destruct (bool_decide_reflect (k' ∈ keys')) as [Hin|Hnin].
      * rewrite bool_decide_eq_true_2; [done|by right].
      * rewrite bool_decide_eq_false_2; [done|].
        rewrite elem_of_cons. by intros [|].
Qed.

(** One turn of the loop over [previous_names] on a name that is accepted
    registers the name and goes on. *)
Lemma previous_names_accept include name prev_name rest reg k :
  fresh_previous reg prev_name k →
  previous_names_loop include name (prev_name :: rest) reg
  = previous_names_loop include name rest
      (set_previous_package_names reg
         (<[k := (prev_name, include, name)]> (previous_package_names reg))).
Proof.
  intros (Hk & Hprev & Hpkg). cbn [previous_names_loop].
  cbv beta iota delta [mbind check_bind mret check_ret lift fail gets modify].
  rewrite (contains_at _ _ _ Hk), Hprev.
  rewrite bool_decide_eq_false_2 by (by intros [??]). cbv beta iota.
  rewrite (contains_at _ _ _ Hk), Hpkg.
  rewrite bool_decide_eq_false_2 by (by intros [??]). cbv beta iota.
  by rewrite (setitem_at _ _ _ _ Hk).
Qed.

Lemma fresh_previous_after reg k entry names keys :
  Forall2 (fresh_previous reg) names keys →
  k ∉ keys →
  Forall2 (fresh_previous
             (set_previous_package_names reg (<[k := entry]> (previous_package_names reg))))
          names keys.
Proof.
  induction 1 as [|name k' names keys (Hk & Hprev & Hpkg) _ IH]; intros Hnot;
    [constructor|].
  apply not_elem_of_cons in Hnot as [Hne Hnot].
  constructor; [|by apply IH].
  split; [done|]. split; [|done]. simpl. by rewrite lookup_insert_ne.
Qed.

(** The loop over [previous_names] goes through names that are accepted
    and have distinct keys, and registers them. *)
Lemma previous_names_loop_accepts include name prev_names rest reg keys :
  Forall2 (fresh_previous reg) prev_names keys →
  NoDup keys →
  ∃ reg1,
    previous_names_loop include name (prev_names ++ rest) reg
    = previous_names_loop include name rest reg1
    ∧ package_names reg1 = package_names reg
    ∧ dependency_names reg1 = dependency_names reg
    ∧ ∀ k, if bool_decide (k ∈ keys)
           then is_Some (previous_package_names reg1 !! k)
           else previous_package_names reg1 !! k = previous_package_names reg !! k.
Proof.
  revert reg keys.
  induction prev_names as [|prev_name prev_names IH]; intros reg keys Hfresh Hnodup.
  - apply Forall2_nil_inv_l in Hfresh as ->. exists reg. done.
  - apply Forall2_cons_inv_l in Hfresh as (k & keys' & Hk & Hfresh & ->).
    apply NoDup_cons in Hnodup as [Hnot Hnodup].
    rewrite <- app_comm_cons, (previous_names_accept _ _ _ _ _ _ Hk).
    destruct (IH _ keys' (fresh_previous_after _ _ (prev_name, include, name) _ _ Hfresh Hnot) Hnodup)
      as (reg1 & Hloop & Hpkg & Hdep & Hprev).
    exists reg1. rewrite Hloop. repeat split; [done..|].
    intros k'. specialize (Hprev k'). simpl in Hprev.
    destruct (decide (k' = k)) as [->|Hne].
    + rewrite (bool_decide_eq_true_2 (k ∈ k :: keys')) by left.
      rewrite (bool_decide_eq_false_2 (k ∈ keys')) in Hprev by done.
      rewrite Hprev, lookup_insert_eq. eauto.
    + destruct (bool_decide_reflect (k' ∈ keys')) as [Hin|Hnin].
      * rewrite bool_decide_eq_true_2; [done|by right].
      * rewrite bool_decide_eq_false_2.
        -- by rewrite Hprev, lookup_insert_ne.
        -- rewrite elem_of_cons. by intros [|].
Qed.

(** The loop of [_test_package] goes through the items that pass. *)
Lemma package_items_loop_app include name items rest reg reg1 :
  package_items_loop include name items reg = (Ok tt, reg1) →
  package_items_loop include name (items ++ rest) reg
  = package_items_loop include name rest reg1.
Proof.
  revert reg. induction items as [|[k v] items IH]; intros reg H.
  - by injection H as <-.
  - rewrite <- app_comm_cons. cbn [package_items_loop] in H |- *.
    cbv beta iota delta [mbind check_bind] in H |- *.
    destruct (package_item include name k v reg) as [[u|e] reg']; [|discriminate H].
    by apply IH.
Qed.

Lemma fresh_package_unregistered reg names keys k :
  Forall2 (fresh_package reg) names keys → k ∈ keys → package_names reg !! k = None.
Proof.
  intros Hfresh Hin.
  assert (H : Forall (λ k', package_names reg !! k' = None) keys).
  { eapply Forall2_Forall_r; [exact Hfresh|].
    apply Forall_forall. by intros n _ k' (_ & ? & _). }
  rewrite Forall_forall in H. by apply H.
Qed.

(** The failure that [_test_repository_package_names] raises at the
    first name that is not accepted. *)
Lemma test_repository_package_names_clash
    include letter data reg before pdata rest names keys name k :
  Patterns.include_shard include = Some letter →
  entries "packages" data = Ok (before ++ pdata :: rest) →
  names_of before names →
  Forall2 (fresh_package reg) names keys →
  NoDup keys →
  get_package_name pdata = Ok name →
  key_of name = Ok k →
  let raised := (_test_repository_package_names include data reg).1 in
  (k ∈ keys → raised = Fail (PackageNamesMustBeUnique name include))
  ∧ (∀ previously, package_names reg !! k = Some previously →
       raised = Fail (PackageNamesMustBeUnique name previously))
  ∧ (∀ entry, k ∉ keys → package_names reg !! k = None →
       previous_package_names reg !! k = Some entry →
       Py.eq_hashable name entry.1.1 = true →
       raised = Fail (NameOccursAsPreviousName name entry.1.2 entry.2))
  ∧ (∀ previously, k ∉ keys → package_names reg !! k = None →
       (∀ entry, previous_package_names reg !! k = Some entry →
                 Py.eq_hashable name entry.1.1 = false) →
       dependency_names reg !! k = Some previously →
       raised = Fail (DependencyAndPackageNamesMustBeUnique name previously)).
Proof.
  intros Hletter Hentries Hnames Hfresh Hnodup Hname Hk raised.
  destruct (package_names_loop_accepts include before (pdata :: rest) [] reg
              names keys Hnames Hfresh Hnodup) as (reg1 & Hloop & Hdep & Hprev & Hpkg).
  assert (Hrun : ∀ f reg2,
             package_names_loop include (pdata :: rest) ([] ++ names) reg1
             = (Fail f, reg2) → raised = Fail f).
  { intros f reg2 Hf. unfold raised, _test_repository_package_names.
    rewrite Hletter. unfold entries in Hentries.
    cbv beta iota delta [mbind check_bind lift].
    destruct (Py.getitem "packages" data) as [packages|]; [|discriminate Hentries].
    simpl in Hentries. rewrite Hentries. cbv beta iota. by rewrite Hloop, Hf. }
  destruct (package_name_clash include pdata rest ([] ++ names) reg1 name k Hname Hk)
    as (Hname_clash & Hprevious_clash & Hdependency_clash).
  split; [|split; [|split]].
  - intros Hin. eapply Hrun, Hname_clash.
    by rewrite Hpkg, bool_decide_eq_true_2.
  - intros previously Hp. eapply Hrun, Hname_clash.
    rewrite Hpkg, bool_decide_eq_false_2; [done|].
    intros Hin. by rewrite (fresh_package_unregistered _ _ _ _ Hfresh Hin) in Hp.
  - intros entry Hnot Hp Hq Hcase. eapply Hrun, Hprevious_clash; [|by rewrite Hprev|done].
    by rewrite Hpkg, bool_decide_eq_false_2.
  - intros previously Hnot Hp Hq Hd. eapply Hrun, Hdependency_clash.
    + by rewrite Hpkg, bool_decide_eq_false_2.
    + by rewrite Hprev.
    + by rewrite Hdep.
Qed.

(** The failure that [_test_dependency_names] raises at the first name
    that is not accepted.  The failure of a name met as a dependency holds
    the name alone. *)
Lemma test_dependency_names_clash
    include letter data reg before pdata rest names keys name k :
  Patterns.include_shard include = Some letter →
  entries "dependencies" data = Ok (before ++ pdata :: rest) →
  names_of before names →
  Forall2 (fresh_dependency reg) names keys →
  NoDup keys →
  get_package_name pdata = Ok (JStr name) →
  key_of (JStr name) = Ok k →
  let raised := (_test_dependency_names include data reg).1 in
  (k ∈ keys ∨ is_Some (dependency_names reg !! k) →
     raised = Fail (DependencyNamesMustBeUnique (JStr name)))
  ∧ (∀ previously, k ∉ keys → dependency_names reg !! k = None →
       package_names reg !! k = Some previously →
       raised = Fail (DependencyAndPackageNamesMustBeUnique (JStr name) previously)).
Proof.
  intros Hletter Hentries Hnames Hfresh Hnodup Hname Hk raised.
  destruct (dependency_names_loop_accepts include before (pdata :: rest) [] reg
              names keys Hnames Hfresh Hnodup) as (reg1 & Hloop & Hpkg & Hprev & Hdep).
  assert (Hrun : ∀ f reg2,
             dependency_names_loop include (pdata :: rest) ([] ++ names) reg1
             = (Fail f, reg2) → raised = Fail f).
  { intros f reg2 Hf. unfold raised, _test_dependency_names.
    rewrite Hletter. unfold entries in Hentries.
    cbv beta iota delta [mbind check_bind lift].
    destruct (Py.getitem "dependencies" data) as [dependencies|]; [|discriminate Hentries].
    simpl in Hentries. rewrite Hentries. cbv beta iota. by rewrite Hloop, Hf. }
  destruct (dependency_name_clash include pdata rest ([] ++ names) reg1 name k Hname Hk)
    as (Hname_clash & Hpackage_clash).
  split.
  - intros Hseen. eapply Hrun, Hname_clash. rewrite Hdep.
    destruct (bool_decide_reflect (k ∈ keys)) as [Hin|Hnot]; [eauto|].
    by destruct Hseen.
  - intros previously Hnot Hd Hp. eapply Hrun, Hpackage_clash.
    + by rewrite Hdep, bool_decide_eq_false_2.
    + by rewrite Hpkg.
Qed.

(** The check of the item [previous_names] of a package is the loop over
    the previous names. *)
Lemma package_item_previous_names include name prev_names :
  package_item include name "previous_names" (JList prev_names)
  = previous_names_loop include name prev_names.
Proof. reflexivity. Qed.

(** The failure that [_test_package] raises at the first previous name
    that is not accepted, [reg1] being the registries that the items
    before [previous_names] leave. *)
Lemma test_package_previous_clash
    include reg reg1 name items prev_names prev_name rest others keys k :
  let data :=
    JObj (items ++ ("previous_names", JList (prev_names ++ prev_name :: rest)) :: others) in
  get_package_name data = Ok name →
  package_items_loop include name items reg = (Ok tt, reg1) →
  Forall2 (fresh_previous reg1) prev_names keys →
  NoDup keys →
  key_of prev_name = Ok k →
  let raised := (_test_package include data reg).1 in
  (k ∈ keys ∨ is_Some (previous_package_names reg1 !! k) →
     raised = Fail (PreviousNamesMustBeUnique prev_name))
  ∧ (∀ previously, k ∉ keys → previous_package_names reg1 !! k = None →
       package_names reg !! k = Some previously →
       raised = Fail (PreviousNameOccursAsName prev_name previously)).
Proof.
  intros data Hname Hitems Hfresh Hnodup Hk raised.
  destruct (previous_names_loop_accepts include name prev_names (prev_name :: rest)
              reg1 keys Hfresh Hnodup) as (reg2 & Hloop & Hpkg & Hdep & Hprev).
  assert (Hrun : ∀ f reg3,
             previous_names_loop include name (prev_name :: rest) reg2
             = (Fail f, reg3) → raised = Fail f).
  { intros f reg3 Hf. unfold raised, _test_package.
    cbv beta iota delta [mbind check_bind lift].
    rewrite Hname. cbv beta iota.
    change (Py.items data) with
      (Ok (items ++ ("previous_names", JList (prev_names ++ prev_name :: rest)) :: others)).
    cbv beta iota.
    rewrite (package_items_loop_app _ _ _ _ _ _ Hitems).
    cbn [package_items_loop]. cbv beta iota delta [mbind check_bind].
    by rewrite package_item_previous_names, Hloop, Hf. }
  apply package_items_loop_ok in Hitems as [(Hpkg1 & _) _].
  destruct (previous_name_clash include name prev_name rest reg2 k Hk)
    as (Hname_clash & Hpackage_clash).
  split.
  - intros Hseen. eapply Hrun, Hname_clash. specialize (Hprev k).
    destruct (bool_decide_reflect (k ∈ keys)) as [Hin|Hnot]; [done|].
    rewrite Hprev. by destruct Hseen.
  - intros previously Hnot Hq Hp. eapply Hrun, Hpackage_clash.
    + specialize (Hprev k). rewrite bool_decide_eq_false_2 in Hprev by done.
      by rewrite Hprev.
    + by rewrite Hpkg, Hpkg1.
Qed.

End RegistryFacts.

(** C6.  When the check of the names of an include passes, the include is
    designated by the group that its file name gives, and the names of its
    packages are strings such that: in the file designated [0-9], every
    name starts with a digit; in a file designated by one letter, the
    first character of every name, lowered, is that letter.  The package
    "Zoo" fails in the file designated [a] and passes in the file
    designated [z]. *)
Theorem C6_shard_check :
  (∀ include data reg reg',
     _test_repository_package_names include data reg = (Ok tt, reg') →
     ∃ designation pdatas names,
       Patterns.include_shard include = Some designation
       ∧ entries "packages" data = Ok pdatas
       ∧ names_of pdatas (map JStr names)
       ∧ (designation = "0-9" →
          Forall (λ name, ∃ c rest, name = String c rest ∧ Text.isdigit c = true)
                 names)
       ∧ (∀ letter, designation = String letter "" →
          Forall (λ name, ∃ c rest, name = String c rest ∧ Text.lower_char c = letter)
                 names))
  ∧ (let zoo := JObj [("packages", JList [JObj [("name", JStr "Zoo")]])] in
     (_test_repository_package_names "./repository/a.json" zoo setUpClass).1
     = Fail PackageInsertedInWrongFile
     ∧ (_test_repository_package_names "./repository/z.json" zoo setUpClass).1
       = Ok tt).
Proof.
  split; [|by vm_compute].
  intros include data reg reg' H.
  apply RegistryFacts.test_repository_package_names_ok in H
    as (designation & pdatas & names & keys & Hshard & Hentries & Hnames & _ & _ & Hstart & _).
  exists designation, pdatas, names. repeat split; try done.
  - intros ->. eapply Forall_impl; [exact Hstart|].
    intros name (c & rest & -> & Hc). eauto.
  - intros letter ->. eapply Forall_impl; [exact Hstart|].
    intros name (c & rest & -> & Hc). exists c, rest. split; [done|].
    assert (String.eqb (String letter "") "0-9" = false) as E.
    { by destruct letter as [[] [] [] [] [] [] [] []]. }
    rewrite E in Hc. by injection Hc.
Qed.

Lemma C6_shard_check_witness :
  ∃ designation pdatas names,
    Patterns.include_shard "./repository/z.json" = Some designation
    ∧ entries "packages"
        (JObj [("packages", JList [JObj [("name", JStr "Zoo")]])]) = Ok pdatas
    ∧ names_of pdatas (map JStr names)
    ∧ (designation = "0-9" →
       Forall (λ name, ∃ c rest, name = String c rest ∧ Text.isdigit c = true)
              names)
    ∧ (∀ letter, designation = String letter "" →
       Forall (λ name, ∃ c rest, name = String c rest ∧ Text.lower_char c = letter)
              names).
Proof.
  apply (proj1 C6_shard_check "./repository/z.json" _ setUpClass
           (_test_repository_package_names "./repository/z.json"
              (JObj [("packages", JList [JObj [("name", JStr "Zoo")]])])
              setUpClass).2).
  vm_compute. reflexivity.
Defined.

(** C7.  When the check of the names of an include passes, the list of
    the names of its packages, in the order of the file, is the list that
    [sorted] with the key [str.lower] gives for it; so is the list of the
    names of its dependencies when the check of these passes.  That list is
    a rearrangement of the names in alphabetical order whatever the case.
    And when the names are accepted by what comes before in the check, the
    registries and for packages the file, a list that differs from its
    sorted list makes the check raise the failure of the order. *)
Theorem C7_names_sorted :
  (∀ include data reg reg',
     _test_repository_package_names include data reg = (Ok tt, reg') →
     ∃ pdatas names,
       entries "packages" data = Ok pdatas
       ∧ names_of pdatas (map JStr names)
       ∧ names = sorted_by_lower names)
  ∧ (∀ include data reg reg',
       _test_dependency_names include data reg = (Ok tt, reg') →
       ∃ pdatas names,
         entries "dependencies" data = Ok pdatas
         ∧ names_of pdatas (map JStr names)
         ∧ names = sorted_by_lower names)
  ∧ (∀ names : list string,
       sorted_by_lower names ≡ₚ names
       ∧ StronglySorted lower_le (sorted_by_lower names)
       ∧ (names = sorted_by_lower names ↔ StronglySorted lower_le names))
  ∧ (∀ include data reg letter pdatas names reg1,
       Patterns.include_shard include = Some letter →
       entries "packages" data = Ok pdatas →
       package_names_loop include pdatas [] reg = (Ok (map JStr names), reg1) →
       for_each (map JStr names) (in_correct_file letter) = Ok tt →
       names ≠ sorted_by_lower names →
       _test_repository_package_names include data reg
       = (Fail PackagesMustBeSorted, reg1))
  ∧ (∀ include data reg letter pdatas names reg1,
       Patterns.include_shard include = Some letter →
       entries "dependencies" data = Ok pdatas →
       dependency_names_loop include pdatas [] reg = (Ok (map JStr names), reg1) →
       names ≠ sorted_by_lower names →
       _test_dependency_names include data reg
       = (Fail DependenciesMustBeSorted, reg1)).
Proof.
  assert (Hunsorted : ∀ names f,
            names ≠ sorted_by_lower names →
            assert_sorted (map JStr names) f = Fail f).
  { intros names f Hne. unfold assert_sorted.
    rewrite RegistryFacts.strings_of_strings.
    simpl. by rewrite bool_decide_eq_false_2. }
  split; [|split; [|split; [|split]]].
  - intros include data reg reg' H.
    apply RegistryFacts.test_repository_package_names_ok in H
      as (_ & pdatas & names & _ & _ & Hentries & Hnames & _ & _ & _ & Hsorted).
    eauto.
  - intros include data reg reg' H.
    apply RegistryFacts.test_dependency_names_ok in H
      as (pdatas & names & _ & Hentries & Hnames & _ & _ & Hsorted).
    eauto.
  - intros names. split; [|split].
    + apply SortFacts.sorted_by_lower_perm.
    + apply SortFacts.sorted_by_lower_sorted.
    + apply SortFacts.sorted_by_lower_fixed.
  - intros include data reg letter pdatas names reg1 Hshard Hentries Hloop Hfile Hne.
    unfold entries in Hentries. bind_inv Hentries as v Hv.
    unfold _test_repository_package_names. rewrite Hshard.
    cbv beta iota delta [mbind check_bind mret check_ret lift fail gets modify].
    rewrite Hv. cbv beta iota. rewrite Hentries. cbv beta iota.
    rewrite Hloop. cbv beta iota. rewrite Hfile. cbv beta iota.
    by rewrite Hunsorted.
  - intros include data reg letter pdatas names reg1 Hshard Hentries Hloop Hne.
    unfold entries in Hentries. bind_inv Hentries as v Hv.
    unfold _test_dependency_names. rewrite Hshard.
    cbv beta iota delta [mbind check_bind mret check_ret lift fail gets modify].
    rewrite Hv. cbv beta iota. rewrite Hentries. cbv beta iota.
    rewrite Hloop. cbv beta iota.
    by rewrite Hunsorted.
Qed.

Lemma C7_names_sorted_witness :
  (∃ pdatas names,
     entries "packages"
       (JObj [("packages", JList [JObj [("name", JStr "apple")];
                                  JObj [("name", JStr "Avocado")]])]) = Ok pdatas
     ∧ names_of pdatas (map JStr names)
     ∧ names = sorted_by_lower names)
  ∧ (∃ pdatas names,
       entries "dependencies"
         (JObj [("dependencies", JList [JObj [("name", JStr "apple")];
                                        JObj [("name", JStr "Banana")]])]) = Ok pdatas
       ∧ names_of pdatas (map JStr names)
       ∧ names = sorted_by_lower names)
  ∧ (_test_repository_package_names "./repository/a.json"
       (JObj [("packages", JList [JObj [("name", JStr "Avocado")];
                                  JObj [("name", JStr "apple")]])])
       setUpClass).1
    = Fail PackagesMustBeSorted
  ∧ (_test_dependency_names "./repository/dependencies.json"
       (JObj [("dependencies", JList [JObj [("name", JStr "Banana")];
                                      JObj [("name", JStr "apple")]])])
       setUpClass).1
    = Fail DependenciesMustBeSorted.
Proof.
  split; [|split; [|split]].
  - apply (proj1 C7_names_sorted "./repository/a.json" _ setUpClass
             (_test_repository_package_names "./repository/a.json"
                (JObj [("packages", JList [JObj [("name", JStr "apple")];
                                           JObj [("name", JStr "Avocado")]])])
                setUpClass).2).
    vm_compute. reflexivity.
  - apply (proj1 (proj2 C7_names_sorted) "./repository/dependencies.json" _ setUpClass
             (_test_dependency_names "./repository/dependencies.json"
                (JObj [("dependencies", JList [JObj [("name", JStr "apple")];
                                               JObj [("name", JStr "Banana")]])])
                setUpClass).2).
    vm_compute. reflexivity.
  - rewrite (proj1 (proj2 (proj2 (proj2 C7_names_sorted)))
               "./repository/a.json" _ setUpClass "a"
               [JObj [("name", JStr "Avocado")]; JObj [("name", JStr "apple")]]
               ["Avocado"; "apple"]
               (package_names_loop "./repository/a.json"
                  [JObj [("name", JStr "Avocado")]; JObj [("name", JStr "apple")]]
                  [] setUpClass).2);
      try (vm_compute; reflexivity).
    vm_compute. discriminate.
  - rewrite (proj2 (proj2 (proj2 (proj2 C7_names_sorted)))
               "./repository/dependencies.json" _ setUpClass "dependencies"
               [JObj [("name", JStr "Banana")]; JObj [("name", JStr "apple")]]
               ["Banana"; "apple"]
               (dependency_names_loop "./repository/dependencies.json"
                  [JObj [("name", JStr "Banana")]; JObj [("name", JStr "apple")]]
                  [] setUpClass).2);
      try (vm_compute; reflexivity).
    vm_compute. discriminate.
Defined.

(** C1, as stated, does not hold.  The package "Bar" gives up the name
    "Foo"; after its check, the dependency "foo" passes the check of the
    names of the dependencies, and so does the package "foo" the check of
    the names of the packages: no failure is raised, and the name is then
    in two registries. *)
Lemma C1_counterexample :
  let bar := JObj [("name", JStr "Bar");
                   ("details", JStr "https://github.com/example/bar");
                   ("previous_names", JList [JStr "Foo"])] in
  let dependencies := JObj [("dependencies", JList [JObj [("name", JStr "foo")]])] in
  let packages := JObj [("packages", JList [JObj [("name", JStr "foo")]])] in
  let '(o1, reg1) := _test_package "./repository/b.json" bar setUpClass in
  let '(o2, reg2) :=
    _test_dependency_names "./repository/dependencies.json" dependencies reg1 in
  let '(o3, reg3) :=
    _test_repository_package_names "./repository/f.json" packages reg1 in
  let foo := Py.KStr "foo" in
  o1 = Ok tt ∧ o2 = Ok tt ∧ o3 = Ok tt
  ∧ is_Some (previous_package_names reg2 !! foo)
  ∧ is_Some (dependency_names reg2 !! foo)
  ∧ is_Some (previous_package_names reg3 !! foo)
  ∧ is_Some (package_names reg3 !! foo).
Proof. vm_compute. repeat split; eauto. Qed.

(** C1, amended.  A check of names that passes has met accepted names
    only, and the first name that is not accepted makes it fail.  A key is
    a name with its letters lowered.

    The names of the packages of an include have distinct keys, and none
    of them was, when the check began, the key of a registered package or
    dependency, or the key of a registered previous name with the same
    spelling; the names of the dependencies of an include have distinct
    keys, none of them the key of a registered dependency or package; the
    previous names of a package have distinct keys, none of them the key
    of a registered previous name or package.

    After entries that are accepted, a package whose key is that of an
    earlier package of the include, or of a registered package, fails with
    the name and the include in which the name was met; one that is
    spelled as a registered previous name, with the name, the include and
    the package of the previous name; one whose key is that of a
    registered dependency, with the name and the include of the
    dependency.  A dependency, named by a string, whose key is that of an
    earlier dependency of the include or of a registered dependency fails
    with the name alone; one whose key is that of a registered package,
    with the name and the include of the package.  A previous name whose
    key is that of an earlier previous name of the list or of a registered
    previous name fails with the name; one whose key is that of a
    registered package, with the name and the include of the package.

    Nothing compares a dependency with a previous name, and a package may
    bear a previous name spelled with another case. *)
Theorem C1_accepted_names :
  (∀ include data reg reg',
     _test_repository_package_names include data reg = (Ok tt, reg') →
     ∃ pdatas names keys,
       entries "packages" data = Ok pdatas
       ∧ names_of pdatas names
       ∧ Forall2 (fresh_package reg) names keys
       ∧ NoDup keys)
  ∧ (∀ include data reg reg',
       _test_dependency_names include data reg = (Ok tt, reg') →
       ∃ pdatas names keys,
         entries "dependencies" data = Ok pdatas
         ∧ names_of pdatas names
         ∧ Forall2 (fresh_dependency reg) names keys
         ∧ NoDup keys)
  ∧ (∀ include data reg reg',
       _test_package include data reg = (Ok tt, reg') →
       ∃ kvs, data = JObj kvs ∧
         ∀ v, In ("previous_names", v) kvs →
           ∃ prev_names keys,
             v = JList prev_names
             ∧ Forall2 (fresh_previous reg) prev_names keys
             ∧ NoDup keys)
  ∧ (∀ include letter data reg before pdata rest names keys name k,
       Patterns.include_shard include = Some letter →
       entries "packages" data = Ok (before ++ pdata :: rest) →
       names_of before names →
       Forall2 (fresh_package reg) names keys →
       NoDup keys →
       get_package_name pdata = Ok name →
       key_of name = Ok k →
       let raised := (_test_repository_package_names include data reg).1 in
       (k ∈ keys → raised = Fail (PackageNamesMustBeUnique name include))
       ∧ (∀ previously, package_names reg !! k = Some previously →
            raised = Fail (PackageNamesMustBeUnique name previously))
       ∧ (∀ entry, k ∉ keys → package_names reg !! k = None →
            previous_package_names reg !! k = Some entry →
            Py.eq_hashable name entry.1.1 = true →
            raised = Fail (NameOccursAsPreviousName name entry.1.2 entry.2))
       ∧ (∀ previously, k ∉ keys → package_names reg !! k = None →
            (∀ entry, previous_package_names reg !! k = Some entry →
                      Py.eq_hashable name entry.1.1 = false) →
            dependency_names reg !! k = Some previously →
            raised = Fail (DependencyAndPackageNamesMustBeUnique name previously)))
  ∧ (∀ include letter data reg before pdata rest names keys name k,
       Patterns.include_shard include = Some letter →
       entries "dependencies" data = Ok (before ++ pdata :: rest) →
       names_of before names →
       Forall2 (fresh_dependency reg) names keys →
       NoDup keys →
       get_package_name pdata = Ok (JStr name) →
       key_of (JStr name) = Ok k →
       let raised := (_test_dependency_names include data reg).1 in
       (k ∈ keys ∨ is_Some (dependency_names reg !! k) →
          raised = Fail (DependencyNamesMustBeUnique (JStr name)))
       ∧ (∀ previously, k ∉ keys → dependency_names reg !! k = None →
            package_names reg !! k = Some previously →
            raised
            = Fail (DependencyAndPackageNamesMustBeUnique (JStr name) previously)))
  ∧ (∀ include reg reg1 name items prev_names prev_name rest others keys k,
       let data :=
         JObj (items
               ++ ("previous_names", JList (prev_names ++ prev_name :: rest))
               :: others) in
       get_package_name data = Ok name →
       package_items_loop include name items reg = (Ok tt, reg1) →
       Forall2 (fresh_previous reg1) prev_names keys →
       NoDup keys →
       key_of prev_name = Ok k →
       let raised := (_test_package include data reg).1 in
       (k ∈ keys ∨ is_Some (previous_package_names reg1 !! k) →
          raised = Fail (PreviousNamesMustBeUnique prev_name))
       ∧ (∀ previously, k ∉ keys → previous_package_names reg1 !! k = None →
            package_names reg !! k = Some previously →
            raised = Fail (PreviousNameOccursAsName prev_name previously))).
Proof.
  split; [|split; [|split; [|split; [|split]]]].
  - intros include data reg reg' H.
    apply RegistryFacts.test_repository_package_names_ok in H
      as (_ & pdatas & names & keys & _ & Hentries & Hnames & Hfresh & Hnodup & _).
    eauto 10.
  - intros include data reg reg' H.
    apply RegistryFacts.test_dependency_names_ok in H
      as (pdatas & names & keys & Hentries & Hnames & Hfresh & Hnodup & _).
    eauto 10.
  - intros include data reg reg' H.
    by apply RegistryFacts.test_package_ok in H as [_ H].
  - intros include letter data reg before pdata rest names keys name k.
    apply RegistryFacts.test_repository_package_names_clash.
  - intros include letter data reg before pdata rest names keys name k.
    apply RegistryFacts.test_dependency_names_clash.
  - intros include reg reg1 name items prev_names prev_name rest others keys k.
    apply RegistryFacts.test_package_previous_clash.
Qed.

(** The registries are those that the checks of four includes leave: the
    package "apple" of [a.json], the package "Bar" of [b.json], which
    gave up the name "Foo", and the dependency "bz2". *)
Lemma C1_accepted_names_witness :
  let a_json := "./repository/a.json" in
  let b_json := "./repository/b.json" in
  let c_json := "./repository/c.json" in
  let dependencies_json := "./repository/dependencies.json" in
  let named (name : string) := JObj [("name", JStr name)] in
  let packages (names : list string) :=
    JObj [("packages", JList (map named names))] in
  let dependencies (names : list string) :=
    JObj [("dependencies", JList (map named names))] in
  let package (name : string) (previous_names : list string) :=
    JObj [("name", JStr name);
          ("details", JStr ("https://github.com/example/" +:+ name));
          ("previous_names", JList (map JStr previous_names))] in
  let reg1 := (_test_repository_package_names a_json (packages ["apple"]) setUpClass).2 in
  let reg2 := (_test_repository_package_names b_json (packages ["Bar"]) reg1).2 in
  let reg3 := (_test_package b_json (package "Bar" ["Foo"]) reg2).2 in
  let reg := (_test_dependency_names dependencies_json (dependencies ["bz2"]) reg3).2 in
  (* names that are accepted *)
  (∃ pdatas names keys,
     entries "packages" (packages ["cherry"; "Citrus"]) = Ok pdatas
     ∧ names_of pdatas names
     ∧ Forall2 (fresh_package reg) names keys
     ∧ NoDup keys)
  ∧ (∃ pdatas names keys,
       entries "dependencies" (dependencies ["pyyaml"; "requests"]) = Ok pdatas
       ∧ names_of pdatas names
       ∧ Forall2 (fresh_dependency reg) names keys
       ∧ NoDup keys)
  ∧ (∃ kvs,
       package "Cherry" ["Kirsche"] = JObj kvs ∧
       ∀ v, In ("previous_names", v) kvs →
         ∃ prev_names keys,
           v = JList prev_names
           ∧ Forall2 (fresh_previous reg) prev_names keys
           ∧ NoDup keys)
  (* a package named as a package of the include, or of another include *)
  ∧ (_test_repository_package_names c_json (packages ["cherry"; "Cherry"]) reg).1
    = Fail (PackageNamesMustBeUnique (JStr "Cherry") c_json)
  ∧ (_test_repository_package_names "./more/a.json" (packages ["Avocado"; "APPLE"]) reg).1
    = Fail (PackageNamesMustBeUnique (JStr "APPLE") a_json)
  (* a package named as a previous name, and one named as a dependency *)
  ∧ (_test_repository_package_names "./repository/f.json" (packages ["Foo"]) reg).1
    = Fail (NameOccursAsPreviousName (JStr "Foo") b_json (JStr "Bar"))
  ∧ (_test_repository_package_names "./more/b.json" (packages ["BZ2"]) reg).1
    = Fail (DependencyAndPackageNamesMustBeUnique (JStr "BZ2") dependencies_json)
  (* a dependency named as a dependency, and one named as a package *)
  ∧ (_test_dependency_names "./more/dependencies.json" (dependencies ["arrow"; "Bz2"]) reg).1
    = Fail (DependencyNamesMustBeUnique (JStr "Bz2"))
  ∧ (_test_dependency_names "./more/dependencies.json" (dependencies ["Apple"]) reg).1
    = Fail (DependencyAndPackageNamesMustBeUnique (JStr "Apple") a_json)
  (* a previous name met as a previous name, and one met as a package *)
  ∧ (_test_package c_json (package "Cherry" ["Kirsche"; "foo"]) reg).1
    = Fail (PreviousNamesMustBeUnique (JStr "foo"))
  ∧ (_test_package c_json (package "Cherry" ["Kirsche"; "kirsche"]) reg).1
    = Fail (PreviousNamesMustBeUnique (JStr "kirsche"))
  ∧ (_test_package c_json (package "Cherry" ["BAR"]) reg).1
    = Fail (PreviousNameOccursAsName (JStr "BAR") b_json).
Proof.
  intros a_json b_json c_json dependencies_json named packages dependencies package
         reg1 reg2 reg3 reg.
  destruct C1_accepted_names
    as (Hpackages & Hdependencies & Hprevious
        & Hpackage_clash & Hdependency_clash & Hprevious_clash).
  repeat apply conj.
  - apply (Hpackages c_json _ reg
             (_test_repository_package_names c_json (packages ["cherry"; "Citrus"]) reg).2).
    vm_compute. reflexivity.
  - apply (Hdependencies dependencies_json _ reg
             (_test_dependency_names dependencies_json
                (dependencies ["pyyaml"; "requests"]) reg).2).
    vm_compute. reflexivity.
  - apply (Hprevious c_json _ reg
             (_test_package c_json (package "Cherry" ["Kirsche"]) reg).2).
    vm_compute. reflexivity.
  - refine (proj1 (Hpackage_clash c_json "c" (packages ["cherry"; "Cherry"]) reg
                     [named "cherry"] (named "Cherry") [] [JStr "cherry"]
                     [Py.KStr "cherry"] (JStr "Cherry") (Py.KStr "cherry")
                     _ _ _ _ _ _ _) _).
    + reflexivity.
    + reflexivity.
    + repeat constructor.
    + repeat constructor; try (vm_compute; reflexivity).
      intros entry H. vm_compute in H. discriminate H.
    + apply NoDup_singleton.
    + reflexivity.
    + reflexivity.
    + left.
  - refine (proj1 (proj2 (Hpackage_clash "./more/a.json" "a"
                            (packages ["Avocado"; "APPLE"]) reg
                            [named "Avocado"] (named "APPLE") [] [JStr "Avocado"]
                            [Py.KStr "avocado"] (JStr "APPLE") (Py.KStr "apple")
                            _ _ _ _ _ _ _)) a_json _).
    + reflexivity.
    + reflexivity.
    + repeat constructor.
    + repeat constructor; try (vm_compute; reflexivity).
      intros entry H. vm_compute in H. discriminate H.
    + apply NoDup_singleton.
    + reflexivity.
    + reflexivity.
    + vm_compute. reflexivity.
  - refine (proj1 (proj2 (proj2 (Hpackage_clash "./repository/f.json" "f"
                                   (packages ["Foo"]) reg
                                   [] (named "Foo") [] [] [] (JStr "Foo") (Py.KStr "foo")
                                   _ _ _ _ _ _ _)))
                  (JStr "Foo", b_json, JStr "Bar") _ _ _ _).
    + reflexivity.
    + reflexivity.
    + constructor.
    + constructor.
    + constructor.
    + reflexivity.
    + reflexivity.
    + apply not_elem_of_nil.
    + vm_compute. reflexivity.
    + vm_compute. reflexivity.
    + reflexivity.
  - refine (proj2 (proj2 (proj2 (Hpackage_clash "./more/b.json" "b"
                                   (packages ["BZ2"]) reg
                                   [] (named "BZ2") [] [] [] (JStr "BZ2") (Py.KStr "bz2")
                                   _ _ _ _ _ _ _)))
                  dependencies_json _ _ _ _).
    + reflexivity.
    + reflexivity.
    + constructor.
    + constructor.
    + constructor.
    + reflexivity.
    + reflexivity.
    + apply not_elem_of_nil.
    + vm_compute. reflexivity.
    + intros entry H. vm_compute in H. discriminate H.
    + vm_compute. reflexivity.
  - refine (proj1 (Hdependency_clash "./more/dependencies.json" "dependencies"
                     (dependencies ["arrow"; "Bz2"]) reg
                     [named "arrow"] (named "Bz2") [] [JStr "arrow"] [Py.KStr "arrow"]
                     "Bz2" (Py.KStr "bz2") _ _ _ _ _ _ _) _).
    + reflexivity.
    + reflexivity.
    + repeat constructor.
    + repeat constructor; vm_compute; reflexivity.
    + apply NoDup_singleton.
    + reflexivity.
    + reflexivity.
    + right. vm_compute. eauto.
  - refine (proj2 (Hdependency_clash "./more/dependencies.json" "dependencies"
                     (dependencies ["Apple"]) reg
                     [] (named "Apple") [] [] [] "Apple" (Py.KStr "apple")
                     _ _ _ _ _ _ _) a_json _ _ _).
    + reflexivity.
    + reflexivity.
    + constructor.
    + constructor.
    + constructor.
    + reflexivity.
    + reflexivity.
    + apply not_elem_of_nil.
    + vm_compute. reflexivity.
    + vm_compute. reflexivity.
  - refine (proj1 (Hprevious_clash c_json reg reg (JStr "Cherry")
                     [("name", JStr "Cherry");
                      ("details", JStr "https://github.com/example/Cherry")]
                     [JStr "Kirsche"] (JStr "foo") [] [] [Py.KStr "kirsche"]
                     (Py.KStr "foo") _ _ _ _ _) _).
    + reflexivity.
    + vm_compute. reflexivity.
    + repeat constructor; vm_compute; reflexivity.
    + apply NoDup_singleton.
    + reflexivity.
    + right. vm_compute. eauto.
  - refine (proj1 (Hprevious_clash c_json reg reg (JStr "Cherry")
                     [("name", JStr "Cherry");
                      ("details", JStr "https://github.com/example/Cherry")]
                     [JStr "Kirsche"] (JStr "kirsche") [] [] [Py.KStr "kirsche"]
                     (Py.KStr "kirsche") _ _ _ _ _) _).
    + reflexivity.
    + vm_compute. reflexivity.
    + repeat constructor; vm_compute; reflexivity.
    + apply NoDup_singleton.
    + reflexivity.
    + left. left.
  - refine (proj2 (Hprevious_clash c_json reg reg (JStr "Cherry")
                     [("name", JStr "Cherry");
                      ("details", JStr "https://github.com/example/Cherry")]
                     [] (JStr "BAR") [] [] [] (Py.KStr "bar") _ _ _ _ _)
                  b_json _ _ _).
    + reflexivity.
    + vm_compute. reflexivity.
    + constructor.
    + constructor.
    + reflexivity.
    + apply not_elem_of_nil.
    + vm_compute. reflexivity.
    + vm_compute. reflexivity.
Defined.

(** ** The platforms of a release *)

Module PlatformFacts.
Import Re Words ReFacts PatternFacts.

(** Takes apart the hypotheses that a string is a word of a pattern
    made of literals. *)
Ltac lang_inv :=
  repeat match goal with
    | H : lang (Cat _ _) _ |- _ => apply lang_cat in H as (? & ? & -> & ? & ?)
    | H : lang (opt _) _ |- _ => apply lang_opt in H as [H| ->]
    | H : lang (Alt _ _) _ |- _ => destruct H as [H|H]
    | H : lang (lit _) _ |- _ => apply lang_lit in H as ->
    | H : lang (chr _) _ |- _ => apply lang_chr in H as ->
    | H : lang Eps _ |- _ => cbn [lang] in H; subst
    | H : lang Void _ |- _ => destruct H
    end.

Lemma platform_regex_words plat :
  search_anchored Patterns.platform_regex plat = true ↔ platform_shape plat.
Proof.
  unfold search_anchored, platform_shape. rewrite fullmatch_lang. split.
  - intros H. apply lang_cat in H as (word & tail & -> & Hword & Htail).
    exists word. split.
    + clear Htail. unfold Patterns.platform_regex in Hword.
      cbn [seq alts opt] in Hword. lang_inv; vm_compute; tauto.
    + apply lang_opt in Htail as [Htail| ->].
      * apply lang_chr in Htail as ->. by right.
      * left. by rewrite app_nil_r.
  - intros (word & Hword & Hplat). apply fullmatch_lang.
    simpl in Hword.
    repeat (destruct Hword as [<-|Hword];
            [by destruct Hplat as [-> | ->]; vm_compute|]).
    done.
Qed.

Lemma all_strings (P : string → Prop) (l : list json) :
  Forall (λ v, ∃ s, v = JStr s ∧ P s) l →
  ∃ strs, l = map JStr strs ∧ Forall P strs.
Proof.
  induction 1 as [|v l (s & -> & Hs) _ (strs & -> & Hstrs)].
  - by exists [].
  - exists (s :: strs). split; [done|]. by constructor.
Qed.

Lemma hash_all_strings strs : hash_all (map JStr strs) = Ok (map Py.KStr strs).
Proof. induction strs as [|s strs IH]; [done|]. simpl. by rewrite IH. Qed.

Lemma list_has_strings p strs : list_has p (map JStr strs) = true ↔ In p strs.
Proof.
  unfold list_has. rewrite existsb_exists. split.
  - intros (v & Hv & Hp). apply in_map_iff in Hv as (s & <- & Hs).
    simpl in Hp. by apply String.eqb_eq in Hp as ->.
  - intros Hp. exists (JStr p). split; [by apply in_map|].
    simpl. apply String.eqb_refl.
Qed.

(** What holds when the value of the key [platforms] passes. *)
Lemma release_item_platforms data dependency v :
  release_item data dependency "platforms" v = Ok tt →
  ∃ plats,
    platforms_of v plats
    ∧ Forall platform_shape plats
    ∧ NoDup plats
    ∧ (∀ system, In system ["osx"; "windows"; "linux"] →
         ¬ (In (system +:+ "-x32") plats ∧ In (system +:+ "-x64") plats
            ∧ In (system +:+ "-arm64") plats))
    ∧ ¬ (In "osx" plats ∧ In "windows" plats ∧ In "linux" plats
         ∧ Forall (λ plat, In plat ["osx"; "windows"; "linux"]) plats).
Proof.
  unfold release_item. intros H. bind_inv H as u0 Htypes.
  change (String.eqb "platforms" "url") with false in H.
  change (String.eqb "platforms" "base") with false in H.
  change (String.eqb "platforms" "sublime_text") with false in H.
  change (String.eqb "platforms" "platforms") with true in H.
  cbv iota in H. unfold check_platforms in H.
  bind_inv H as l Hl. bind_inv H as u1 Hregex. bind_inv H as u2 Hdup.
  bind_inv H as u3 Harch.
  apply OutcomeFacts.outcome_unit, OutcomeFacts.for_each_ok in Hregex.
  assert (Hshape : Forall (λ x, ∃ s, x = JStr s ∧ platform_shape s) l).
  { eapply Forall_impl; [exact Hregex|]. intros x Hx.
    apply OutcomeFacts.assertRegex_ok in Hx as (s & -> & Hs).
    exists s. split; [done|]. by apply platform_regex_words. }
  apply all_strings in Hshape as (plats & -> & Hshape).
  exists plats. split; [|split; [done|split; [|split]]].
  - destruct v; try discriminate; simpl in Hl; injection Hl as Hl.
    + destruct plats as [|p [|??]]; try discriminate. by injection Hl as ->.
    + done.
    + by destruct dependency.
  - unfold assert_no_duplicates in Hdup. rewrite hash_all_strings in Hdup.
    simpl in Hdup. apply OutcomeFacts.outcome_unit, OutcomeFacts.assertTrue_ok in Hdup.
    apply bool_decide_eq_true in Hdup. by apply NoDup_fmap in Hdup; [|by intros ?? [=]].
  - intros system Hsystem (H32 & H64 & Harm).
    apply list_has_strings in H32, H64, Harm.
    simpl in Hsystem. destruct Hsystem as [<-|[<-|[<-|[]]]];
      change ("osx" +:+ "-x32") with "osx-x32" in *;
      change ("osx" +:+ "-x64") with "osx-x64" in *;
      change ("osx" +:+ "-arm64") with "osx-arm64" in *;
      change ("windows" +:+ "-x32") with "windows-x32" in *;
      change ("windows" +:+ "-x64") with "windows-x64" in *;
      change ("windows" +:+ "-arm64") with "windows-arm64" in *;
      change ("linux" +:+ "-x32") with "linux-x32" in *;
      change ("linux" +:+ "-x64") with "linux-x64" in *;
      change ("linux" +:+ "-arm64") with "linux-arm64" in *;
      rewrite H32, H64, Harm in Harch; simpl in Harch;
      rewrite ?orb_true_r in Harch; discriminate.
  - intros (Hosx & Hwin & Hlinux & Hall).
    apply list_has_strings in Hosx, Hwin, Hlinux.
    apply OutcomeFacts.assertFalse_ok in H.
    rewrite Hosx, Hwin, Hlinux in H. simpl in H.
    apply not_true_iff_false in H. apply H.
    apply forallb_forall. intros x Hx. apply in_map_iff in Hx as (s & <- & Hs).
    rewrite Forall_forall in Hall. apply list_elem_of_In, Hall in Hs.
    simpl in Hs. destruct Hs as [<-|[<-|[<-|[]]]]; reflexivity.
Qed.

End PlatformFacts.

(** C8.  A value of [platforms] that passes holds no platform twice,
    not the three systems together and not the three architectures of one
    system ([PlatformFacts.release_item_platforms]), and the list of
    osx-x64 and osx-arm64 passes.  But a platform that passes need not be
    one of the strings of the pattern: the [$] of the pattern also holds
    before a line feed that ends the string, so that "osx" followed by a
    line feed passes, in a list and alone. *)
Theorem C8_platform_with_line_feed_passes :
  let plat := JStr (String "o" (String "s" (String "x" (String Text.LF "")))) in
  let release platforms :=
    JObj [("sublime_text", JStr "*"); ("tags", JBool true);
          ("platforms", platforms)] in
  let test platforms :=
    _test_release "Example (./repository/e.json)" (release platforms) false true in
  test (JList [plat]) = Ok tt
  ∧ test plat = Ok tt
  ∧ test (JList [JStr "osx-x64"; JStr "osx-arm64"]) = Ok tt
  ∧ test (JList [JStr "osx"; JStr "osx"]) = Fail SamePlatformTwice
  ∧ test (JList [JStr "osx"; JStr "windows"; JStr "linux"]) = Fail AllSystemsRedundant
  ∧ test (JList [JStr "osx-x32"; JStr "osx-x64"; JStr "osx-arm64"])
    = Fail AllArchitecturesRedundant
  ∧ test (JStr "macos") = Fail (BadPlatform (JStr "macos")).
Proof. vm_compute. repeat split. Qed.

(** * Further properties of the checks and of the generators *)

Import RegistryFacts.

(** A value stored under a string is found under every spelling of it. *)
Theorem case_insensitive_round_trip {V} (d : gmap Py.key V) (s : string) (v : V) :
  ∃ d', CID.setitem d (JStr s) v = Ok d'
    ∧ (∀ s', Text.lower s' = Text.lower s →
         CID.getitem d' (JStr s') = Ok v ∧ CID.contains d' (JStr s') = Ok true)
    ∧ (∀ key k, key_of key = Ok k → k ≠ Py.KStr (Text.lower s) →
         CID.getitem d' key = CID.getitem d key
         ∧ CID.contains d' key = CID.contains d key).
Proof.
  eexists. split; [reflexivity|]. split.
  - intros s' Hs'. unfold CID.getitem, CID.contains. simpl. rewrite Hs'.
    rewrite lookup_insert_eq. split; [done|]. by rewrite bool_decide_eq_true_2.
  - intros key k Hk Hne. unfold key_of in Hk. unfold CID.getitem, CID.contains.
    destruct (Py.hash key) as [k0|]; [|done]. simpl in *. injection Hk as <-.
    by rewrite lookup_insert_ne.
Qed.

Module GrowFacts.

(** The call that a check is waiting for: what the outermost [match],
    [let] or [if] of its unfolded form examines first. *)
Ltac head_scrutinee t :=
  lazymatch t with
  | match ?o with Ok _ => _ | Raise _ => _ end => head_scrutinee o
  | match ?o with Ok _ => _ | Raise _ => _ end _ => head_scrutinee o
  | match ?o with Some _ => _ | None => _ end => head_scrutinee o
  | match ?o with Some _ => _ | None => _ end _ => head_scrutinee o
  | (let (_, _) := ?p in _) => head_scrutinee p
  | (if ?b then _ else _) _ => head_scrutinee b
  | (if ?b then _ else _) => head_scrutinee b
  | _ => t
  end.

(** Examines that call in a hypothesis on the result of a check, whatever
    the result is; a call of a check with registries is left alone. *)
Ltac check_case H :=
  let t := lazymatch type of H with ?t = _ => t end in
  let s := head_scrutinee t in
  lazymatch type of s with
  | (_ * _)%type => fail "a check with registries"
  | _ => destruct s eqn:?; cbv beta iota in H
  end.

Ltac check_cases H :=
  repeat (first [ by injection H as <- <- | check_case H ]).

Lemma setitem_fresh {V} (d d' : gmap Py.key V) name v :
  CID.contains d name = Ok false → CID.setitem d name v = Ok d' → d ⊆ d'.
Proof.
  intros Hc Hs. apply contains_false in Hc as (k & Hk & Hnone).
  rewrite (setitem_key_of _ _ _ _ _ Hk Hs). by apply insert_subseteq.
Qed.

Lemma package_names_loop_grows include pdatas acc reg o reg' :
  package_names_loop include pdatas acc reg = (o, reg') →
  package_names reg ⊆ package_names reg'
  ∧ dependency_names reg' = dependency_names reg
  ∧ previous_package_names reg' = previous_package_names reg.
Proof.
  revert acc reg. induction pdatas as [|pdata rest IH]; intros acc reg H.
  - by injection H as <- <-.
  - cbn [package_names_loop] in H. check_unfold H. check_cases H.
    all: apply IH in H as (Hp & Hd & Hq); cbn in *; (split; [|done]).
    all: etrans; [|exact Hp]; by eapply setitem_fresh.
Qed.

Lemma dependency_names_loop_grows include pdatas acc reg o reg' :
  dependency_names_loop include pdatas acc reg = (o, reg') →
  dependency_names reg ⊆ dependency_names reg'
  ∧ package_names reg' = package_names reg
  ∧ previous_package_names reg' = previous_package_names reg.
Proof.
  revert acc reg. induction pdatas as [|pdata rest IH]; intros acc reg H.
  - by injection H as <- <-.
  - cbn [dependency_names_loop] in H. check_unfold H. check_cases H.
    { destruct a; by injection H as <- <-. }
    all: try (injection H as <- <-; cbn; split; [|done]; by eapply setitem_fresh).
    all: apply IH in H as (Hp & Hd & Hq); cbn in *; (split; [|done]).
    all: etrans; [|exact Hp]; by eapply setitem_fresh.
Qed.

Lemma previous_names_loop_grows include name prev_names reg o reg' :
  previous_names_loop include name prev_names reg = (o, reg') →
  more_previous reg reg'.
Proof.
  revert reg. induction prev_names as [|prev_name rest IH]; intros reg H.
  - by injection H as <- <-.
  - cbn [previous_names_loop] in H. check_unfold H. check_cases H.
    all: apply IH in H as (Hp & Hd & Hq); cbn in *; (split; [done|split; [done|]]).
    all: etrans; [|exact Hq]; by eapply setitem_fresh.
Qed.

Lemma package_item_grows include name k v reg o reg' :
  package_item include name k v reg = (o, reg') → more_previous reg reg'.
Proof.
  intros H. unfold package_item in H. check_unfold H. check_cases H.
  all: by eapply previous_names_loop_grows.
Qed.

Lemma package_items_loop_grows include name items reg o reg' :
  package_items_loop include name items reg = (o, reg') → more_previous reg reg'.
Proof.
  revert reg. induction items as [|[k v] items IH]; intros reg H.
  - by injection H as <- <-.
  - cbn [package_items_loop] in H. check_unfold H.
    destruct (package_item include name k v reg) as [[[]|e] reg1] eqn:Hitem;
      apply package_item_grows in Hitem.
    + apply IH in H. by eapply more_previous_trans.
    + by injection H as <- <-.
Qed.

End GrowFacts.

(** No check of names takes a name out of a registry or gives it
    another provenance, whether it passes, fails or raises: the check of
    the package names of an include adds to [package_names] only, the check
    of its dependency names to [dependency_names] only, and the check of a
    package to [previous_package_names] only. *)
Theorem registries_only_grow (include : string) (data : json) (reg : registry) :
  (let reg' := (_test_repository_package_names include data reg).2 in
   package_names reg ⊆ package_names reg'
   ∧ dependency_names reg' = dependency_names reg
   ∧ previous_package_names reg' = previous_package_names reg)
  ∧ (let reg' := (_test_dependency_names include data reg).2 in
     dependency_names reg ⊆ dependency_names reg'
     ∧ package_names reg' = package_names reg
     ∧ previous_package_names reg' = previous_package_names reg)
  ∧ (let reg' := (_test_package include data reg).2 in
     previous_package_names reg ⊆ previous_package_names reg'
     ∧ package_names reg' = package_names reg
     ∧ dependency_names reg' = dependency_names reg).
Proof.
  split; [|split].
  - destruct (_test_repository_package_names include data reg) as [o reg'] eqn:H.
    cbn [snd]. unfold _test_repository_package_names in H.
    RegistryFacts.check_unfold H. GrowFacts.check_cases H.
    all: lazymatch type of H with
         | context [package_names_loop ?i ?p ?a ?r] =>
             destruct (package_names_loop i p a r) as [[names|e] reg1] eqn:Hloop
         end;
      apply GrowFacts.package_names_loop_grows in Hloop;
      GrowFacts.check_cases H.
  - destruct (_test_dependency_names include data reg) as [o reg'] eqn:H.
    cbn [snd]. unfold _test_dependency_names in H.
    RegistryFacts.check_unfold H. GrowFacts.check_cases H.
    all: lazymatch type of H with
         | context [dependency_names_loop ?i ?p ?a ?r] =>
             destruct (dependency_names_loop i p a r) as [[names|e] reg1] eqn:Hloop
         end;
      apply GrowFacts.dependency_names_loop_grows in Hloop;
      GrowFacts.check_cases H.
  - destruct (_test_package include data reg) as [o reg'] eqn:H.
    cbn [snd]. unfold _test_package in H.
    RegistryFacts.check_unfold H. GrowFacts.check_cases H.
    all: lazymatch type of H with
         | context [package_items_loop ?i ?n ?p ?r] =>
             destruct (package_items_loop i n p r) as [[[]|e] reg1] eqn:Hloop
         end;
      apply GrowFacts.package_items_loop_grows in Hloop as (? & ? & ?);
      GrowFacts.check_cases H.
Qed.

Module IndentationFacts2.
Import PatternFacts.

Lemma indentation_loop_first i lines :
  match indentation_loop i lines with
  | Ok _ => Forall tabs_then_text lines
  | Fail (IndentMustBeTabs number) =>
      ∃ n line, number = i + n + 1
        ∧ lines !! n = Some line
        ∧ ¬ tabs_then_text line
        ∧ Forall tabs_then_text (take n lines)
  | _ => False
  end.
Proof.
  revert i. induction lines as [|line lines IH]; intros i; cbn [indentation_loop].
  - constructor.
  - destruct (Re.search_from_start Patterns.indentation_regex line) eqn:E;
      cbn [assertTrue mbind outcome_bind].
    + apply search_indentation in E. specialize (IH (S i)).
      destruct (indentation_loop (S i) lines) as [[]|[[]| | | | | | |]]; try done.
      * by constructor.
      * destruct IH as (n & l & -> & Hl & Hbad & Hgood).
        exists (S n), l. repeat split; [lia|done|done|]. by constructor.
    + exists 0, line. repeat split; [lia| |constructor].
      intros H. apply search_indentation in H. congruence.
Qed.

End IndentationFacts2.

(** The indentation check either passes or fails with the number of the
    first line that is not made of tabs followed by a character that is no
    white space; lines are counted from 1.  No other exception leaves it. *)
Theorem indentation_names_first_bad_line (filename contents : string) :
  match _test_indentation filename contents with
  | Ok _ => Forall tabs_then_text (Text.splitlines contents)
  | Fail (IndentMustBeTabs number) =>
      ∃ n line, number = S n
        ∧ Text.splitlines contents !! n = Some line
        ∧ ¬ tabs_then_text line
        ∧ Forall tabs_then_text (take n (Text.splitlines contents))
  | _ => False
  end.
Proof.
  unfold _test_indentation.
  pose proof (IndentationFacts2.indentation_loop_first 0 (Text.splitlines contents)) as H.
  destruct (indentation_loop 0 (Text.splitlines contents)) as [[]|[[]| | | | | | |]]; try done.
  destruct H as (n & l & -> & H). exists n, l. split; [lia|done].
Qed.

(** An include named for the dependencies holds no package: the check of
    its package names passes only when the list of its packages is empty,
    as no name starts with the word "dependencies". *)
Theorem dependencies_file_holds_no_package
    (include : string) (data : json) (reg reg' : registry) :
  Patterns.include_shard include = Some "dependencies" →
  _test_repository_package_names include data reg = (Ok tt, reg') →
  entries "packages" data = Ok [].
Proof.
  intros Hshard H.
  apply test_repository_package_names_ok in H
    as (letter & pdatas & names & keys & Hletter & Hentries & Hnames & _ & _ & Hstart & _).
  rewrite Hshard in Hletter. injection Hletter as <-.
  destruct names as [|name names].
  - apply Forall2_length in Hnames. destruct pdatas; [done|discriminate].
  - apply Forall_cons in Hstart as [(c & rest & _ & Hc) _]. discriminate.
Qed.

Lemma dependencies_file_holds_no_package_witness :
  entries "packages" (JObj [("packages", JList [])]) = Ok [].
Proof.
  apply (dependencies_file_holds_no_package "./repository/dependencies.json" _
           setUpClass setUpClass); reflexivity.
Defined.

Module PackageFacts.
Import Re Words ReFacts PatternFacts OutcomeFacts.

Lemma string_in_split c s :
  In c (list_ascii_of_string s) ↔ ∃ a b, s = a +:+ String c b.
Proof.
  induction s as [|c' s IH]; simpl.
  - split; [done|]. intros ([|??] & b & H); discriminate.
  - rewrite IH. split.
    + intros [->|(a & b & ->)].
      * by exists "", s.
      * by exists (String c' a), b.
    + intros ([|c'' a] & b & H); simpl in H; injection H as -> ->; eauto.
Qed.

(** [re.search] of a class of characters finds a character of the class. *)
Lemma search_anywhere_class p s :
  search_anywhere (Cls p) s = true
  ↔ ∃ c, In c (list_ascii_of_string s) ∧ p c = true.
Proof.
  unfold search_anywhere. rewrite fullmatch_lang. split.
  - intros (a & bc & -> & _ & (b & c & -> & (ch & -> & Hp) & _)).
    exists ch. split; [|done]. apply string_in_split. by exists a, c.
  - intros (ch & Hin & Hp). apply string_in_split in Hin as (a & b & ->).
    exists a, (String ch b). split; [done|]. split; [apply lang_anything|].
    exists (String ch ""), b. split; [done|]. split; [|apply lang_anything].
    by exists ch.
Qed.

Lemma valid_name_chars name :
  search_anywhere Patterns.invalid_name_char name = false
  → Forall valid_name_char (list_ascii_of_string name).
Proof.
  intros H. apply Forall_forall. intros c Hc. apply list_elem_of_In in Hc.
  apply not_true_iff_false in H.
  assert (Hp : (existsb (Ascii.eqb c) (list_ascii_of_string "/?<>\:*|")
                || (Text.code c =? 34)%N || Text.in_range 0 25 c) = false).
  { apply not_true_iff_false. intros Hp. apply H.
    apply search_anywhere_class. by exists c. }
  apply orb_false_iff in Hp as [Hp Hrange].
  apply orb_false_iff in Hp as [Hnine Hquote].
  repeat split.
  - intros Hin. apply not_true_iff_false in Hnine. apply Hnine.
    apply existsb_exists. exists c. split; [done|]. apply Ascii.eqb_refl.
  - by apply N.eqb_neq.
  - unfold Text.in_range in Hrange. apply andb_false_iff in Hrange as [Hr|Hr].
    + apply N.leb_gt in Hr. lia.
    + by apply N.leb_gt in Hr.
Qed.

Lemma web_address_ok v f :
  assertRegex (search_from_start Patterns.http_or_https) v f = Ok tt ↔ web_address v.
Proof.
  rewrite assertRegex_ok. unfold web_address.
  split; intros (s & -> & H); exists s; (split; [done|]).
  - rewrite search_http_or_https in H. by apply orb_true_iff in H.
  - rewrite search_http_or_https. by apply orb_true_iff.
Qed.

Lemma enforce_key_types_map_ok k v m :
  enforce_key_types_map k v m = Ok tt →
  ∃ spec, types_of k m = Some spec
    ∧ isinstance v spec = true
    ∧ ∀ l ts, v = JList l → spec = Tuple ts → length ts = 2 →
        Forall (λ x, isinstance x (Tuple (filter (λ t, negb (is_list_type t)) ts)) = true) l.
Proof.
  unfold enforce_key_types_map. destruct (types_of k m) as [spec|]; [|done].
  intros H. bind_inv H as u Hinst. apply outcome_unit, assertTrue_ok in Hinst.
  exists spec. repeat split; [done|]. intros l ts -> -> Hts.
  apply Nat.eqb_eq in Hts. rewrite Hts in H. apply for_each_ok in H.
  eapply Forall_impl; [exact H|]. intros x Hx. by apply assertTrue_ok in Hx.
Qed.

Lemma hash_all_hashable vs ks :
  hash_all vs = Ok ks → Forall2 (λ v k, Py.hash v = Ok k) vs ks.
Proof.
  revert ks. induction vs as [|v vs IH]; intros ks H; simpl in H.
  - injection H as <-. constructor.
  - bind_inv H as k Hk. bind_inv H as ks' Hks. injection H as <-.
    constructor; [done|by apply IH].
Qed.

(** The labels that pass are strings without a comma, none of them twice. *)
Lemma labels_ok labels :
  for_each labels (λ label, assertNotIn "," label MultipleLabelsInOneString) = Ok tt →
  assert_no_duplicates labels SameLabelTwice = Ok tt →
  ∃ strs, labels = map JStr strs
    ∧ NoDup strs
    ∧ Forall (λ label, Text.contains "," label = false) strs.
Proof.
  intros Hcomma Hdup. apply for_each_ok in Hcomma.
  unfold assert_no_duplicates in Hdup. bind_inv Hdup as ks Hks.
  apply assertTrue_ok, bool_decide_eq_true in Hdup.
  apply hash_all_hashable in Hks.
  assert (Hstr : Forall (λ v, ∃ s, v = JStr s ∧ Text.contains "," s = false) labels).
  { apply Forall_forall. intros v Hv.
    pose proof (proj1 (Forall_forall _ _) Hcomma v Hv) as Hc.
    apply assertNotIn_ok in Hc.
    apply list_elem_of_lookup in Hv as [i Hi].
    destruct (Forall2_lookup_l _ _ _ _ _ Hks Hi) as (k & _ & Hk).
    destruct v; try discriminate. exists s. split; [done|]. by injection Hc. }
  apply PlatformFacts.all_strings in Hstr as (strs & -> & Hstrs).
  exists strs. repeat split; [|done].
  assert (ks = map Py.KStr strs) as ->.
  { clear -Hks. revert ks Hks. induction strs as [|s strs IH]; intros ks Hks.
    - by apply Forall2_nil_inv_l in Hks.
    - apply Forall2_cons_inv_l in Hks as (k & ks' & [= <-] & Hks & ->).
      simpl. f_equal. by apply IH. }
  by apply NoDup_fmap in Hdup; [|by intros ?? [=]].
Qed.

(** The outcome of a check that leaves the registries as they are. *)
Ltac outcome_of H := apply (f_equal fst) in H; cbn [fst] in H.

(** What holds of a key and its value when the body of the loop of
    [_test_package] passes. *)
Lemma package_item_value include name k v reg reg' :
  package_item include name k v reg = (Ok tt, reg') → accepted_package_value k v.
Proof.
  intros H. unfold package_item in H. check_unfold H.
  check_head H as u Henforce. destruct u.
  apply enforce_key_types_map_ok in Henforce as (spec & Hspec & Hinst & Hlist).
  split; [by exists spec|].
  assert (Hauthor : k = "author" →
            (∃ s, v = JStr s) ∨ ∃ authors, v = JList (map JStr authors)).
  { intros ->. injection Hspec as <-.
    destruct v; try discriminate; [left; eauto|right].
    specialize (Hlist l _ eq_refl eq_refl eq_refl). cbn in Hlist.
    assert (Hstr : Forall (λ x, ∃ s, x = JStr s ∧ True) l).
    { eapply Forall_impl; [exact Hlist|]. intros [] Hx; try discriminate. eauto. }
    apply PlatformFacts.all_strings in Hstr as (authors & -> & _). eauto. }
  destruct (String.eqb_spec k "details") as [->|Hdetails]; cbv beta iota in H.
  { outcome_of H. apply assertRegex_ok in H.
    repeat split; try done. intros Hin. simpl in Hin. intuition discriminate. }
  destruct (String.eqb k "donate" && is_none v) eqn:Hnull.
  { apply andb_true_iff in Hnull as [Hk Hv]. apply String.eqb_eq in Hk as ->.
    destruct v; try discriminate.
    repeat split; try done; [|by left].
    intros Hin. simpl in Hin. intuition discriminate. }
  destruct (String.eqb_spec k "labels") as [->|Hlabels]; cbv beta iota in H.
  { outcome_of H. bind_inv H as labels Hiter.
    bind_inv H as u2 Hcomma. apply outcome_unit in Hcomma.
    destruct (labels_ok _ Hcomma H) as (strs & -> & Hnodup & Hfree).
    injection Hspec as <-. destruct v; try discriminate. injection Hiter as ->.
    repeat split; try done; [intros Hin; simpl in Hin; intuition discriminate|].
    intros _. by exists strs. }
  destruct (String.eqb_spec k "previous_names") as [->|Hprev]; cbv beta iota in H.
  { repeat split; try done. intros Hin. simpl in Hin. intuition discriminate. }
  destruct (in_strings k ["homepage"; "readme"; "issues"; "donate"; "buy"]) eqn:Hin;
    cbv beta iota in H.
  - outcome_of H. apply web_address_ok in H.
    repeat split; try done. by right.
  - assert (Hnot : ¬ In k ["homepage"; "readme"; "issues"; "donate"; "buy"]).
    { intros Hk. apply not_true_iff_false in Hin. destruct Hin.
      unfold in_strings. apply existsb_exists. exists k.
      split; [done|apply String.eqb_refl]. }
    repeat split; try done.
    + intros Hk. destruct Hnot. simpl in *. tauto.
    + intros ->. destruct Hnot. simpl. tauto.
Qed.

Lemma package_items_loop_values include name items reg reg' :
  package_items_loop include name items reg = (Ok tt, reg') →
  Forall (λ kv, accepted_package_value kv.1 kv.2) items.
Proof.
  revert reg. induction items as [|[k v] items IH]; intros reg H; [constructor|].
  cbn [package_items_loop] in H. check_unfold H.
  check_head H as u Hitem. destruct u.
  constructor; [by eapply package_item_value|by eapply IH].
Qed.

End PackageFacts.

(** A package that passes is an object, and all its values are
    accepted: every key is one of the twelve keys of a package and its
    value has a type of that key; [details] matches the pattern of the
    details; [homepage], [readme], [issues] and [buy] start with [http://]
    or [https://], and so does [donate] unless it is [null]; [author] is a
    string or a list of strings; [labels] are strings without a comma, none
    of them twice. *)
Theorem accepted_package_values
    (include : string) (data : json) (reg reg' : registry) :
  _test_package include data reg = (Ok tt, reg') →
  ∃ kvs, data = JObj kvs ∧ Forall (λ kv, accepted_package_value kv.1 kv.2) kvs.
Proof.
  intros H. unfold _test_package in H. RegistryFacts.check_unfold H.
  check_head H as name Hname.
  check_head H as items Hitems.
  check_head H as u Hloop. destruct u.
  destruct data; try discriminate. injection Hitems as <-.
  exists kvs. split; [done|]. by eapply PackageFacts.package_items_loop_values.
Qed.

Lemma accepted_package_values_witness :
  ∃ kvs,
    JObj [("name", JStr "Alignment");
          ("details", JStr "https://github.com/wbond/sublime_alignment");
          ("author", JList [JStr "wbond"]);
          ("labels", JList [JStr "formatting"; JStr "text manipulation"]);
          ("donate", JNull);
          ("releases", JList [])]
    = JObj kvs
    ∧ Forall (λ kv, accepted_package_value kv.1 kv.2) kvs.
Proof.
  apply (accepted_package_values "./repository/a.json" _ setUpClass setUpClass).
  vm_compute. reflexivity.
Defined.

(** The name of a package that passes, given or taken from [details], is
    a string that holds none of the characters refused in the name of a
    folder, does not start with a dot and is not the name of a default
    package; and a package without [details] has the keys [name],
    [homepage], [author] and [releases]. *)
Theorem accepted_package_name
    (include : string) (data : json) (reg reg' : registry) :
  _test_package include data reg = (Ok tt, reg') →
  ∃ kvs name,
    data = JObj kvs
    ∧ get_package_name data = Ok (JStr name)
    ∧ Forall valid_name_char (list_ascii_of_string name)
    ∧ Text.startswith "." name = false
    ∧ ¬ In name default_packages
    ∧ (Py.has_key "details" kvs = false →
       Forall (λ key, Py.has_key key kvs = true)
              ["name"; "homepage"; "author"; "releases"]).
Proof.
  intros H. unfold _test_package in H. RegistryFacts.check_unfold H.
  check_head H as name Hname.
  check_head H as items Hitems.
  check_head H as u Hloop. destruct u.
  destruct data; try discriminate. injection Hitems as <-.
  PackageFacts.outcome_of H.
  bind_inv H as u1 Hchars. bind_inv H as u2 Hdot.
  destruct name as [| | | |name| |]; try discriminate.
  apply OutcomeFacts.outcome_unit, OutcomeFacts.assertFalse_ok in Hchars.
  bind_inv Hdot as u3 Hstart. destruct u2, u3.
  apply OutcomeFacts.assertFalse_ok in Hstart, Hdot.
  exists kvs, name. repeat split; try done.
  - by apply PackageFacts.valid_name_chars.
  - intros Hin. apply not_true_iff_false in Hdot. destruct Hdot.
    unfold in_strings. apply existsb_exists. exists name.
    split; [done|apply String.eqb_refl].
  - intros Hdetails. cbn [Py.contains mbind outcome_bind] in H.
    rewrite Hdetails in H. apply OutcomeFacts.for_each_ok in H.
    eapply Forall_impl; [exact H|]. intros key Hkey.
    apply OutcomeFacts.assertIn_ok in Hkey. by injection Hkey.
Qed.

Lemma accepted_package_name_witness :
  ∃ kvs name,
    JObj [("details", JStr "https://github.com/wbond/sublime_alignment");
          ("releases", JList [])]
    = JObj kvs
    ∧ get_package_name
        (JObj [("details", JStr "https://github.com/wbond/sublime_alignment");
               ("releases", JList [])])
      = Ok (JStr name)
    ∧ Forall valid_name_char (list_ascii_of_string name)
    ∧ Text.startswith "." name = false
    ∧ ¬ In name default_packages
    ∧ (Py.has_key "details" kvs = false →
       Forall (λ key, Py.has_key key kvs = true)
              ["name"; "homepage"; "author"; "releases"]).
Proof.
  apply (accepted_package_name "./repository/s.json" _ setUpClass setUpClass).
  vm_compute. reflexivity.
Defined.

Module ReleaseFacts2.
Import OutcomeFacts.

Lemma release_item_tags data dependency v :
  release_item data dependency "tags" v = Ok tt
  ↔ v = JBool true ∨ ∃ s, v = JStr s ∧ s ≠ "" ∧ s ≠ "true".
Proof.
  unfold release_item.
  replace (enforce_key_types_map "tags" v
             (if dependency then dep_release_key_types_map
              else pck_release_key_types_map))
    with (assertTrue (isinstance v (Tuple [Tbool; Tstr])) (NotAnInstance "tags"))
    by (destruct dependency, v; reflexivity).
  cbn [String.eqb Ascii.eqb Bool.eqb].
  destruct v as [| [] | | |s| |]; cbn; try (split; [discriminate|]).
  all: try (intros [|(? & ? & _)]; discriminate).
  - split; [by left| done].
  - destruct (String.eqb_spec s "") as [->|Hs]; cbn.
    + split; [discriminate|]. intros [|(? & [= <-] & ? & _)]; done.
    + destruct (String.eqb_spec s "true") as [->|Ht]; cbn.
      * split; [discriminate|]. intros [|(? & [= <-] & _ & ?)]; done.
      * split; [|done]. intros _. right. eauto.
Qed.

Lemma release_item_branch data dependency v :
  release_item data dependency "branch" v = Ok tt ↔ ∃ s, v = JStr s ∧ s ≠ "".
Proof.
  unfold release_item.
  replace (enforce_key_types_map "branch" v
             (if dependency then dep_release_key_types_map
              else pck_release_key_types_map))
    with (assertTrue (isinstance v (One Tstr)) (NotAnInstance "branch"))
    by (destruct dependency, v; reflexivity).
  cbn [String.eqb Ascii.eqb Bool.eqb].
  destruct v as [| [] | | |s| |]; cbn; try (split; [discriminate|]).
  all: try (intros (? & ? & _); discriminate).
  destruct (String.eqb_spec s "") as [->|Hs]; cbn.
  - split; [discriminate|]. intros (? & [= <-] & ?); done.
  - split; [|done]. intros _. eauto.
Qed.

End ReleaseFacts2.

(** In a release that passes, [tags] is [true] or a string that is neither
    empty nor "true", and [branch] is a string that is not empty; and these
    are the only values the check of the values lets through for the two
    keys. *)
Theorem accepted_tags_and_branch :
  (∀ name data dependency main_repo,
     _test_release name data dependency main_repo = Ok tt →
     ∃ kvs, data = JObj kvs
       ∧ (∀ v, In ("tags", v) kvs →
            v = JBool true ∨ ∃ s, v = JStr s ∧ s ≠ "" ∧ s ≠ "true")
       ∧ (∀ v, In ("branch", v) kvs → ∃ s, v = JStr s ∧ s ≠ ""))
  ∧ (∀ dependency v,
       check_release_key_values (JObj [("tags", v)]) dependency = Ok tt
       ↔ v = JBool true ∨ ∃ s, v = JStr s ∧ s ≠ "" ∧ s ≠ "true")
  ∧ (∀ dependency v,
       check_release_key_values (JObj [("branch", v)]) dependency = Ok tt
       ↔ ∃ s, v = JStr s ∧ s ≠ "").
Proof.
  split; [|split].
  - intros name data dependency main_repo H.
    apply ReleaseFacts.test_release_object in H as (kvs & -> & Hall).
    exists kvs. split; [done|]. rewrite Forall_forall in Hall.
    split; intros v Hin; apply list_elem_of_In, Hall in Hin; cbn [fst snd] in Hin.
    + by apply ReleaseFacts2.release_item_tags in Hin.
    + by apply ReleaseFacts2.release_item_branch in Hin.
  - intros dependency v.
    rewrite <- (ReleaseFacts2.release_item_tags (JObj [("tags", v)]) dependency v).
    unfold check_release_key_values. cbn [Py.items mbind outcome_bind for_each fst snd].
    destruct (release_item _ dependency "tags" v) as [[]|]; cbn; split; done.
  - intros dependency v.
    rewrite <- (ReleaseFacts2.release_item_branch (JObj [("branch", v)]) dependency v).
    unfold check_release_key_values. cbn [Py.items mbind outcome_bind for_each fst snd].
    destruct (release_item _ dependency "branch" v) as [[]|]; cbn; split; done.
Qed.

Lemma accepted_tags_and_branch_witness :
  ∃ kvs,
    JObj [("sublime_text", JStr "*"); ("tags", JStr "st3-")] = JObj kvs
    ∧ (∀ v, In ("tags", v) kvs →
         v = JBool true ∨ ∃ s, v = JStr s ∧ s ≠ "" ∧ s ≠ "true")
    ∧ (∀ v, In ("branch", v) kvs → ∃ s, v = JStr s ∧ s ≠ "").
Proof.
  apply (proj1 accepted_tags_and_branch "Example (./repository/e.json)" _ false true).
  vm_compute. reflexivity.
Defined.

(** A release that is not checked for the main repository passes only
    if it is an object with the key [sublime_text], with the key
    [platforms] when it is the release of a dependency, and either with
    exactly one of [tags] and [branch] and none of [url], [version] and
    [date], or with neither [tags] nor [branch] and with [url] and
    [version], and [date] too when it is the release of a package. *)
Theorem release_shape_outside_main_repository
    (name : string) (data : json) (dependency : bool) :
  _test_release name data dependency false = Ok tt →
  ∃ kvs, data = JObj kvs
    ∧ Py.has_key "sublime_text" kvs = true
    ∧ (dependency = true → Py.has_key "platforms" kvs = true)
    ∧ ((xorb (Py.has_key "tags" kvs) (Py.has_key "branch" kvs) = true
        ∧ Py.has_key "url" kvs = false
        ∧ Py.has_key "version" kvs = false
        ∧ Py.has_key "date" kvs = false)
       ∨ (Py.has_key "tags" kvs = false
          ∧ Py.has_key "branch" kvs = false
          ∧ Py.has_key "url" kvs = true
          ∧ Py.has_key "version" kvs = true
          ∧ (dependency = false → Py.has_key "date" kvs = true))).
Proof.
  intros H.
  destruct (ReleaseFacts.test_release_object _ _ _ _ H) as (kvs & -> & _).
  exists kvs. split; [done|].
  unfold _test_release in H.
  bind_inv H as u1 Hshape. bind_inv H as u2 Hsublime. bind_inv H as u3 Hplatforms.
  bind_inv H as has_tags Htags. bind_inv H as has_branch Hbranch.
  bind_inv H as u4 Honly. clear H. destruct u1, u2, u3, u4.
  cbn [Py.contains] in *. injection Htags as <-. injection Hbranch as <-.
  apply OutcomeFacts.assertFalse_ok in Honly.
  apply OutcomeFacts.assertIn_ok in Hsublime. injection Hsublime as Hsublime.
  split; [done|]. split.
  { intros ->. apply OutcomeFacts.assertIn_ok in Hplatforms. by injection Hplatforms. }
  cbn [mbind outcome_bind] in Hshape.
  destruct (Py.has_key "tags" kvs), (Py.has_key "branch" kvs);
    try discriminate; cbn [negb andb] in Hshape.
  1,2: left; apply OutcomeFacts.for_each_ok in Hshape;
       rewrite !Forall_cons in Hshape; destruct Hshape as (Hu & Hv & Hd & _);
       apply OutcomeFacts.assertNotIn_ok in Hu, Hv, Hd;
       injection Hu as ->; injection Hv as ->; injection Hd as ->; done.
  right. destruct dependency; apply OutcomeFacts.for_each_ok in Hshape;
    rewrite !Forall_cons in Hshape.
  - destruct Hshape as (Hu & Hv & _).
    apply OutcomeFacts.assertIn_ok in Hu, Hv.
    injection Hu as ->; injection Hv as ->. done.
  - destruct Hshape as (Hu & Hv & Hd & _).
    apply OutcomeFacts.assertIn_ok in Hu, Hv, Hd.
    injection Hu as ->; injection Hv as ->; injection Hd as ->. done.
Qed.

Lemma release_shape_outside_main_repository_witness :
  ∃ kvs,
    JObj [("sublime_text", JStr ">=3000"); ("platforms", JStr "*");
          ("url", JStr "https://example.com/lib.zip"); ("version", JStr "1.0.0")]
    = JObj kvs
    ∧ Py.has_key "sublime_text" kvs = true
    ∧ (true = true → Py.has_key "platforms" kvs = true)
    ∧ ((xorb (Py.has_key "tags" kvs) (Py.has_key "branch" kvs) = true
        ∧ Py.has_key "url" kvs = false
        ∧ Py.has_key "version" kvs = false
        ∧ Py.has_key "date" kvs = false)
       ∨ (Py.has_key "tags" kvs = false
          ∧ Py.has_key "branch" kvs = false
          ∧ Py.has_key "url" kvs = true
          ∧ Py.has_key "version" kvs = true
          ∧ (true = false → Py.has_key "date" kvs = true))).
Proof.
  apply (release_shape_outside_main_repository "lib (https://example.com/packages.json)").
  vm_compute. reflexivity.
Defined.

(** The release of a dependency checked for the main repository passes
    only if it is an object with the keys [sublime_text] and [platforms],
    without both [tags] and [branch], and either with [base] and one of
    [tags] and [branch], or with [sha256] and with no [url] other than a
    string that starts with [http://]. *)
Theorem dependency_release_shape_in_main_repository (name : string) (data : json) :
  _test_release name data true true = Ok tt →
  ∃ kvs, data = JObj kvs
    ∧ Py.has_key "sublime_text" kvs = true
    ∧ Py.has_key "platforms" kvs = true
    ∧ (Py.has_key "tags" kvs && Py.has_key "branch" kvs = false)
    ∧ ((Py.has_key "base" kvs = true
        ∧ xorb (Py.has_key "tags" kvs) (Py.has_key "branch" kvs) = true)
       ∨ (Py.has_key "sha256" kvs = true
          ∧ ∀ url, Py.assoc "url" kvs = Some url →
              ∃ s, url = JStr s ∧ Text.startswith "http://" s = true)).
Proof.
  intros H.
  destruct (ReleaseFacts.test_release_object _ _ _ _ H) as (kvs & -> & Hvalues).
  exists kvs. split; [done|].
  unfold _test_release in H.
  bind_inv H as u1 Hshape. bind_inv H as u2 Hsublime. bind_inv H as u3 Hplatforms.
  bind_inv H as has_tags Htags. bind_inv H as has_branch Hbranch.
  bind_inv H as u4 Honly. clear H. destruct u1, u2, u3, u4.
  cbn [Py.contains] in *. injection Htags as <-. injection Hbranch as <-.
  apply OutcomeFacts.assertFalse_ok in Honly.
  apply OutcomeFacts.assertIn_ok in Hsublime, Hplatforms.
  injection Hsublime as Hsublime. injection Hplatforms as Hplatforms.
  repeat (split; [done|]).
  cbn [mbind outcome_bind] in Hshape.
  bind_inv Hshape as condition Hcondition.
  apply OutcomeFacts.assertTrue_ok in Hshape as ->.
  destruct (Py.has_key "base" kvs && (Py.has_key "tags" kvs || Py.has_key "branch" kvs))
    eqn:Hbase.
  - left. apply andb_true_iff in Hbase as [-> Hone]. split; [done|].
    destruct (Py.has_key "tags" kvs), (Py.has_key "branch" kvs); done.
  - right. destruct (Py.has_key "sha256" kvs); [|discriminate]. split; [done|].
    intros url Hurl. unfold Py.has_key in Hcondition. rewrite Hurl in Hcondition.
    unfold url_startswith_http in Hcondition.
    cbn [Py.getitem mbind outcome_bind] in Hcondition. rewrite Hurl in Hcondition.
    destruct url; try discriminate. injection Hcondition as Hs. eauto.
Qed.

Lemma dependency_release_shape_in_main_repository_witness :
  ∃ kvs,
    JObj [("base", JStr "https://github.com/example/lib"); ("tags", JBool true);
          ("sublime_text", JStr "*"); ("platforms", JList [JStr "*"])]
    = JObj kvs
    ∧ Py.has_key "sublime_text" kvs = true
    ∧ Py.has_key "platforms" kvs = true
    ∧ (Py.has_key "tags" kvs && Py.has_key "branch" kvs = false)
    ∧ ((Py.has_key "base" kvs = true
        ∧ xorb (Py.has_key "tags" kvs) (Py.has_key "branch" kvs) = true)
       ∨ (Py.has_key "sha256" kvs = true
          ∧ ∀ url, Py.assoc "url" kvs = Some url →
              ∃ s, url = JStr s ∧ Text.startswith "http://" s = true)).
Proof.
  apply (dependency_release_shape_in_main_repository "lib (./repository/dependencies.json)").
  vm_compute. reflexivity.
Defined.

Module PyFacts.

(** The value that a look-up finds is the value of an item. *)
Lemma assoc_In k v kvs : Py.assoc k kvs = Some v → In (k, v) kvs.
Proof.
  induction kvs as [|[k' v'] kvs IH]; [done|]. cbn [Py.assoc].
  destruct (String.eqb_spec k k') as [<-|_].
  - intros [= ->]. by left.
  - intros H. right. by apply IH.
Qed.

End PyFacts.

Module SelectorFacts.
Import Re Words ReFacts PatternFacts OutcomeFacts PlatformFacts.

Lemma lang_times_digit n s : lang (times n digit) s ↔ digits n s.
Proof.
  revert s. induction n as [|n IH]; intros s; cbn [times].
  - split.
    + intros ->. split; [done|constructor].
    + intros [Hlen _]. by destruct s.
  - rewrite lang_cat. split.
    + intros (a & b & -> & (c & -> & Hc) & Hb). apply IH in Hb as [Hlen Hall].
      split; [by rewrite <- Hlen|]. by constructor.
    + intros [Hlen Hall]. destruct s as [|c s]; [done|].
      injection Hlen as Hlen. apply Forall_cons in Hall as [Hc Hall].
      exists (String c ""), s. split; [done|]. split; [by exists c|].
      by apply IH.
Qed.

Lemma sublime_text_regex_shape s :
  search_anchored Patterns.sublime_text_regex s = true ↔ sublime_text_shape s.
Proof.
  unfold search_anchored, sublime_text_shape. rewrite fullmatch_lang. split.
  - intros H. apply lang_cat in H as (selector & tail & -> & Hsel & Htail).
    exists selector. split.
    { apply lang_opt in Htail as [Htail| ->].
      - apply lang_chr in Htail as ->. by right.
      - left. by rewrite app_nil_r. }
    clear Htail. unfold Patterns.sublime_text_regex in Hsel.
    cbn [seq alts opt] in Hsel.
    destruct Hsel as [Hsel|[Hsel|[Hsel|[Hsel|[]]]]].
    + apply lang_chr in Hsel as ->. by left.
    + right. left.
      apply lang_cat in Hsel as (a & r1 & -> & Ha & Hsel). apply lang_chr in Ha as ->.
      apply lang_cat in Hsel as (b & r2 & -> & Hb & Hsel).
      apply lang_cat in Hsel as (version & e & -> & Hv & ->).
      rewrite app_nil_r. apply lang_times_digit in Hv.
      apply lang_opt in Hb as [Hb| ->].
      * apply lang_chr in Hb as ->. exists "<=", version. simpl. tauto.
      * exists "<", version. simpl. tauto.
    + right. left.
      apply lang_cat in Hsel as (a & r1 & -> & Ha & Hsel). apply lang_chr in Ha as ->.
      apply lang_cat in Hsel as (b & r2 & -> & Hb & Hsel).
      apply lang_cat in Hsel as (version & e & -> & Hv & ->).
      rewrite app_nil_r. apply lang_times_digit in Hv.
      apply lang_opt in Hb as [Hb| ->].
      * apply lang_chr in Hb as ->. exists ">=", version. simpl. tauto.
      * exists ">", version. simpl. tauto.
    + right. right.
      apply lang_cat in Hsel as (low & r1 & -> & Hlow & Hsel).
      apply lang_cat in Hsel as (dash & r2 & -> & Hdash & Hsel).
      apply lang_cat in Hsel as (high & e & -> & Hhigh & ->).
      apply lang_lit in Hdash as ->. rewrite app_nil_r.
      apply lang_times_digit in Hlow, Hhigh. by exists low, high.
  - intros (selector & Hs & Hsel).
    assert (Hlang : lang Patterns.sublime_text_regex selector).
    { unfold Patterns.sublime_text_regex. cbn [seq alts opt].
      destruct Hsel as [->|[(relation & version & Hrel & Hv & ->)|(low & high & Hl & Hh & ->)]].
      - left. by apply lang_chr.
      - apply lang_times_digit in Hv. simpl in Hrel.
        destruct Hrel as [<-|[<-|[<-|[<-|[]]]]].
        + right. left. exists "<", version. split; [done|]. split; [by apply lang_chr|].
          exists "", version. split; [done|]. split; [by right|].
          exists version, "". by rewrite app_nil_r.
        + right. left. exists "<", ("=" +:+ version). split; [done|]. split; [by apply lang_chr|].
          exists "=", version. split; [done|]. split; [left; by apply lang_chr|].
          exists version, "". by rewrite app_nil_r.
        + right. right. left. exists ">", version. split; [done|]. split; [by apply lang_chr|].
          exists "", version. split; [done|]. split; [by right|].
          exists version, "". by rewrite app_nil_r.
        + right. right. left. exists ">", ("=" +:+ version). split; [done|]. split; [by apply lang_chr|].
          exists "=", version. split; [done|]. split; [left; by apply lang_chr|].
          exists version, "". by rewrite app_nil_r.
      - apply lang_times_digit in Hl, Hh. right. right. right. left.
        exists low, (" - " +:+ high). split; [done|]. split; [done|].
        exists " - ", high. split; [done|]. split; [by apply lang_lit|].
        exists high, "". by rewrite app_nil_r. }
    apply lang_cat. destruct Hs as [-> | ->].
    + exists selector, "". rewrite app_nil_r. repeat split; [done|by right].
    + exists selector, (String Text.LF ""). repeat split; [done|].
      left. by apply lang_chr.
Qed.

Lemma release_item_sublime_text data dependency v :
  release_item data dependency "sublime_text" v = Ok tt
  ↔ ∃ s, v = JStr s ∧ sublime_text_shape s.
Proof.
  unfold release_item.
  replace (enforce_key_types_map "sublime_text" v
             (if dependency then dep_release_key_types_map
              else pck_release_key_types_map))
    with (assertTrue (isinstance v (One Tstr)) (NotAnInstance "sublime_text"))
    by (destruct dependency, v; reflexivity).
  cbn [String.eqb Ascii.eqb Bool.eqb].
  destruct v as [| [] | | |s| |]; cbn [isinstance isinstance1 assertTrue mbind outcome_bind];
    try (split; [discriminate|by intros (? & ? & _)]).
  rewrite assertRegex_ok. split.
  - intros (? & [= <-] & H). exists s. split; [done|]. by apply sublime_text_regex_shape.
  - intros (? & [= <-] & H). exists s. split; [done|]. by apply sublime_text_regex_shape.
Qed.

End SelectorFacts.

(** A release that passes has a key [sublime_text], and its value is a
    string of one of these forms, alone or followed by one line feed: a
    star; one of the relations <, <=, > and >= and a version of four
    digits; two versions of four digits around " - ".  No other value of the
    key passes the check of the values. *)
Theorem accepted_sublime_text :
  (∀ name data dependency main_repo,
     _test_release name data dependency main_repo = Ok tt →
     ∃ kvs selector,
       data = JObj kvs
       ∧ Py.assoc "sublime_text" kvs = Some (JStr selector)
       ∧ sublime_text_shape selector)
  ∧ (∀ dependency v,
       check_release_key_values (JObj [("sublime_text", v)]) dependency = Ok tt
       ↔ ∃ s, v = JStr s ∧ sublime_text_shape s).
Proof.
  split.
  - intros name data dependency main_repo H.
    destruct (ReleaseFacts.test_release_object _ _ _ _ H) as (kvs & -> & Hall).
    unfold _test_release in H. bind_inv H as u1 Hshape. bind_inv H as u2 Hsublime.
    clear H Hshape. destruct u2. apply OutcomeFacts.assertIn_ok in Hsublime.
    injection Hsublime as Hsublime. unfold Py.has_key in Hsublime.
    destruct (Py.assoc "sublime_text" kvs) as [v|] eqn:Hv; [|done].
    pose proof (PyFacts.assoc_In _ _ _ Hv) as Hin.
    rewrite Forall_forall in Hall. apply list_elem_of_In, Hall in Hin.
    cbn [fst snd] in Hin.
    apply SelectorFacts.release_item_sublime_text in Hin as (s & -> & Hs).
    by exists kvs, s.
  - intros dependency v.
    rewrite <- (SelectorFacts.release_item_sublime_text
                  (JObj [("sublime_text", v)]) dependency v).
    unfold check_release_key_values. cbn [Py.items mbind outcome_bind for_each fst snd].
    destruct (release_item _ dependency "sublime_text" v) as [[]|]; cbn; split; done.
Qed.

Lemma accepted_sublime_text_witness :
  ∃ kvs selector,
    JObj [("sublime_text", JStr "3000 - 3999"); ("branch", JStr "master")] = JObj kvs
    ∧ Py.assoc "sublime_text" kvs = Some (JStr selector)
    ∧ sublime_text_shape selector.
Proof.
  apply (proj1 accepted_sublime_text "Example (./repository/e.json)" _ false true).
  vm_compute. reflexivity.
Defined.

Module VerdictFacts.

Lemma bind_accepted {A B} (m : verdict A) (k : A → verdict B) b :
  m ≫= k = Accepted b ↔ ∃ a, m = Accepted a ∧ k a = Accepted b.
Proof.
  destruct m as [a|f|e]; cbn.
  - split; [eauto|]. by intros (? & [= <-] & ?).
  - split; [done|]. by intros (? & ? & _).
  - split; [done|]. by intros (? & ? & _).
Qed.

Lemma bind_refused {A B} (m : verdict A) (k : A → verdict B) f :
  m ≫= k = Refused f ↔ m = Refused f ∨ ∃ a, m = Accepted a ∧ k a = Refused f.
Proof.
  destruct m as [a|f'|e]; cbn.
  - split; [by right; eauto|]. by intros [|(? & [= <-] & ?)].
  - split; [intros [= ->]; by left|]. by intros [[= ->]|(? & ? & _)].
  - split; [done|]. by intros [|(? & ? & _)].
Qed.

Lemma of_outcome_accepted {A} (o : outcome A) a :
  of_outcome o = Accepted a ↔ o = Ok a.
Proof. destruct o; cbn; split; congruence. Qed.

Lemma of_outcome_refused {A} (o : outcome A) f : of_outcome o ≠ Refused f.
Proof. by destruct o. Qed.

Lemma require_accepted condition f u :
  require condition f = Accepted u ↔ condition = Ok true.
Proof. destruct u, condition as [[]|]; cbn; split; congruence. Qed.

Lemma require_true b f u : require (Ok b) f = Accepted u ↔ b = true.
Proof. destruct u, b; cbn; split; congruence. Qed.

Lemma require_refused condition f f' :
  require condition f = Refused f' ↔ condition = Ok false ∧ f' = f.
Proof.
  destruct condition as [[]|]; cbn; split; try congruence; try by intros [? _].
  - by intros [= ->].
  - by intros [_ ->].
Qed.

Lemma each_accepted {A} (xs : list A) (body : A → verdict unit) u :
  each xs body = Accepted u ↔ Forall (λ x, body x = Accepted tt) xs.
Proof.
  destruct u. induction xs as [|x xs IH]; cbn [each].
  - split; [constructor|done].
  - rewrite Forall_cons, <- IH, bind_accepted. split.
    + by intros ([] & ? & ?).
    + intros [? ?]. by exists tt.
Qed.

Lemma each_refused {A} (xs : list A) (body : A → verdict unit) f :
  each xs body = Refused f → ∃ x, In x xs ∧ body x = Refused f.
Proof.
  induction xs as [|x xs IH]; cbn [each]; [done|].
  rewrite bind_refused. intros [H|(_ & _ & H)].
  - exists x. split; [by left|done].
  - destruct (IH H) as (y & Hy & Hf). exists y. split; [by right|done].
Qed.

End VerdictFacts.

(** Splits a hypothesis [m ≫= k = Accepted b] into [m = Accepted a] and
    [k a = Accepted b]. *)
Tactic Notation "accepted_inv" hyp(H) "as" ident(a) ident(Ha) :=
  apply VerdictFacts.bind_accepted in H as (a & Ha & H).

Module KeysFacts.
Import VerdictFacts.

Lemma keys_present_object keys kvs :
  keys_present keys (JObj kvs) = Ok (filter (λ k, Py.has_key k kvs = true) keys).
Proof.
  induction keys as [|k keys IH]; [done|]. cbn [keys_present Py.contains mbind outcome_bind].
  rewrite IH. cbn [mbind outcome_bind]. rewrite filter_cons.
  destruct (Py.has_key k kvs); [by rewrite decide_True|by rewrite decide_False].
Qed.

Lemma in_tuple_In k keys : in_tuple k keys = true ↔ ∃ s, k = JStr s ∧ In s keys.
Proof.
  unfold in_tuple. rewrite existsb_exists. split.
  - intros (s & Hs & Heq). destruct k; try discriminate. simpl in Heq.
    apply String.eqb_eq in Heq as ->. eauto.
  - intros (s & -> & Hs). exists s. split; [done|]. simpl. apply String.eqb_refl.
Qed.

Lemma has_key_assoc k kvs : Py.has_key k kvs = true ↔ ∃ v, Py.assoc k kvs = Some v.
Proof.
  unfold Py.has_key. destruct (Py.assoc k kvs) as [v|].
  - split; [eauto|done].
  - split; [done|]. by intros [? ?].
Qed.

Lemma eq_str_eq v s : Py.eq_str v s = true ↔ v = JStr s.
Proof.
  destruct v; simpl; try (split; discriminate).
  rewrite String.eqb_eq. split; congruence.
Qed.

Lemma is_list v : isinstance1 v Tlist = true ↔ ∃ l, v = JList l.
Proof. destruct v; simpl; (split; [try done; eauto|try done; by intros [? ?]]). Qed.

Lemma is_str v : isinstance1 v Tstr = true ↔ ∃ s, v = JStr s.
Proof. destruct v; simpl; (split; [try done; eauto|try done; by intros [? ?]]). Qed.

Lemma test_repository_keys_object filename data u :
  _test_repository_keys filename data = Accepted u → ∃ kvs, data = JObj kvs.
Proof.
  unfold _test_repository_keys. intros H.
  accepted_inv H as n Hn. accepted_inv H as u1 Hnumber. accepted_inv H as u2 Hfound.
  accepted_inv H as schema Hschema. apply of_outcome_accepted in Hschema.
  destruct data; try discriminate. eauto.
Qed.

Lemma filter_present keys kvs :
  (0 <? length (filter (λ k, Py.has_key k kvs = true) keys))%nat = true
  ↔ ∃ k, In k keys ∧ Py.has_key k kvs = true.
Proof.
  rewrite Nat.ltb_lt. split.
  - intros Hlen. destruct (filter _ keys) as [|k l] eqn:E; [simpl in Hlen; lia|].
    assert (Hk : k ∈ filter (λ k, Py.has_key k kvs = true) keys)
      by (rewrite E; apply list_elem_of_here).
    apply list_elem_of_filter in Hk as [Hk Hin]. exists k.
    split; [by apply list_elem_of_In|done].
  - intros (k & Hin & Hk).
    assert (Hf : k ∈ filter (λ k, Py.has_key k kvs = true) keys).
    { apply list_elem_of_filter. split; [done|by apply list_elem_of_In]. }
    destruct (filter _ keys); [by apply not_elem_of_nil in Hf|simpl; lia].
Qed.

Lemma test_repository_keys_iff filename kvs :
  _test_repository_keys filename (JObj kvs) = Accepted tt ↔ accepted_document kvs.
Proof.
  unfold _test_repository_keys, accepted_document.
  cbn [len Py.contains Py.getitem Py.iter get_or]. rewrite keys_present_object.
  cbn [of_outcome mbind verdict_bind].
  split.
  - intros H.
    accepted_inv H as u1 Hnumber. apply require_true in Hnumber. apply andb_true_iff in Hnumber as [Hlo Hhi].
    change ((2 <=? length kvs)%nat = true) in Hlo.
    change ((length kvs <=? 5)%nat = true) in Hhi.
    apply Nat.leb_le in Hlo, Hhi.
    accepted_inv H as u2 Hfound. apply require_true in Hfound. unfold Py.has_key in Hfound.
    destruct (Py.assoc "schema_version" kvs) as [schema|] eqn:Hschema; [|done].
    cbn [of_outcome mbind verdict_bind] in H.
    accepted_inv H as u3 Heq. apply require_true in Heq. apply eq_str_eq in Heq as ->.
    accepted_inv H as u4 Hsome. apply require_true in Hsome. apply filter_present in Hsome.
    accepted_inv H as u5 Hlists. apply each_accepted in Hlists.
    accepted_inv H as u6 Hknown. apply each_accepted in Hknown.
    accepted_inv H as u7 Hislist. clear Hislist.
    repeat split; try done.
    + intros k v Hk Hv. rewrite Forall_forall in Hlists.
      assert (Hin : k ∈ filter (λ k, Py.has_key k kvs = true)
                           ["packages"; "dependencies"; "includes"]).
      { apply list_elem_of_filter. split; [|by apply list_elem_of_In].
        apply has_key_assoc. eauto. }
      apply Hlists in Hin. rewrite Hv in Hin. cbn [of_outcome mbind verdict_bind] in Hin.
      apply require_true in Hin. by apply is_list.
    + rewrite Forall_map in Hknown. eapply Forall_impl; [exact Hknown|].
      intros [k v] Hk. cbn [fst] in Hk. apply require_true in Hk. by apply in_tuple_In in Hk as (? & [= <-] & ?).
    + intros l Hl. rewrite Hl in H. cbn [default of_outcome mbind verdict_bind Py.iter] in H. apply each_accepted in H.
      eapply Forall_impl; [exact H|]. intros include Hinclude. 
      apply require_true in Hinclude.
      by apply is_str.
  - intros ((Hlo & Hhi) & Hschema & Hsome & Hlists & Hknown & Hincludes).
    apply bind_accepted. exists tt. split.
    { apply require_true. apply andb_true_iff.
      split; apply Nat.leb_le; [done|simpl; lia]. }
    apply bind_accepted. exists tt. split.
    { apply require_true. apply has_key_assoc. eauto. }
    rewrite Hschema. cbn [of_outcome mbind verdict_bind].
    apply bind_accepted. exists tt. split; [by apply require_true|].
    apply bind_accepted. exists tt. split.
    { apply require_true. by apply filter_present. }
    apply bind_accepted. exists tt. split.
    { apply each_accepted, Forall_forall. intros k Hk.
      apply list_elem_of_filter in Hk as [Hpresent Hk].
      apply has_key_assoc in Hpresent as [v Hv]. rewrite Hv. cbn [of_outcome mbind verdict_bind].
      apply require_true. apply is_list.
      apply (Hlists k v); [by apply list_elem_of_In|done]. }
    apply bind_accepted. exists tt. split.
    { apply each_accepted. rewrite Forall_map. eapply Forall_impl; [exact Hknown|].
      intros [k v] Hk. cbn [fst]. apply require_true.
      apply in_tuple_In. eauto. }
    destruct (Py.assoc "includes" kvs) as [includes|] eqn:Hinc;
      cbn [default of_outcome mbind verdict_bind].
    + destruct (Hlists "includes" includes) as [l ->]; [simpl; tauto|done|].
      cbn [isinstance1 require Py.iter of_outcome mbind verdict_bind].
      apply each_accepted. eapply Forall_impl; [exact (Hincludes l eq_refl)|].
      intros include Hinclude. apply require_true. by apply is_str.
    + done.
Qed.

(** The assertion that [includes] is a list, the last but one of
    [_test_repository_keys], never fails: when it is reached, the value of
    [includes] has been found a list, or the key is absent. *)
Lemma includes_are_a_list filename data :
  _test_repository_keys filename data ≠ Refused IncludesNotAList.
Proof.
  unfold _test_repository_keys. intros H.
  repeat (apply bind_refused in H as [H|(? & ? & H)];
          [first [ by apply of_outcome_refused in H
                 | by apply require_refused in H as [_ [=]]
                 | apply each_refused in H as (? & _ & H);
                   repeat (apply bind_refused in H as [H|(? & _ & H)];
                           [by apply of_outcome_refused in H|]);
                   by apply require_refused in H as [_ [=]]
                 | idtac ]|]).
  - apply require_refused in H as [[= Hnot] _].
    match goal with H : of_outcome (Py.getitem _ data) = _ |- _ =>
      apply of_outcome_accepted in H; destruct data as [| | | | | |kvs]; try discriminate
    end.
    repeat match goal with
           | H : of_outcome _ = Accepted _ |- _ => apply of_outcome_accepted in H
           end.
    match goal with H : keys_present _ _ = _ |- _ =>
      rewrite keys_present_object in H; injection H as <- end.
    match goal with H : get_or _ _ _ = _ |- _ => cbn [get_or] in H; injection H as <- end.
    match goal with H : each (filter _ _) _ = _ |- _ =>
      apply each_accepted in H; rewrite Forall_forall in H; rename H into Hlists end.
    destruct (Py.assoc "includes" kvs) as [v|] eqn:Hv; [|done].
    assert (Hin : "includes" ∈ filter (λ k, Py.has_key k kvs = true)
                                 ["packages"; "dependencies"; "includes"]).
    { apply list_elem_of_filter. split; [apply has_key_assoc; eauto|].
      apply list_elem_of_In. simpl. tauto. }
    apply Hlists in Hin. cbn [Py.getitem] in Hin. rewrite Hv in Hin.
    cbn [of_outcome mbind verdict_bind] in Hin. apply require_true in Hin.
    change (isinstance1 v Tlist = false) in Hnot. congruence.
  - apply each_refused in H as (? & _ & H).
    by apply require_refused in H as [_ [=]].
Qed.

End KeysFacts.

(** [_test_repository_keys] passes exactly on an object of two to five
    items that gives "3.0.0" to [schema_version], has one at least of the
    keys [packages], [dependencies] and [includes], each with a list, has
    no key outside the five keys of a repository, and whose includes are
    strings. *)
Theorem repository_keys_accepted (filename : string) (data : json) :
  _test_repository_keys filename data = Accepted tt
  ↔ ∃ kvs, data = JObj kvs ∧ accepted_document kvs.
Proof.
  split.
  - intros H. destruct (KeysFacts.test_repository_keys_object _ _ _ H) as [kvs ->].
    exists kvs. split; [done|]. by apply KeysFacts.test_repository_keys_iff in H.
  - intros (kvs & -> & H). by apply KeysFacts.test_repository_keys_iff.
Qed.

(** The edges of [_test_repository_keys].  A document that is a number,
    a Boolean or [null] raises [TypeError]; an object of fewer than two or
    more than five items fails on the number of its keys whatever it holds;
    and the assertion that the value of [includes] is a list never fails,
    as a value of [includes] that is no list has failed the assertion made
    before on the lists of the document. *)
Theorem repository_keys_edges (filename : string) :
  (∀ data, len data = Raise TypeError →
     _test_repository_keys filename data = Thrown TypeError)
  ∧ (∀ kvs, (length kvs < 2 ∨ 5 < length kvs)%nat →
       _test_repository_keys filename (JObj kvs) = Refused UnexpectedNumberOfKeys)
  ∧ (∀ data, _test_repository_keys filename data ≠ Refused IncludesNotAList).
Proof.
  split; [|split].
  - intros data H. unfold _test_repository_keys. by rewrite H.
  - intros kvs H. unfold _test_repository_keys. cbn [len of_outcome mbind verdict_bind].
    assert (((2 <=? length kvs) && (length kvs <=? length repository_keys))%nat = false)
      as ->; [|done].
    apply andb_false_iff. destruct H as [H|H].
    + left. apply Nat.leb_gt. lia.
    + right. apply Nat.leb_gt. simpl. lia.
  - intros data. apply KeysFacts.includes_are_a_list.
Qed.

Lemma repository_keys_edges_witness :
  _test_repository_keys "repository.json" JNull = Thrown TypeError
  ∧ _test_repository_keys "repository.json" (JObj [("schema_version", JStr "3.0.0")])
    = Refused UnexpectedNumberOfKeys.
Proof.
  split.
  - apply (proj1 (repository_keys_edges "repository.json")). reflexivity.
  - apply (proj1 (proj2 (repository_keys_edges "repository.json"))). simpl. lia.
Defined.

Module DependencyFacts.
Import Re Words ReFacts PatternFacts VerdictFacts KeysFacts.

Lemma load_order_regex_shape s :
  search_anchored load_order_regex s = true ↔ load_order_shape s.
Proof.
  unfold search_anchored, load_order_shape, load_order_regex.
  rewrite fullmatch_lang, lang_cat. split.
  - intros (order & tail & -> & Horder & Htail).
    apply SelectorFacts.lang_times_digit in Horder. exists order. split; [done|].
    apply lang_opt in Htail as [Htail| ->].
    + apply lang_chr in Htail as ->. by right.
    + left. by rewrite app_nil_r.
  - intros (order & Horder & Hs). apply SelectorFacts.lang_times_digit in Horder.
    destruct Hs as [-> | ->].
    + exists order, "". rewrite app_nil_r. repeat split; [done|by right].
    + exists order, (String Text.LF ""). repeat split; [done|].
      left. by apply lang_chr.
Qed.

Lemma regex_found_true found v :
  regex_found found v = Ok true ↔ ∃ s, v = JStr s ∧ found s = true.
Proof.
  destruct v; simpl; try (split; [discriminate|by intros (? & ? & _)]).
  split; [intros [= H]; eauto|]. by intros (? & [= <-] & ->).
Qed.

Lemma dependency_item_value k v :
  dependency_item k v = Accepted tt → accepted_dependency_value k v.
Proof.
  unfold dependency_item. intros H. accepted_inv H as u Henforce.
  apply of_outcome_accepted in Henforce. destruct u.
  apply PackageFacts.enforce_key_types_map_ok in Henforce as (spec & Hspec & Hinst & _).
  split; [by exists spec|].
  destruct (String.eqb_spec k "issues") as [->|Hissues].
  { apply require_accepted, regex_found_true in H as (s & -> & Hs).
    repeat split; try done. intros _. exists s. split; [done|].
    rewrite search_http_or_https in Hs. by apply orb_true_iff in Hs. }
  destruct (String.eqb_spec k "name") as [->|Hname].
  { accepted_inv H as u Hvalid. apply require_accepted in Hvalid, H.
    destruct v; try discriminate. cbn in Hvalid, H.
    injection Hvalid as Hvalid. injection H as H.
    apply negb_true_iff in Hvalid, H.
    repeat split; try done. intros _. exists s. repeat split; [|done].
    by apply PackageFacts.valid_name_chars. }
  destruct (String.eqb_spec k "load_order") as [->|Horder].
  { apply require_accepted, regex_found_true in H as (s & -> & Hs).
    repeat split; try done. intros _. exists s. split; [done|].
    by apply load_order_regex_shape. }
  repeat split; done.
Qed.

End DependencyFacts.

(** A dependency that passes is an object with the keys [author],
    [releases], [issues], [description] and [load_order], each of whose
    keys is one of the six keys of a dependency with a value of the type of
    the key: [releases] is a list and the others are strings.  [issues]
    starts with [http://] or [https://]; [load_order] is two decimal
    digits, alone or followed by a line feed; [name], when the dependency
    has one, holds none of the characters refused in the name of a folder
    and does not start with a dot. *)
Theorem accepted_dependency (include : string) (data : json) :
  _test_dependency include data = Accepted tt →
  ∃ kvs, data = JObj kvs
    ∧ Forall (λ kv, accepted_dependency_value kv.1 kv.2) kvs
    ∧ Forall (λ key, Py.has_key key kvs = true)
             ["author"; "releases"; "issues"; "description"; "load_order"].
Proof.
  unfold _test_dependency. intros H.
  accepted_inv H as items Hitems. apply VerdictFacts.of_outcome_accepted in Hitems.
  destruct data as [| | | | | |kvs]; try discriminate. injection Hitems as <-.
  accepted_inv H as u Hvalues. apply VerdictFacts.each_accepted in Hvalues, H.
  exists kvs. split; [done|split].
  - eapply Forall_impl; [exact Hvalues|]. intros [k v] Hkv.
    by apply DependencyFacts.dependency_item_value.
  - eapply Forall_impl; [exact H|]. intros key Hkey.
    apply VerdictFacts.require_accepted in Hkey. by injection Hkey.
Qed.

Lemma accepted_dependency_witness :
  ∃ kvs,
    JObj [("name", JStr "bz2"); ("load_order", JStr "02");
          ("description", JStr "Python bz2 module");
          ("author", JStr "wbond");
          ("issues", JStr "https://github.com/codexns/sublime-bz2/issues");
          ("releases", JList [])]
    = JObj kvs
    ∧ Forall (λ kv, accepted_dependency_value kv.1 kv.2) kvs
    ∧ Forall (λ key, Py.has_key key kvs = true)
             ["author"; "releases"; "issues"; "description"; "load_order"].
Proof.
  apply (accepted_dependency "./repository/dependencies.json").
  vm_compute. reflexivity.
Defined.

(** A dependency need not have a name to pass, and cannot have [details]:
    the name of a dependency that passes is the string that it gives to
    [name] when that string is not empty, and [get_package_name] raises
    [AttributeError] on every other dependency that passes. *)
Theorem name_of_accepted_dependency (include : string) (data : json) :
  _test_dependency include data = Accepted tt →
  ∃ kvs, data = JObj kvs
    ∧ Py.assoc "details" kvs = None
    ∧ match Py.assoc "name" kvs with
      | Some (JStr (String c rest)) =>
          get_package_name (JObj kvs) = Ok (JStr (String c rest))
      | Some (JStr "") | None => get_package_name (JObj kvs) = Raise AttributeError
      | Some _ => False
      end.
Proof.
  intros H. apply accepted_dependency in H as (kvs & -> & Hvalues & _).
  exists kvs. split; [done|]. rewrite Forall_forall in Hvalues.
  assert (Hdetails : Py.assoc "details" kvs = None).
  { destruct (Py.assoc "details" kvs) as [v|] eqn:Hv; [|done].
    apply PyFacts.assoc_In, list_elem_of_In, Hvalues in Hv.
    by destruct Hv as [(spec & [=] & _) _]. }
  split; [done|]. unfold get_package_name.
  cbn [Py.get mbind outcome_bind]. rewrite Hdetails.
  destruct (Py.assoc "name" kvs) as [v|] eqn:Hv; [|done].
  apply PyFacts.assoc_In, list_elem_of_In, Hvalues in Hv.
  destruct Hv as [(spec & [= <-] & Hinst) _]. cbn [fst snd] in Hinst.
  destruct v as [| | | |[|c rest]| |]; done.
Qed.

Lemma name_of_accepted_dependency_witness :
  ∃ kvs,
    JObj [("load_order", JStr "02"); ("description", JStr "Python bz2 module");
          ("author", JStr "wbond");
          ("issues", JStr "https://github.com/codexns/sublime-bz2/issues");
          ("releases", JList [])]
    = JObj kvs
    ∧ Py.assoc "details" kvs = None
    ∧ match Py.assoc "name" kvs with
      | Some (JStr (String c rest)) =>
          get_package_name (JObj kvs) = Ok (JStr (String c rest))
      | Some (JStr "") | None => get_package_name (JObj kvs) = Raise AttributeError
      | Some _ => False
      end.
Proof.
  apply (name_of_accepted_dependency "./repository/dependencies.json").
  vm_compute. reflexivity.
Defined.

Module ChannelFacts.
Import Re Words ReFacts PatternFacts VerdictFacts KeysFacts.

Lemma insert_sorted_perm x l : insert_sorted x l ≡ₚ x :: l.
Proof.
  induction l as [|y l IH]; [done|]. cbn [insert_sorted].
  destruct (String.leb x y); [done|]. rewrite IH. apply Permutation_swap.
Qed.

(** The sorted list holds the same keys as often. *)
Lemma sorted_perm l : sorted l ≡ₚ l.
Proof.
  induction l as [|x l IH]; [done|]. unfold sorted. cbn [foldr].
  rewrite insert_sorted_perm. by constructor.
Qed.

Lemma in_strings_In k ks : in_strings k ks = true ↔ In k ks.
Proof.
  unfold in_strings. rewrite existsb_exists. split.
  - by intros (x & Hx & ->%String.eqb_eq).
  - intros Hk. exists k. split; [done|apply String.eqb_refl].
Qed.

Lemma has_key_In k kvs : Py.has_key k kvs = true ↔ In k (map fst kvs).
Proof.
  unfold Py.has_key. induction kvs as [|[k' v'] kvs IH]; cbn [Py.assoc map fst In].
  - split; [discriminate|done].
  - destruct (String.eqb_spec k k') as [->|Hne].
    + split; [by left|done].
    + rewrite IH. split; [by right|]. by intros [|].
Qed.

Lemma all_str (l : list json) :
  Forall (λ v, ∃ s, v = JStr s) l ↔ ∃ strs, l = map JStr strs.
Proof.
  split.
  - induction 1 as [|v l [s ->] _ [strs ->]]; [by exists []|by exists (s :: strs)].
  - intros [strs ->]. apply Forall_forall. intros v Hv.
    apply list_elem_of_In, in_map_iff in Hv as (s & <- & _). eauto.
Qed.

Lemma test_channel_keys_iff kvs :
  test_channel_keys (JObj kvs) = Accepted tt ↔ accepted_channel kvs.
Proof.
  unfold test_channel_keys, accepted_channel.
  cbn [sorted_keys Py.getitem of_outcome mbind verdict_bind].
  assert (Hlen : length (sorted (map fst kvs)) = length kvs).
  { by rewrite (Permutation_length (sorted_perm _)), length_map. }
  rewrite Hlen. split.
  - intros H.
    accepted_inv H as u1 Hnumber. apply require_true in Hnumber.
    apply andb_true_iff in Hnumber as [Hlo Hhi].
    change ((2 <=? length kvs)%nat = true) in Hlo.
    change ((length kvs <=? 3)%nat = true) in Hhi.
    apply Nat.leb_le in Hlo, Hhi.
    accepted_inv H as u2 Hknown. apply each_accepted in Hknown.
    accepted_inv H as u3 Hfound. clear Hfound.
    destruct (Py.assoc "schema_version" kvs) as [schema|] eqn:Hschema; [|done].
    cbn [of_outcome mbind verdict_bind] in H.
    accepted_inv H as u4 Heq. apply require_true, eq_str_eq in Heq as ->.
    accepted_inv H as u5 Hrepos. clear Hrepos.
    destruct (Py.assoc "repositories" kvs) as [repos|] eqn:Hrepos; [|done].
    cbn [of_outcome mbind verdict_bind] in H.
    accepted_inv H as u6 Hlist. apply require_true, is_list in Hlist as [l ->].
    cbn [Py.iter of_outcome mbind verdict_bind] in H. apply each_accepted in H.
    repeat split; try done.
    + rewrite (sorted_perm _), Forall_map in Hknown.
      eapply Forall_impl; [exact Hknown|]. intros [k v] Hk.
      by apply require_true, in_strings_In in Hk.
    + assert (Hstr : Forall (λ v, ∃ s, v = JStr s) l).
      { eapply Forall_impl; [exact H|]. intros v Hv.
        by apply require_true, is_str in Hv. }
      apply all_str in Hstr as [strs ->]. by exists strs.
  - intros ((Hlo & Hhi) & Hknown & Hschema & (repos & Hrepos)).
    apply bind_accepted. exists tt. split.
    { apply require_true, andb_true_iff. split; apply Nat.leb_le; [done|simpl; lia]. }
    apply bind_accepted. exists tt. split.
    { apply each_accepted. rewrite (sorted_perm _), Forall_map.
      eapply Forall_impl; [exact Hknown|]. intros [k v] Hk.
      by apply require_true, in_strings_In. }
    apply bind_accepted. exists tt. split.
    { apply require_true, in_strings_In.
      apply list_elem_of_In. rewrite (sorted_perm _). apply list_elem_of_In.
      apply has_key_In, has_key_assoc. eauto. }
    rewrite Hschema. cbn [of_outcome mbind verdict_bind].
    apply bind_accepted. exists tt. split; [by apply require_true|].
    apply bind_accepted. exists tt. split.
    { apply require_true, in_strings_In.
      apply list_elem_of_In. rewrite (sorted_perm _). apply list_elem_of_In.
      apply has_key_In, has_key_assoc. eauto. }
    rewrite Hrepos. cbn [of_outcome mbind verdict_bind].
    apply bind_accepted. exists tt. split; [by apply require_true|].
    cbn [Py.iter of_outcome mbind verdict_bind]. apply each_accepted.
    apply Forall_forall. intros v Hv.
    apply list_elem_of_In, in_map_iff in Hv as (s & <- & _). by apply require_true.
Qed.

(** [^(\.|https://)] finds a dot or [https://] at the start. *)
Lemma search_relative_or_https s :
  search_from_start relative_or_https s = true ↔ relative_or_secure s.
Proof.
  unfold relative_or_secure, Text.startswith. rewrite search_from_start_lang, !prefix_app.
  unfold relative_or_https. split.
  - intros (s1 & s2 & -> & [H|H]).
    + apply lang_chr in H as ->. left. by exists s2.
    + apply lang_lit in H as ->. right. by exists s2.
  - intros [[t ->]|[t ->]].
    + exists ".", t. split; [done|]. left. by apply lang_chr.
    + exists "https://", t. split; [done|]. right. by apply lang_lit.
Qed.

End ChannelFacts.

(** [test_channel_keys] passes exactly on an object of two or three items
    with no key outside [$schema], [repositories] and [schema_version], that
    gives "3.0.0" to [schema_version] and a list of strings to
    [repositories]. *)
Theorem channel_keys_accepted (j : json) :
  test_channel_keys j = Accepted tt ↔ ∃ kvs, j = JObj kvs ∧ accepted_channel kvs.
Proof.
  split.
  - intros H. destruct j as [| | | | | |kvs]; try discriminate.
    exists kvs. split; [done|]. by apply ChannelFacts.test_channel_keys_iff.
  - intros (kvs & -> & H). by apply ChannelFacts.test_channel_keys_iff.
Qed.

(** [test_channel_repositories] passes exactly when the channel gives to
    [repositories] a list of strings, each of which starts with a dot or
    with [https://], that is in alphabetical order whatever the case. *)
Theorem channel_repositories_accepted (j : json) :
  test_channel_repositories j = Accepted tt
  ↔ ∃ repos,
      Py.getitem "repositories" j = Ok (JList (map JStr repos))
      ∧ Forall relative_or_secure repos
      ∧ StronglySorted lower_le repos.
Proof.
  unfold test_channel_repositories. split.
  - intros H. accepted_inv H as repos Hrepos.
    apply VerdictFacts.of_outcome_accepted in Hrepos.
    accepted_inv H as items Hitems. apply VerdictFacts.of_outcome_accepted in Hitems.
    accepted_inv H as u Hstart. apply VerdictFacts.each_accepted in Hstart.
    accepted_inv H as names Hnames. apply VerdictFacts.of_outcome_accepted in Hnames.
    apply RegistryFacts.strings_of_ok in Hnames as ->.
    apply VerdictFacts.require_true, andb_true_iff in H as [Hlist Hsorted].
    apply KeysFacts.is_list in Hlist as [l ->]. injection Hitems as ->.
    apply bool_decide_eq_true in Hsorted.
    exists names. repeat split; [done| |by apply SortFacts.sorted_by_lower_fixed].
    rewrite Forall_map in Hstart. eapply Forall_impl; [exact Hstart|].
    intros repo Hrepo. cbn [regex_found] in Hrepo.
    by apply VerdictFacts.require_true, ChannelFacts.search_relative_or_https in Hrepo.
  - intros (repos & -> & Hstart & Hsorted).
    cbn [of_outcome mbind verdict_bind Py.iter].
    apply VerdictFacts.bind_accepted. exists tt. split.
    { apply VerdictFacts.each_accepted. rewrite Forall_map.
      eapply Forall_impl; [exact Hstart|]. intros repo Hrepo. cbn [regex_found].
      by apply VerdictFacts.require_true, ChannelFacts.search_relative_or_https. }
    rewrite RegistryFacts.strings_of_strings. cbn [of_outcome mbind verdict_bind].
    apply VerdictFacts.require_true, andb_true_iff. split; [done|].
    apply bool_decide_eq_true. by apply SortFacts.sorted_by_lower_fixed.
Qed.

Module GeneratorFacts.

(** How [open_document] ends. *)
Lemma open_document_stops w path ses r :
  open_document w path ses = inl r →
  (yielded r = [] ∨ ∃ msg, yielded r = [Call_test_error msg])
  ∧ ∃ found, stream (session_after r) = stream ses ++ [Visiting path; found; Newline]
      ∧ found ≠ Done ∧ report_line [Visiting path; found; Newline].
Proof.
  unfold open_document. intros H.
  repeat match type of H with
         | match ?x with _ => _ end = _ => destruct x eqn:?
         | (if ?b then _ else _) = _ => destruct b eqn:?
         end;
    try discriminate; injection H as <-; cbn;
    (split; [eauto|]); rewrite <- ?app_assoc; cbn;
    eexists; (split; [reflexivity|]); (split; [discriminate|]);
    eexists _, _; split; reflexivity || exact I.
Qed.

Lemma open_document_goes_on w path ses data ses' :
  open_document w path ses = inr (data, ses') →
  Py.getitem "schema_version" data = Ok (JStr "3.0.0")
  ∧ stream ses' = stream ses ++ [Visiting path; Done; Newline]
  ∧ skipped_repositories ses' = skipped_repositories ses.
Proof.
  unfold open_document. intros H.
  repeat match type of H with
         | match ?x with _ => _ end = _ => destruct x eqn:?
         | (if ?b then _ else _) = _ => destruct b eqn:?
         end;
    try discriminate. injection H as <- <-. cbn. rewrite <- !app_assoc.
  repeat split.
  match goal with H : negb (Py.eq_str ?schema _) = false |- _ =>
    apply negb_false_iff, KeysFacts.eq_str_eq in H; subst schema end.
  match goal with H : raised ?o = inr (JStr "3.0.0") |- _ =>
    by destruct o; [injection H as ->|] end.
Qed.

(** The calls that a part of the generator yields all satisfy [Q]. *)
Definition yields {A} (Q : check_call → Prop) (g : gen A) : Prop := Forall Q g.1.

Lemma yields_bind {A B} Q (m : gen A) (k : A → gen B) :
  yields Q m → (∀ a, yields Q (k a)) → yields Q (m ≫= k).
Proof.
  unfold yields. destruct m as [calls [e|a]]; cbn; [done|].
  intros Hm Hk. specialize (Hk a). destruct (k a) as [calls' r]. cbn in *.
  by apply Forall_app.
Qed.

Lemma yields_eval {A} Q (o : outcome A) : yields Q (eval o).
Proof. constructor. Qed.

Lemma yields_ret {A} Q (a : A) : yields Q (mret a).
Proof. constructor. Qed.

Lemma yields_yield Q c : Q c → yields Q (yield c).
Proof. intros H. by constructor. Qed.

Lemma yields_for {A} Q (xs : list A) (body : A → gen unit) :
  (∀ x, yields Q (body x)) → yields Q (gen_for xs body).
Proof.
  intros H. induction xs as [|x xs IH]; cbn [gen_for]; [constructor|].
  by apply yields_bind.
Qed.

Lemma document_calls_yields path data :
  Py.getitem "schema_version" data = Ok (JStr "3.0.0") →
  yields remote_call (document_calls path data).
Proof.
  intros Hschema. unfold document_calls.
  apply yields_bind; [by apply yields_yield|intros _].
  apply yields_bind; [apply yields_eval|intros has_packages].
  apply yields_bind.
  - destruct has_packages; [|apply yields_ret].
    apply yields_bind; [apply yields_eval|intros packages].
    apply yields_for. intros package.
    apply yields_bind; [by apply yields_yield|intros _].
    apply yields_bind; [apply yields_eval|intros package_name].
    apply yields_bind; [apply yields_eval|intros has_releases].
    destruct has_releases; [|apply yields_ret].
    apply yields_bind; [apply yields_eval|intros releases].
    apply yields_for. intros release. by apply yields_yield.
  - intros _. apply yields_bind; [apply yields_eval|intros has_includes].
    destruct has_includes; [apply yields_eval|apply yields_ret].
Qed.

(** The first call that [_include_tests] yields for a document is the
    check of its keys. *)
Lemma document_calls_first path data :
  ∃ rest, (document_calls path data).1 = Call_test_repository_keys path data :: rest.
Proof.
  unfold document_calls. cbn [yield mbind gen_bind].
  match goal with |- context [let '(calls', r) := ?g in _] => destruct g as [calls r] end.
  cbn. eauto.
Qed.

Lemma and_then_yielded r k :
  yielded (and_then r k)
  = yielded r ++ match ended r with
                 | Exhausted => yielded (k (session_after r))
                 | _ => []
                 end.
Proof.
  unfold and_then. destruct (ended r); [done|by rewrite app_nil_r..].
Qed.

Lemma includes_loop_yields Q w delegate path includes ses :
  (∀ i_url ses', Forall Q (yielded (delegate i_url ses'))) →
  Forall Q (yielded (includes_loop w delegate path includes ses)).
Proof.
  intros Hdelegate. revert ses.
  induction includes as [|include rest IH]; intros ses; cbn [includes_loop].
  - constructor.
  - destruct (raised (urljoin w path include)) as [e|i_url]; [constructor|].
    rewrite and_then_yielded. apply Forall_app. split; [done|].
    destruct (ended _); by try constructor.
Qed.

Lemma include_tests_yields w fuel path ses :
  Forall remote_call (yielded (_include_tests w fuel path ses)).
Proof.
  revert path ses. induction fuel as [|fuel IH]; intros path ses;
    cbn [_include_tests]; [constructor|].
  destruct (open_document w path ses) as [r|[data ses']] eqn:Hopen.
  - apply open_document_stops in Hopen as [[->|[msg ->]] _]; by repeat constructor.
  - apply open_document_goes_on in Hopen as (Hschema & _).
    pose proof (document_calls_yields path data Hschema) as Hcalls.
    unfold yields in Hcalls.
    destruct (document_calls path data) as [calls [e|includes]]; [done|].
    rewrite and_then_yielded. apply Forall_app. split; [done|]. cbn.
    by apply includes_loop_yields.
Qed.

End GeneratorFacts.

(** Every release that [_include_tests] yields is checked as the release
    of a package outside the main repository, and every document whose
    keys it gives to check has the schema version "3.0.0": no call it
    yields checks a dependency, the release of a dependency, or the names
    or the indentation of a document.  The first call yielded for a
    document that is gone through is the check of its keys. *)
Theorem include_tests_calls (w : world) (fuel : nat) (path : string) (ses : session) :
  Forall remote_call (yielded (_include_tests w fuel path ses))
  ∧ (∀ data ses',
       open_document w path ses = inr (data, ses') →
       ∃ rest, yielded (_include_tests w (S fuel) path ses)
               = Call_test_repository_keys path data :: rest).
Proof.
  split; [apply GeneratorFacts.include_tests_yields|].
  intros data ses' Hopen. cbn [_include_tests]. rewrite Hopen.
  destruct (GeneratorFacts.document_calls_first path data) as [rest Hfirst].
  destruct (document_calls path data) as [calls [e|includes]];
    cbn [fst] in Hfirst; subst calls; [by exists rest|].
  rewrite GeneratorFacts.and_then_yielded. cbn. eauto.
Qed.

Lemma include_tests_calls_witness :
  let document :=
    JObj [("schema_version", JStr "3.0.0");
          ("packages", JList [JObj [("name", JStr "Alignment");
                                    ("releases", JList [JObj [("tags", JBool true)]])]])] in
  let w := one_document "{}" document in
  ∃ rest, yielded (_include_tests w 1 "https://example.com/packages.json" new_session)
          = Call_test_repository_keys "https://example.com/packages.json" document :: rest.
Proof.
  intros document w.
  apply (proj2 (include_tests_calls w 0 "https://example.com/packages.json" new_session)
           document
           (write Newline (write Done
              (write (Visiting "https://example.com/packages.json") new_session)))).
  reflexivity.
Defined.

(** The two assertions that [_test_repository_keys] makes on the schema
    version never fail on a document that [_include_tests] gives it to
    check: the generator has found the version to be "3.0.0" before it
    yields the call. *)
Theorem schema_version_checked_before
    (w : world) (fuel : nat) (path : string) (ses : session) :
  Forall (λ c,
            match c with
            | Call_test_repository_keys filename data =>
                _test_repository_keys filename data ≠ Refused SchemaVersionNotFound
                ∧ ∀ found,
                    _test_repository_keys filename data
                    ≠ Refused (SchemaVersionNotEqual found)
            | _ => True
            end)
         (yielded (_include_tests w fuel path ses)).
Proof.
  eapply Forall_impl; [apply GeneratorFacts.include_tests_yields|].
  intros [msg|filename data|p package|name p release dependency main_repo]; try done.
  cbn [remote_call]. intros Hschema.
  destruct data as [| | | | | |kvs]; try discriminate. cbn [Py.getitem] in Hschema.
  destruct (Py.assoc "schema_version" kvs) as [schema|] eqn:Hv; [|done].
  injection Hschema as ->.
  assert (Hsteps : ∀ f,
            _test_repository_keys filename (JObj kvs) = Refused f →
            f ≠ SchemaVersionNotFound ∧ ∀ found, f ≠ SchemaVersionNotEqual found).
  { intros f H. unfold _test_repository_keys in H.
    repeat (apply VerdictFacts.bind_refused in H as [H|(? & ? & H)];
            [first [ by apply VerdictFacts.of_outcome_refused in H
                   | apply VerdictFacts.require_refused in H as [Hc ->]
                   | apply VerdictFacts.each_refused in H as (? & _ & H);
                     repeat (apply VerdictFacts.bind_refused in H as [H|(? & _ & H)];
                             [by apply VerdictFacts.of_outcome_refused in H|]);
                     by apply VerdictFacts.require_refused in H as [_ ->] ]|]).
    all: try (apply VerdictFacts.each_refused in H as (? & _ & H);
              by apply VerdictFacts.require_refused in H as [_ ->]).
    all: try by (split; [|intros ?]).
    - cbn [Py.contains] in Hc. unfold Py.has_key in Hc. by rewrite Hv in Hc.
    - match goal with Hx : of_outcome (Py.getitem _ _) = Accepted _ |- _ =>
        cbn [Py.getitem] in Hx; rewrite Hv in Hx; injection Hx as <- end.
      discriminate Hc. }
  split; [|intros found]; intros H; by apply Hsteps in H as [? ?]; try congruence.
Qed.

Module ReportFacts.

Lemma reported_refl ses : reported ses ses.
Proof. split; [|done]. exists []. simpl. by rewrite app_nil_r. Qed.

Lemma reported_trans ses1 ses2 ses3 :
  reported ses1 ses2 → reported ses2 ses3 → reported ses1 ses3.
Proof.
  intros [(l1 & H1 & Hl1) Hk1] [(l2 & H2 & Hl2) Hk2]. split.
  - exists (l1 ++ l2). rewrite concat_app, H2, H1, <- app_assoc.
    split; [done|by apply Forall_app].
  - intros k. etrans; [apply Hk1|apply Hk2].
Qed.

Lemma reported_line ses ses' path found :
  stream ses' = stream ses ++ [Visiting path; found; Newline] →
  report_line [Visiting path; found; Newline] →
  (∀ k, (default 0 (skipped_repositories ses !! k)
         ≤ default 0 (skipped_repositories ses' !! k))%nat) →
  reported ses ses'.
Proof.
  intros Hstream Hline Hk. split; [|done].
  exists [[Visiting path; found; Newline]]. cbn. rewrite ?app_nil_r.
  split; [done|by constructor].
Qed.

Lemma count_grows (m : gmap Py.key nat) k k' :
  (default 0 (m !! k') ≤ default 0 (<[k := S (default 0 (m !! k))]> m !! k'))%nat.
Proof.
  destruct (decide (k = k')) as [->|Hne].
  - rewrite lookup_insert_eq. cbn. lia.
  - by rewrite lookup_insert_ne.
Qed.

Lemma open_document_reported w path ses :
  match open_document w path ses with
  | inl r => reported ses (session_after r)
  | inr (_, ses') => reported ses ses'
  end.
Proof.
  destruct (open_document w path ses) as [r|[data ses']] eqn:H.
  - pose proof (GeneratorFacts.open_document_stops _ _ _ _ H)
      as (_ & found & Hstream & _ & Hline).
    eapply reported_line; [done..|]. clear Hstream Hline.
    unfold open_document in H.
    repeat match type of H with
           | match ?x with _ => _ end = _ => destruct x eqn:?
           | (if ?b then _ else _) = _ => destruct b eqn:?
           end;
      try discriminate; injection H as <-; intros k'; cbn;
      first [ done | apply count_grows ].
  - apply GeneratorFacts.open_document_goes_on in H as (_ & Hstream & Hskipped).
    eapply reported_line; [done| |by rewrite Hskipped].
    by eexists _, _.
Qed.

Lemma includes_loop_reported w delegate path includes ses :
  (∀ i_url ses', reported ses' (session_after (delegate i_url ses'))) →
  reported ses (session_after (includes_loop w delegate path includes ses)).
Proof.
  intros Hdelegate. revert ses.
  induction includes as [|include rest IH]; intros ses; cbn [includes_loop].
  - apply reported_refl.
  - destruct (raised (urljoin w path include)) as [e|i_url]; [apply reported_refl|].
    unfold and_then. specialize (Hdelegate i_url ses).
    destruct (ended (delegate i_url ses)); [|done..].
    cbn [session_after]. eapply reported_trans; [exact Hdelegate|apply IH].
Qed.

End ReportFacts.

(** What [_include_tests] writes is made of whole lines, one for each
    document it visits: the path, one word on what was found there, and the
    end of the line; and it lowers no count of skipped repositories. *)
Theorem include_tests_report (w : world) (fuel : nat) (path : string) (ses : session) :
  reported ses (session_after (_include_tests w fuel path ses)).
Proof.
  revert path ses. induction fuel as [|fuel IH]; intros path ses;
    cbn [_include_tests]; [apply ReportFacts.reported_refl|].
  pose proof (ReportFacts.open_document_reported w path ses) as Hopen.
  destruct (open_document w path ses) as [r|[data ses']]; [done|].
  destruct (document_calls path data) as [calls [e|includes]]; [done|].
  unfold and_then. cbn [ended stop session_after].
  eapply ReportFacts.reported_trans; [exact Hopen|].
  by apply ReportFacts.includes_loop_reported.
Qed.

(** A document that cannot be obtained gives one failing check and ends
    the generator for that document: a download or a file that fails, a
    local file that is not UTF-8, an empty text, a text that does not
    parse.  But a downloaded document that is not UTF-8 gives no check: the
    exception of the decoding leaves the generator.  In every case the
    line written for the document says that it failed. *)
Theorem document_not_obtained (w : world) (fuel : nat) (path : string) (ses : session) :
  let r := _include_tests w (S fuel) path ses in
  let failed := stream (session_after r) = stream ses ++ [Visiting path; Failed; Newline] in
  let fails_with msg :=
    yielded r = [Call_test_error msg] ∧ ended r = Exhausted ∧ failed in
  (fetch w path = Unavailable →
   fails_with (if Patterns.is_remote path then DownloadingFailed path
               else OpeningFailed path))
  ∧ (fetch w path = NotUtf8 →
     if Patterns.is_remote path
     then yielded r = [] ∧ ended r = Aborted UnicodeDecodeError ∧ failed
     else fails_with (OpeningFailed path))
  ∧ (fetch w path = Text "" → fails_with (IsEmpty path))
  ∧ (∀ source, fetch w path = Text source → source ≠ "" →
       json_loads w source = None → fails_with (CouldNotParse path)).
Proof.
  cbn zeta. cbn [_include_tests]. unfold open_document.
  split; [|split; [|split]].
  - intros ->. destruct (Patterns.is_remote path); cbn; by rewrite <- !app_assoc.
  - intros ->. destruct (Patterns.is_remote path); cbn; by rewrite <- !app_assoc.
  - intros ->. cbn. by rewrite <- !app_assoc.
  - intros source -> Hsource ->. destruct (String.eqb_spec source ""); [done|].
    cbn. by rewrite <- !app_assoc.
Qed.

Lemma document_not_obtained_witness :
  let r := _include_tests no_document 1 "https://example.com/packages.json" new_session in
  yielded r = [Call_test_error (DownloadingFailed "https://example.com/packages.json")]
  ∧ ended r = Exhausted
  ∧ stream (session_after r)
    = [Visiting "https://example.com/packages.json"; Failed; Newline].
Proof.
  apply (proj1 (document_not_obtained no_document 0
                  "https://example.com/packages.json" new_session)).
  reflexivity.
Defined.
